(** * exfix: date-candidate extraction and precision ranking

    A shallow embedding of [DateExtractor] from [exfix.py] and the
    properties of its scanners, scorer and resolver.

    Conventions of the embedding.
    - Python [str] values are [string]s over ASCII; the regular expression
      engine works on their character lists.
    - Python [int]s are [Z].
    - Exceptions are explicit: a computation that may raise returns a
      [result]; the [dates] list a scanner appends to is threaded as state,
      so that what was appended before an exception is kept, as in Python.
    - [datetime.now().year] is the parameter [current_year].
    - The JSON object printed by exiftool is a [gmap string json]: its
      values are whatever [json.loads] gives, texts and numbers alike.
    - The platform is CPython on Linux: [strftime] leaves the year
      unpadded, and the local time zone, the outcome of running exiftool
      and that of [os.utime] are parameters. *)

From Stdlib Require Import ZArith Lia Bool Ascii String List Permutation Sorted.
From stdpp Require Import base strings gmap.
Import ListNotations.

Local Open Scope string_scope.
Local Open Scope list_scope.
Local Open Scope Z_scope.

(** ** Text helpers *)

Module Text.

(** [needle in haystack] of Python, on character lists. *)
Fixpoint starts_with (p s : list ascii) : bool :=
  match p, s with
  | [], _ => true
  | _ :: _, [] => false
  | a :: p', b :: s' => if Ascii.eqb a b then starts_with p' s' else false
  end.

Fixpoint contains_chars (p s : list ascii) : bool :=
  if starts_with p s then true
  else match s with
       | [] => false
       | _ :: s' => contains_chars p s'
       end.

Definition chars (s : string) : list ascii := list_ascii_of_string s.
Definition text (l : list ascii) : string := string_of_list_ascii l.

(** [p in s] *)
Definition contains (p s : string) : bool :=
  contains_chars (chars p) (chars s).

End Text.

Notation "p 'in_str' s" := (Text.contains p s) (at level 65, no associativity).

(** ** Exceptions *)

Inductive exn : Type :=
| ValueError
| IndexError
| TypeError.

Inductive result (A : Type) : Type :=
| Ok (a : A)
| Raise (e : exn).
Arguments Ok {A} a.
Arguments Raise {A} e.

Definition rbind {A B} (r : result A) (k : A -> result B) : result B :=
  match r with
  | Ok a => k a
  | Raise e => Raise e
  end.

Notation "'let?' x ':=' r 'in' k" := (rbind r (fun x => k))
  (at level 10, x name, r at level 100, k at level 200).

(** ** datetime *)

Record datetime : Type := mk_datetime {
  year : Z; month : Z; day : Z;
  hour : Z; minute : Z; second : Z
}.

Definition is_leap (y : Z) : bool :=
  (y mod 4 =? 0) && ((negb (y mod 100 =? 0)) || (y mod 400 =? 0)).

Definition days_in_month (y m : Z) : Z :=
  if m =? 2 then (if is_leap y then 29 else 28)
  else if (m =? 4) || (m =? 6) || (m =? 9) || (m =? 11) then 30
  else 31.

Definition in_range (lo x hi : Z) : bool := (lo <=? x) && (x <=? hi).

(** The constructor [datetime(y, m, d, H, M, S)]: [ValueError] when a
    field is out of range. *)
Definition datetime_new (y m d H M S : Z) : result datetime :=
  if in_range 1 y 9999 && in_range 1 m 12 && in_range 1 d (days_in_month y m)
     && in_range 0 H 23 && in_range 0 M 59 && in_range 0 S 59
  then Ok (mk_datetime y m d H M S)
  else Raise ValueError.

(** The six fields, in comparison order. *)
Definition fields (dt : datetime) : list Z :=
  [year dt; month dt; day dt; hour dt; minute dt; second dt].

Fixpoint lex_ltb (a b : list Z) : bool :=
  match a, b with
  | x :: a', y :: b' => (x <? y) || ((x =? y) && lex_ltb a' b')
  | [], _ :: _ => true
  | _, [] => false
  end.

Fixpoint lex_eqb (a b : list Z) : bool :=
  match a, b with
  | x :: a', y :: b' => (x =? y) && lex_eqb a' b'
  | [], [] => true
  | _, _ => false
  end.

(** [a < b] and [a == b] on naive datetimes. *)
Definition dt_ltb (a b : datetime) : bool := lex_ltb (fields a) (fields b).
Definition dt_eqb (a b : datetime) : bool := lex_eqb (fields a) (fields b).

(** ** Regular expressions

    The fragment of Python's [re] that the pattern catalogue and
    [datetime.strptime] use: character classes, greedy repetition of a
    class, capturing groups, sequence, ordered alternation and the two
    anchors.  [run] lists every way the backtracking matcher can match at
    the current position, in the order in which it tries them, so its head
    is the match Python reports. *)

Module Regex.

Definition cclass : Type := ascii -> bool.

Inductive regex : Type :=
| Chr (p : cclass)                              (* one character of a class *)
| Rep (p : cclass) (lo : nat) (hi : option nat) (* p{lo,hi}, p+ is Rep p 1 None *)
| Grp (r : regex)                               (* ( r ) *)
| Seq (r1 r2 : regex)
| Alt (r1 r2 : regex)                           (* r1 | r2, r1 tried first *)
| Bol                                           (* ^ *)
| Eol.                                          (* $ *)

Record mstate : Type := mk_mstate {
  pos : nat;                 (* index of the next character *)
  rest : list ascii;         (* the text from [pos] on *)
  caps : list (list ascii)   (* groups closed so far, in order *)
}.

Fixpoint span (p : cclass) (s : list ascii) : nat :=
  match s with
  | a :: s' => if p a then S (span p s') else O
  | [] => O
  end.

Definition advance (k : nat) (st : mstate) : mstate :=
  mk_mstate (pos st + k)%nat (skipn k (rest st)) (caps st).

(** Greedy: the longest count first, down to [lo]. *)
Definition counts (lo n : nat) : list nat := rev (seq lo (S n - lo)).

Definition cap_limit (hi : option nat) (n : nat) : nat :=
  match hi with
  | Some h => Nat.min h n
  | None => n
  end.

Definition close_group (st st' : mstate) : mstate :=
  mk_mstate (pos st') (rest st')
            (caps st' ++ [firstn (pos st' - pos st)%nat (rest st)]).

Definition newline : ascii := ascii_of_nat 10.

Fixpoint run (r : regex) (st : mstate) : list mstate :=
  match r with
  | Chr p =>
      match rest st with
      | a :: _ => if p a then [advance 1 st] else []
      | [] => []
      end
  | Rep p lo hi =>
      map (fun k => advance k st) (counts lo (cap_limit hi (span p (rest st))))
  | Grp r1 => map (close_group st) (run r1 st)
  | Seq r1 r2 => flat_map (run r2) (run r1 st)
  | Alt r1 r2 => run r1 st ++ run r2 st
  | Bol => if Nat.eqb (pos st) 0 then [st] else []
  | Eol =>
      match rest st with
      | [] => [st]
      | [a] => if Ascii.eqb a newline then [st] else []
      | _ => []
      end
  end.

(** [pattern.match(s, pos)]: the first way to match at [pos]. *)
Definition match_at (r : regex) (p : nat) (s : list ascii) : option mstate :=
  head (run r (mk_mstate p s [])).

Record rmatch : Type := mk_rmatch {
  m_start : nat;
  m_end : nat;
  m_groups : list string     (* match.groups() *)
}.

Definition to_rmatch (p : nat) (st : mstate) : rmatch :=
  mk_rmatch p (pos st) (map Text.text (caps st)).

(** [re.finditer]: leftmost matches, each search resuming where the
    previous match ended.  [skip] counts the characters of the previous
    match still to be passed over.  (After an empty match the scan moves
    on by one character; no catalogue entry can match the empty text.) *)
Fixpoint scan (r : regex) (p skip : nat) (s : list ascii) : list rmatch :=
  match s with
  | [] =>
      match skip, match_at r p [] with
      | O, Some st => [to_rmatch p st]
      | _, _ => []
      end
  | _ :: s' =>
      match skip with
      | S k => scan r (S p) k s'
      | O =>
          match match_at r p s with
          | Some st => to_rmatch p st :: scan r (S p) (pos st - p - 1)%nat s'
          | None => scan r (S p) O s'
          end
      end
  end.

Definition finditer (r : regex) (s : string) : list rmatch :=
  scan r O O (Text.chars s).

(** Number of groups, and the shape in which groups are numbered by
    [caps] as Python numbers them: no group inside a group or inside an
    alternative. *)
Fixpoint ngroups (r : regex) : nat :=
  match r with
  | Grp r1 => S (ngroups r1)
  | Seq r1 r2 | Alt r1 r2 => (ngroups r1 + ngroups r2)%nat
  | _ => O
  end.

Fixpoint flat_groups (r : regex) : bool :=
  match r with
  | Grp r1 => Nat.eqb (ngroups r1) 0
  | Seq r1 r2 => flat_groups r1 && flat_groups r2
  | Alt r1 r2 => Nat.eqb (ngroups r1) 0 && Nat.eqb (ngroups r2) 0
  | _ => true
  end.

(** Character classes. *)
Definition code (a : ascii) : Z := Z.of_N (N_of_ascii a).
Definition lit (c : ascii) : cclass := fun a => Ascii.eqb a c.
Definition range (lo hi : ascii) : cclass :=
  fun a => (code lo <=? code a) && (code a <=? code hi).
Definition union (p q : cclass) : cclass := fun a => p a || q a.
Definition compl (p : cclass) : cclass := fun a => negb (p a).

(** [\d], restricted to ASCII text. *)
Definition digit : cclass := range "0" "9".
(** [\s] on ASCII text: TAB, LF, VT, FF, CR, FS, GS, RS, US and space. *)
Definition space : cclass :=
  fun a => in_range 9 (code a) 13 || in_range 28 (code a) 31 || (code a =? 32).
(** [[A-Za-z]]; under [re.IGNORECASE] it is the same class on ASCII. *)
Definition alpha : cclass := union (range "A" "Z") (range "a" "z").

(** A literal, matched ignoring case, as in a pattern compiled with
    [re.IGNORECASE]. *)
Definition lower (a : ascii) : ascii :=
  if range "A" "Z" a then ascii_of_N (N_of_ascii a + 32) else a.
Definition lit_ci (c : ascii) : cclass := fun a => Ascii.eqb (lower a) (lower c).

(** A non-empty literal word [c w]. *)
Fixpoint word_ci (c : ascii) (w : list ascii) : regex :=
  match w with
  | [] => Chr (lit_ci c)
  | c' :: w' => Seq (Chr (lit_ci c)) (word_ci c' w')
  end.

(** [r1 r2 ... rn], and [r1 | r2 | ... | rn]. *)
Fixpoint seq_of (r : regex) (rs : list regex) : regex :=
  match rs with
  | [] => r
  | r' :: rs' => Seq r (seq_of r' rs')
  end.

Fixpoint alt_of (r : regex) (rs : list regex) : regex :=
  match rs with
  | [] => r
  | r' :: rs' => Alt r (alt_of r' rs')
  end.

End Regex.

(** ** [int(text)]

    On the texts this program converts: decimal digits, possibly
    surrounded by white space (a [%d] group of [strptime] may start with a
    space); the empty text and anything else is a [ValueError].  Signs and
    digit-group underscores cannot reach [int] here and are not
    modelled. *)

Module PyInt.

Fixpoint lstrip (s : list ascii) : list ascii :=
  match s with
  | a :: s' => if Regex.space a then lstrip s' else s
  | [] => []
  end.

Definition strip (s : list ascii) : list ascii :=
  rev (lstrip (rev (lstrip s))).

Definition digit_value (a : ascii) : Z := Regex.code a - 48.

Fixpoint digits_value (acc : Z) (s : list ascii) : Z :=
  match s with
  | a :: s' => digits_value (10 * acc + digit_value a) s'
  | [] => acc
  end.

Definition int_chars (s : list ascii) : result Z :=
  match strip s with
  | [] => Raise ValueError
  | t => if forallb Regex.digit t then Ok (digits_value 0 t) else Raise ValueError
  end.

Definition int (s : string) : result Z := int_chars (Text.chars s).

End PyInt.

(** ** [datetime.strptime] (C locale)

    As in [_strptime.py]: the format is turned into a regular expression
    with one group per directive, compiled with [re.IGNORECASE] and
    matched at the start of the text; the whole text must be consumed; the
    groups are converted and the [datetime] is built. *)

Module Strptime.
Import Regex.

Inductive item : Type :=
| Dir (c : ascii)     (* %c *)
| Lit (c : ascii)     (* a literal character *)
| Ws                  (* a run of white space, compiled to \s+ *)
| Stray.              (* a % that ends the format *)

Fixpoint parse_format (in_ws : bool) (f : list ascii) : list item :=
  match f with
  | [] => []
  | c :: f' =>
      if Ascii.eqb c "%" then
        match f' with
        | [] => [Stray]
        | d :: f'' => Dir d :: parse_format false f''
        end
      else if space c then
        (if in_ws then parse_format true f' else Ws :: parse_format true f')
      else Lit c :: parse_format false f'
  end.

Definition one (c : ascii) : regex := Chr (lit c).
Definition rng (a b : ascii) : regex := Chr (range a b).
Definition dig : regex := Chr digit.

Definition month_abbr : list string :=
  ["jan"; "feb"; "mar"; "apr"; "may"; "jun";
   "jul"; "aug"; "sep"; "oct"; "nov"; "dec"].

Definition word_of (s : string) : regex :=
  match Text.chars s with
  | c :: w => word_ci c w
  | [] => Rep digit 0 (Some O)
  end.

(** The regular expressions of the directives the program uses. *)
Definition re_d : regex :=     (* 3[0-1]|[1-2]\d|0[1-9]|[1-9]| [1-9] *)
  alt_of (Seq (one "3") (rng "0" "1"))
         [Seq (rng "1" "2") dig; Seq (one "0") (rng "1" "9");
          rng "1" "9"; Seq (one " ") (rng "1" "9")].
Definition re_m : regex :=     (* 1[0-2]|0[1-9]|[1-9] *)
  alt_of (Seq (one "1") (rng "0" "2")) [Seq (one "0") (rng "1" "9"); rng "1" "9"].
Definition re_Y : regex := seq_of dig [dig; dig; dig].     (* \d\d\d\d *)
Definition re_y : regex := Seq dig dig.                    (* \d\d *)
Definition re_H : regex :=     (* 2[0-3]|[0-1]\d|\d *)
  alt_of (Seq (one "2") (rng "0" "3")) [Seq (rng "0" "1") dig; dig].
Definition re_M : regex :=     (* [0-5]\d|\d *)
  alt_of (Seq (rng "0" "5") dig) [dig].
Definition re_S : regex :=     (* 6[0-1]|[0-5]\d|\d *)
  alt_of (Seq (one "6") (rng "0" "1")) [Seq (rng "0" "5") dig; dig].
Definition re_b : regex :=     (* jan|feb|...|dec *)
  alt_of (word_of "jan") (map word_of (tl month_abbr)).

Definition directive_regex (c : ascii) : option regex :=
  if Ascii.eqb c "d" then Some re_d
  else if Ascii.eqb c "m" then Some re_m
  else if Ascii.eqb c "Y" then Some re_Y
  else if Ascii.eqb c "y" then Some re_y
  else if Ascii.eqb c "H" then Some re_H
  else if Ascii.eqb c "M" then Some re_M
  else if Ascii.eqb c "S" then Some re_S
  else if Ascii.eqb c "b" then Some re_b
  else None.

Definition item_regex (i : item) : option regex :=
  match i with
  | Dir c => option_map Grp (directive_regex c)
  | Lit c => Some (Chr (lit_ci c))
  | Ws => Some (Rep space 1 None)
  | Stray => None
  end.

(** The compiled format; [None] is the [ValueError] for a bad
    directive. *)
Fixpoint compile (its : list item) : option (list regex) :=
  match its with
  | [] => Some []
  | i :: its' =>
      match item_regex i, compile its' with
      | Some r, Some rs => Some (r :: rs)
      | _, _ => None
      end
  end.

Fixpoint run_all (rs : list regex) (st : mstate) : list mstate :=
  match rs with
  | [] => [st]
  | r :: rs' => flat_map (run_all rs') (run r st)
  end.

Fixpoint directives (its : list item) : list ascii :=
  match its with
  | Dir c :: its' => c :: directives its'
  | _ :: its' => directives its'
  | [] => []
  end.

Record found : Type := mk_found {
  f_year : option Z; f_month : Z; f_day : Z;
  f_hour : Z; f_minute : Z; f_second : Z
}.

Definition found0 : found := mk_found None 1 1 0 0 0.

Fixpoint index_of (w : string) (l : list string) (i : Z) : result Z :=
  match l with
  | [] => Raise ValueError
  | x :: l' => if String.eqb w x then Ok i else index_of w l' (i + 1)
  end.

Definition lower_text (s : list ascii) : string := Text.text (map lower s).

Definition convert (c : ascii) (g : list ascii) (f : found) : result found :=
  if Ascii.eqb c "y" then
    let? v := PyInt.int_chars g in
    Ok (mk_found (Some (if v <=? 68 then v + 2000 else v + 1900))
                 (f_month f) (f_day f) (f_hour f) (f_minute f) (f_second f))
  else if Ascii.eqb c "Y" then
    let? v := PyInt.int_chars g in
    Ok (mk_found (Some v) (f_month f) (f_day f) (f_hour f) (f_minute f) (f_second f))
  else if Ascii.eqb c "m" then
    let? v := PyInt.int_chars g in
    Ok (mk_found (f_year f) v (f_day f) (f_hour f) (f_minute f) (f_second f))
  else if Ascii.eqb c "b" then
    let? v := index_of (lower_text g) month_abbr 1 in
    Ok (mk_found (f_year f) v (f_day f) (f_hour f) (f_minute f) (f_second f))
  else if Ascii.eqb c "d" then
    let? v := PyInt.int_chars g in
    Ok (mk_found (f_year f) (f_month f) v (f_hour f) (f_minute f) (f_second f))
  else if Ascii.eqb c "H" then
    let? v := PyInt.int_chars g in
    Ok (mk_found (f_year f) (f_month f) (f_day f) v (f_minute f) (f_second f))
  else if Ascii.eqb c "M" then
    let? v := PyInt.int_chars g in
    Ok (mk_found (f_year f) (f_month f) (f_day f) (f_hour f) v (f_second f))
  else if Ascii.eqb c "S" then
    let? v := PyInt.int_chars g in
    Ok (mk_found (f_year f) (f_month f) (f_day f) (f_hour f) (f_minute f) v)
  else Ok f.

Fixpoint convert_all (cs : list ascii) (gs : list (list ascii)) (f : found)
  : result found :=
  match cs, gs with
  | c :: cs', g :: gs' => let? f' := convert c g f in convert_all cs' gs' f'
  | _, _ => Ok f
  end.

Definition default_year (f : found) : Z :=
  match f_year f with
  | Some y => y
  | None => if (f_month f =? 2) && (f_day f =? 29) then 1904 else 1900
  end.

Definition strptime (data format : string) : result datetime :=
  let items := parse_format false (Text.chars format) in
  match compile items with
  | None => Raise ValueError
  | Some rs =>
      match run_all rs (mk_mstate O (Text.chars data) []) with
      | [] => Raise ValueError              (* does not match format *)
      | st :: _ =>
          match rest st with
          | _ :: _ => Raise ValueError      (* unconverted data remains *)
          | [] =>
              let? f := convert_all (directives items) (caps st) found0 in
              datetime_new (default_year f) (f_month f) (f_day f)
                           (f_hour f) (f_minute f) (f_second f)
          end
      end
  end.

End Strptime.

(** ** The scanner monad

    A scanner appends to its [dates] list while it runs and may raise: a
    computation takes the list and returns it, possibly extended, with a
    value or the exception raised. *)

Definition candidate : Type := datetime * string.

Module Scan.

Definition M (A : Type) : Type := list candidate -> result A * list candidate.

Definition ret {A} (a : A) : M A := fun ds => (Ok a, ds).

Definition bind {A B} (m : M A) (k : A -> M B) : M B :=
  fun ds =>
    match m ds with
    | (Ok a, ds') => k a ds'
    | (Raise e, ds') => (Raise e, ds')
    end.

Definition lift {A} (r : result A) : M A := fun ds => (r, ds).

(** [dates.append(c)] *)
Definition append (c : candidate) : M unit := fun ds => (Ok tt, ds ++ [c]).

(** [try: body / except ValueError: handler] *)
Definition try_except (body handler : M unit) : M unit :=
  fun ds =>
    match body ds with
    | (Raise ValueError, ds') => handler ds'
    | other => other
    end.

(** [pass], and [continue] as the last action of a loop body. *)
Definition pass : M unit := ret tt.
Definition continue : M unit := ret tt.

(** [for x in xs: body] *)
Fixpoint for_each {A} (xs : list A) (body : A -> M unit) : M unit :=
  match xs with
  | [] => ret tt
  | x :: xs' => bind (body x) (fun _ => for_each xs' body)
  end.

(** [if c: m] *)
Definition when (c : bool) (m : M unit) : M unit := if c then m else ret tt.

(** A scanner body started on an empty list; [return dates]. *)
Definition collect (m : M unit) : result (list candidate) :=
  match m [] with
  | (Ok _, ds) => Ok ds
  | (Raise e, _) => Raise e
  end.

End Scan.

Notation "x <- m ;; k" := (Scan.bind m (fun x => k))
  (at level 100, m at next level, right associativity).
Notation "m ;; k" := (Scan.bind m (fun _ => k))
  (at level 100, right associativity).

(** ** Python helpers used by the scanners *)

Module Py.

(** [l[i]] *)
Definition item (l : list string) (i : nat) : result string :=
  match nth_error l i with
  | Some x => Ok x
  | None => Raise IndexError
  end.

(** [a, b, c = l] and [a, b = l]: a wrong count is a [ValueError]. *)
Definition unpack3 (l : list string) : result (string * string * string) :=
  match l with
  | [a; b; c] => Ok (a, b, c)
  | _ => Raise ValueError
  end.

Definition unpack2 (l : list string) : result (string * string) :=
  match l with
  | [a; b] => Ok (a, b)
  | _ => Raise ValueError
  end.

(** [match.group(1)] *)
Definition group1 (m : Regex.rmatch) : result string :=
  item (Regex.m_groups m) 0.

(** [s[:n]] and [s[n:]] *)
Definition take (n : nat) (s : string) : string :=
  Text.text (firstn n (Text.chars s)).
Definition drop (n : nat) (s : string) : string :=
  Text.text (skipn n (Text.chars s)).

(** ["-".join(l)] *)
Fixpoint join_dash (l : list string) : string :=
  match l with
  | [] => ""
  | [x] => x
  | x :: l' => x +:+ "-" +:+ join_dash l'
  end.

(** [s.replace(a, b)] for single characters. *)
Definition replace (a b : ascii) (s : string) : string :=
  Text.text (map (fun c => if Ascii.eqb c a then b else c) (Text.chars s)).

End Py.

(** ** [pathlib.Path] (POSIX flavour): [parts] and [stem] *)

Module PathLib.

Fixpoint split_on (sep : ascii) (cur : list ascii) (s : list ascii)
  : list (list ascii) :=
  match s with
  | [] => [rev cur]
  | a :: s' =>
      if Ascii.eqb a sep then rev cur :: split_on sep [] s'
      else split_on sep (a :: cur) s'
  end.

Definition slash : ascii := "/".

(** The root: [//] for exactly two leading slashes, [/] for any other
    number of them, none for a relative path. *)
Definition root (s : list ascii) : list (list ascii) :=
  let n := Regex.span (Regex.lit slash) s in
  if Nat.eqb n 0 then [] else if Nat.eqb n 2 then [[slash; slash]] else [[slash]].

Definition keep (x : list ascii) : bool :=
  match x with
  | [] => false
  | [c] => negb (Ascii.eqb c ".")
  | _ => true
  end.

Definition components (s : list ascii) : list (list ascii) :=
  filter keep (split_on slash [] s).

(** [Path(file_path).parts] *)
Definition parts (file_path : string) : list string :=
  let s := Text.chars file_path in
  map Text.text (root s ++ components s).

(** [Path(file_path).name] *)
Definition name (file_path : string) : list ascii :=
  List.last (components (Text.chars file_path)) [].

(** [name.rfind('.')], counting from index [i]. *)
Fixpoint rfind_dot (s : list ascii) (i : nat) (found : option nat) : option nat :=
  match s with
  | [] => found
  | a :: s' => rfind_dot s' (S i) (if Ascii.eqb a "." then Some i else found)
  end.

(** [Path(file_path).stem] *)
Definition stem (file_path : string) : string :=
  let n := name file_path in
  match rfind_dot n O None with
  | Some i =>
      if Nat.ltb 0 i && Nat.ltb i (length n - 1) then Text.text (firstn i n)
      else Text.text n
  | None => Text.text n
  end.

End PathLib.

(** ** [class DateExtractor] *)

(** ** JSON values

    What [json.loads] gives for a value of the object exiftool prints: a
    text in most cases, and a number where the value looks like one. *)

Module Json.

#[warnings="-register-all"] Inductive json : Type :=
| JNull
| JBool (b : bool)
| JInt (n : Z)
| JFloat (mantissa exponent : Z)      (* mantissa * 10 ^ exponent *)
| JString (s : string)
| JArray (items : list json)
| JObject (members : list (string * json)).

(** [if value:] *)
Definition truthy (value : json) : bool :=
  match value with
  | JNull => false
  | JBool b => b
  | JInt n => negb (n =? 0)
  | JFloat mantissa _ => negb (mantissa =? 0)
  | JString s => negb (String.eqb s "")
  | JArray items => match items with [] => false | _ :: _ => true end
  | JObject members => match members with [] => false | _ :: _ => true end
  end.

(** [datetime.strptime(value, format)]: a [TypeError] when the value is
    no text. *)
Definition strptime_value (value : json) (format : string) : result datetime :=
  match value with
  | JString s => Strptime.strptime s format
  | _ => Raise TypeError
  end.

End Json.

Module DateExtractor.
Import Regex Scan Json.

Record t : Type := mk {
  date_patterns : list (regex * string);
  exif_date_fields : list string
}.

(** Pieces of the catalogue's patterns. *)
Definition D (lo hi : nat) : regex := Grp (Rep digit lo (Some hi)).  (* (\d{lo,hi}) *)
Definition A3 : regex := Grp (Rep alpha 3 (Some 3%nat)).              (* ([A-Za-z]{3}) *)
Definition sep_date : regex :=                                       (* [_\-/] *)
  Chr (union (lit "_") (union (lit "-") (lit "/"))).
Definition sep_space : regex :=                                      (* [_\-\s] *)
  Chr (union (lit "_") (union (lit "-") space)).
Definition sep_time : regex :=                                       (* [:\-] *)
  Chr (union (lit ":") (lit "-")).
Definition non_digit : regex := Chr (compl digit).                   (* [^\d] *)

Definition pat_datetime_s : regex :=
  seq_of (D 4 4) [sep_date; D 1 2; sep_date; D 1 2; sep_space;
                  D 1 2; sep_time; D 1 2; sep_time; D 1 2].
Definition pat_datetime_m : regex :=
  seq_of (D 4 4) [sep_date; D 1 2; sep_date; D 1 2; sep_space;
                  D 1 2; sep_time; D 1 2].
Definition pat_ymd : regex := seq_of (D 4 4) [sep_date; D 1 2; sep_date; D 1 2].
Definition pat_dmy : regex := seq_of (D 1 2) [sep_date; D 1 2; sep_date; D 4 4].
Definition pat_compact : regex := seq_of (D 4 4) [D 2 2; D 2 2].
Definition pat_dmy2 : regex := seq_of (D 1 2) [sep_date; D 1 2; sep_date; D 2 2].
Definition pat_ymd2 : regex := seq_of (D 2 2) [sep_date; D 1 2; sep_date; D 1 2].
Definition pat_d_mon_y : regex := seq_of (D 1 2) [A3; D 2 4].
Definition pat_mon_d_y : regex := seq_of A3 [sep_space; D 1 2; sep_space; D 2 4].
Definition pat_y_mon_d : regex := seq_of (D 2 4) [sep_space; A3; sep_space; D 1 2].
Definition pat_ym : regex := seq_of (D 4 4) [sep_date; D 1 2].
Definition pat_ym_compact : regex := seq_of (D 4 4) [D 2 2].
Definition pat_year : regex :=                       (* (?:^|[^\d])(\d{4})(?:[^\d]|$) *)
  seq_of (Alt Bol non_digit) [D 4 4; Alt non_digit Eol].

(** [__init__] *)
Definition init : t :=
  mk [ (pat_datetime_s, "%Y-%m-%d-%H-%M-%S");
       (pat_datetime_m, "%Y-%m-%d-%H-%M");
       (pat_ymd, "%Y-%m-%d");
       (pat_dmy, "%d-%m-%Y");
       (pat_dmy, "%m-%d-%Y");
       (pat_compact, "%Y%m%d");
       (pat_dmy2, "%d-%m-%y");
       (pat_ymd2, "%y-%m-%d");
       (pat_d_mon_y, "%d%b%y");
       (pat_mon_d_y, "%b-%d-%y");
       (pat_y_mon_d, "%y-%b-%d");
       (pat_ym, "%Y-%m");
       (pat_ym_compact, "%Y%m");
       (pat_year, "%Y") ]
     [ "DateTimeOriginal"; "CreateDate"; "DateTime";
       "DateTimeDigitized"; "ModifyDate"; "FileModifyDate" ].

Definition invalid_dates : list datetime :=
  [ mk_datetime 1010 1 1 0 0 0;
    mk_datetime 1980 1 1 0 0 0;
    mk_datetime 1999 1 1 0 0 0;
    mk_datetime 2000 1 1 0 0 0;
    mk_datetime 1970 1 1 0 0 0 ].

Fixpoint not_placeholder (dt : datetime) (l : list datetime) : bool :=
  match l with
  | [] => true
  | inv :: l' =>
      if (year dt =? year inv) && (month dt =? month inv) && (day dt =? day inv)
      then false
      else not_placeholder dt l'
  end.

Definition is_valid_date (current_year : Z) (dt : datetime) : bool :=
  if (year dt <? 1970) || (year dt >? current_year + 1) then false
  else not_placeholder dt invalid_dates.

(** [datetime(int(parts[0]), ..., int(parts[n-1]))], the arguments
    evaluated left to right; missing time fields are 0. *)
Definition int_item (parts : list string) (i : nat) : result Z :=
  let? s := Py.item parts i in PyInt.int s.

Definition datetime_of_parts (parts : list string) (with_seconds : bool)
  : result datetime :=
  let? y := int_item parts 0 in
  let? m := int_item parts 1 in
  let? d := int_item parts 2 in
  let? H := int_item parts 3 in
  let? M := int_item parts 4 in
  if with_seconds
  then let? S := int_item parts 5 in datetime_new y m d H M S
  else datetime_new y m d H M 0.

(** [datetime(int(year), int(month), 1)] *)
Definition first_of_month (y m : string) : result datetime :=
  let? yi := PyInt.int y in
  let? mi := PyInt.int m in
  datetime_new yi mi 1 0 0 0.

Definition normal_format (date_format : string) : string :=
  Py.replace "/" "-" (Py.replace "_" "-" date_format).

Definition date_str (m : rmatch) : result string :=
  if Nat.eqb (length (m_groups m)) 1 then Py.group1 m
  else Ok (Py.join_dash (m_groups m)).

Definition is_in (x : string) (l : list string) : bool :=
  existsb (String.eqb x) l.

(** [f"{parts[0]}-{parts[1]}-{parts[2]}"] *)
Definition dashed3 (parts : list string) : result string :=
  let? a := Py.item parts 0 in
  let? b := Py.item parts 1 in
  let? c := Py.item parts 2 in
  Ok (a +:+ "-" +:+ b +:+ "-" +:+ c).

(** The body of [for match in matches] in [extract_filename_dates]. *)
Definition filename_match (current_year : Z) (date_format : string) (m : rmatch)
  : M unit :=
  try_except
    (if String.eqb date_format "%Y-%m-%d-%H-%M-%S" then
       dt <- lift (datetime_of_parts (m_groups m) true) ;;
       when (is_valid_date current_year dt)
            (append (dt, "filename:YYYY-MM-DD HH:MM:SS"))
     else if String.eqb date_format "%Y-%m-%d-%H-%M" then
       dt <- lift (datetime_of_parts (m_groups m) false) ;;
       when (is_valid_date current_year dt)
            (append (dt, "filename:YYYY-MM-DD HH:MM"))
     else if String.eqb date_format "%d%b%y" then
       p <- lift (Py.unpack3 (m_groups m)) ;;
       let '(day, month, year) := p in
       dt <- lift (Strptime.strptime (day +:+ month +:+ year) date_format) ;;
       when (is_valid_date current_year dt) (append (dt, "filename:DD-MMM-YY"))
     else if is_in date_format ["%b-%d-%y"; "%y-%b-%d"] then
       p <- lift (Py.unpack3 (m_groups m)) ;;
       let '(month, day, year) :=
         if String.eqb date_format "%b-%d-%y"
         then p
         else let '(year, month, day) := p in (month, day, year) in
       try_except
         (dt <- lift (Strptime.strptime
                        (month +:+ "-" +:+ day +:+ "-" +:+ year) "%b-%d-%y") ;;
          when (is_valid_date current_year dt)
               (append (dt, "filename:" +:+ date_format)))
         continue
     else if String.eqb date_format "%Y-%m" then
       p <- lift (Py.unpack2 (m_groups m)) ;;
       let '(year, month) := p in
       dt <- lift (first_of_month year month) ;;
       when (is_valid_date current_year dt)
            (append (dt, "filename:YYYY-MM (set to 1st of month)"))
     else if String.eqb date_format "%Y%m" then
       year_month <- lift (Py.group1 m) ;;
       year <- lift (PyInt.int (Py.take 4 year_month)) ;;
       month <- lift (PyInt.int (Py.drop 4 year_month)) ;;
       dt <- lift (datetime_new year month 1 0 0 0) ;;
       when (is_valid_date current_year dt)
            (append (dt, "filename:YYYYMM (set to 1st of month)"))
     else if String.eqb date_format "%Y" then
       year <- lift (Py.group1 m) ;;
       year_int <- lift (PyInt.int year) ;;
       when ((1900 <=? year_int) && (year_int <=? 2100))
            (dt <- lift (datetime_new year_int 1 1 0 0 0) ;;
             append (dt, "filename:YYYY (set to Jan 1st)"))
     else if is_in date_format ["%d-%m-%Y"; "%m-%d-%Y"] then
       let parts := m_groups m in
       try_except
         (s <- lift (dashed3 parts) ;;
          dt <- lift (Strptime.strptime s "%d-%m-%Y") ;;
          append (dt, "filename:DD-MM-YYYY"))
         pass ;;
       try_except
         (s <- lift (dashed3 parts) ;;
          dt <- lift (Strptime.strptime s "%m-%d-%Y") ;;
          append (dt, "filename:MM-DD-YYYY"))
         pass ;;
       continue
     else
       s <- lift (date_str m) ;;
       dt <- lift (Strptime.strptime s (normal_format date_format)) ;;
       append (dt, "filename:" +:+ date_format))
    continue.

Definition extract_filename_dates (self : t) (current_year : Z)
  (file_path : string) : result (list candidate) :=
  let filename := PathLib.stem file_path in
  collect
    (for_each (date_patterns self) (fun entry =>
       let '(pattern, date_format) := entry in
       for_each (finditer pattern filename)
                (filename_match current_year date_format))).

(** The body of [for match in matches] in [extract_path_dates]. *)
Definition path_match (current_year : Z) (date_format : string) (m : rmatch)
  : M unit :=
  try_except
    (if String.eqb date_format "%Y-%m-%d-%H-%M-%S" then
       dt <- lift (datetime_of_parts (m_groups m) true) ;;
       when (is_valid_date current_year dt)
            (append (dt, "path:YYYY-MM-DD HH:MM:SS"))
     else if String.eqb date_format "%Y-%m-%d-%H-%M" then
       dt <- lift (datetime_of_parts (m_groups m) false) ;;
       when (is_valid_date current_year dt)
            (append (dt, "path:YYYY-MM-DD HH:MM"))
     else if String.eqb date_format "%d%b%y" then
       p <- lift (Py.unpack3 (m_groups m)) ;;
       let '(day, month, year) := p in
       dt <- lift (Strptime.strptime (day +:+ month +:+ year) date_format) ;;
       when (is_valid_date current_year dt) (append (dt, "path:DD-MMM-YY"))
     else if is_in date_format ["%b-%d-%y"; "%y-%b-%d"] then
       p <- lift (Py.unpack3 (m_groups m)) ;;
       let '(month, day, year) :=
         if String.eqb date_format "%b-%d-%y"
         then p
         else let '(year, month, day) := p in (month, day, year) in
       try_except
         (dt <- lift (Strptime.strptime
                        (month +:+ "-" +:+ day +:+ "-" +:+ year) "%b-%d-%y") ;;
          when (is_valid_date current_year dt)
               (append (dt, "path:" +:+ date_format)))
         continue
     else if String.eqb date_format "%Y-%m" then
       p <- lift (Py.unpack2 (m_groups m)) ;;
       let '(year, month) := p in
       dt <- lift (first_of_month year month) ;;
       when (is_valid_date current_year dt)
            (append (dt, "path:YYYY-MM (set to 1st of month)"))
     else if String.eqb date_format "%Y%m" then
       year_month <- lift (Py.group1 m) ;;
       year <- lift (PyInt.int (Py.take 4 year_month)) ;;
       month <- lift (PyInt.int (Py.drop 4 year_month)) ;;
       dt <- lift (datetime_new year month 1 0 0 0) ;;
       when (is_valid_date current_year dt)
            (append (dt, "path:YYYYMM (set to 1st of month)"))
     else if String.eqb date_format "%Y" then
       year <- lift (Py.group1 m) ;;
       year_int <- lift (PyInt.int year) ;;
       when ((1970 <=? year_int) && (year_int <=? 2100))
            (dt <- lift (datetime_new year_int 1 1 0 0 0) ;;
             when (is_valid_date current_year dt)
                  (append (dt, "path:YYYY (set to Jan 1st)")))
     else if is_in date_format ["%d-%m-%Y"; "%m-%d-%Y"] then
       let parts := m_groups m in
       try_except
         (s <- lift (dashed3 parts) ;;
          dt <- lift (Strptime.strptime s "%d-%m-%Y") ;;
          when (is_valid_date current_year dt) (append (dt, "path:DD-MM-YYYY")))
         pass ;;
       try_except
         (s <- lift (dashed3 parts) ;;
          dt <- lift (Strptime.strptime s "%m-%d-%Y") ;;
          when (is_valid_date current_year dt) (append (dt, "path:MM-DD-YYYY")))
         pass ;;
       continue
     else
       s <- lift (date_str m) ;;
       dt <- lift (Strptime.strptime s (normal_format date_format)) ;;
       when (is_valid_date current_year dt) (append (dt, "path:" +:+ date_format)))
    continue.

Definition extract_path_dates (self : t) (current_year : Z)
  (file_path : string) : result (list candidate) :=
  let path_parts := PathLib.parts file_path in
  collect
    (for_each path_parts (fun part =>
       for_each (date_patterns self) (fun entry =>
         let '(pattern, date_format) := entry in
         for_each (finditer pattern part)
                  (path_match current_year date_format)))).

(** What running exiftool and decoding its JSON gives: [None] when the
    tool fails, prints nothing or prints what is not JSON (the scanner
    then only warns), otherwise the first object of the array it
    prints. *)
Definition exif_output : Type := option (gmap string json).

(** The body of [for field in self.exif_date_fields]; a present field
    with a falsy value, such as the empty text, is skipped.  Only
    [ValueError] is caught. *)
Definition exif_field (current_year : Z) (exif_data : gmap string json)
  (field : string) : M unit :=
  match exif_data !! field with
  | Some value =>
      if truthy value then
        try_except
          (dt <- lift (strptime_value value "%Y:%m:%d %H:%M:%S") ;;
           if is_valid_date current_year dt
           then append (dt, "EXIF:" +:+ field)
           else pass (* print("Skipping invalid EXIF date ...") *))
          continue
      else pass
  | None => pass
  end.

Definition extract_exif_dates (self : t) (current_year : Z)
  (exif : exif_output) : result (list candidate) :=
  match exif with
  | Some exif_data =>
      collect (for_each (exif_date_fields self) (exif_field current_year exif_data))
  | None => Ok []
  end.

Definition get_date_precision_score (source : string) : Z :=
  if "EXIF:DateTimeOriginal" in_str source then 100
  else if "EXIF:CreateDate" in_str source then 95
  else if "EXIF:DateTime" in_str source then 90
  else if "EXIF:DateTimeDigitized" in_str source then 85
  else if "EXIF:ModifyDate" in_str source then 80
  else if "EXIF:FileModifyDate" in_str source then 75
  else if "filename:" in_str source then
    if "HH:MM:SS" in_str source then 70
    else if "HH:MM" in_str source then 65
    else if existsb (fun fmt => fmt in_str source)
                    ["DD-MM-YYYY"; "MM-DD-YYYY"; "YYYY-MM-DD"] then 60
    else if "YYYY-MM" in_str source then 55
    else if ("YYYY" in_str source) && ("Jan 1st" in_str source) then 20
    else 50
  else if "path:" in_str source then
    if "HH:MM:SS" in_str source then 45
    else if "HH:MM" in_str source then 40
    else if existsb (fun fmt => fmt in_str source)
                    ["DD-MM-YYYY"; "MM-DD-YYYY"; "YYYY-MM-DD"] then 35
    else if "YYYY-MM" in_str source then 30
    else if ("YYYY" in_str source) && ("Jan 1st" in_str source) then 10
    else 25
  else 0.

(** [date.strftime("%Y-%m-%d %H:%M:%S")]: the text shows the six fields
    and nothing else, so two keys are equal exactly when the six fields
    are; the key is modelled by the fields. *)
Definition date_key (dt : datetime) : list Z := fields dt.

(** [key in seen_dates]; of the set only membership is used. *)
Definition seen (key : list Z) (seen_dates : list (list Z)) : bool :=
  existsb (lex_eqb key) seen_dates.

(** The deduplication loop of [get_best_date], with its two
    accumulators. *)
Fixpoint dedup_loop (all_dates : list candidate)
  (unique_dates : list candidate) (seen_dates : list (list Z))
  : list candidate :=
  match all_dates with
  | [] => unique_dates
  | (date, source) :: rest =>
      let date_key := date_key date in
      if negb (seen date_key seen_dates)
      then dedup_loop rest (unique_dates ++ [(date, source)]) (date_key :: seen_dates)
      else dedup_loop rest unique_dates seen_dates
  end.

(** The sort key [(-score, date)] and [<] on it. *)
Definition sort_key (c : candidate) : Z * datetime :=
  (- get_date_precision_score (snd c), fst c).

Definition key_ltb (a b : Z * datetime) : bool :=
  (fst a <? fst b) || ((fst a =? fst b) && dt_ltb (snd a) (snd b)).

(** [list.sort(key=...)] is stable; a stable sort is determined by the
    key order, and insertion from the right computes it. *)
Fixpoint insert_sorted (x : candidate) (l : list candidate) : list candidate :=
  match l with
  | [] => [x]
  | y :: l' =>
      if key_ltb (sort_key y) (sort_key x) then y :: insert_sorted x l'
      else x :: l
  end.

Fixpoint sort (l : list candidate) : list candidate :=
  match l with
  | [] => []
  | x :: l' => insert_sorted x (sort l')
  end.

(** The outcome of [get_best_date]: the returned pair, [None] standing
    for [(None, None)], and the listing it prints. *)
Record resolution : Type := mk_resolution {
  best : option candidate;
  report : list candidate
}.

(** [get_best_date] once the three scanners have filled [all_dates];
    [unique_dates[0]] raises [IndexError] on an empty list. *)
Definition resolve (all_dates : list candidate) : result resolution :=
  match all_dates with
  | [] => Ok (mk_resolution None [])
  | _ =>
      let unique_dates := sort (dedup_loop all_dates [] []) in
      match unique_dates with
      | [] => Raise IndexError
      | best_candidate :: _ => Ok (mk_resolution (Some best_candidate) unique_dates)
      end
  end.

Definition get_best_date (self : t) (current_year : Z) (exif : exif_output)
  (file_path : string) : result resolution :=
  let? e := extract_exif_dates self current_year exif in
  let? f := extract_filename_dates self current_year file_path in
  let? p := extract_path_dates self current_year file_path in
  resolve (e ++ f ++ p).

End DateExtractor.

(** ** [datetime.timestamp()]

    For a naive [datetime], CPython searches the POSIX time whose local
    wall clock is the given one ([local_to_seconds], with [fold] 0).
    Wall clocks are counted in seconds from 0000-12-31 00:00:00, so that
    the first second of year 1 is number 86400.  The local zone enters
    through [utc_offset]: the seconds by which local time is ahead of UTC
    at a POSIX time. *)

Module Timestamp.

Definition days_before_year (y : Z) : Z :=
  let p := y - 1 in p * 365 + p / 4 - p / 100 + p / 400.

Definition days_before_month (y m : Z) : Z :=
  fold_right Z.add 0
    (map (fun k => days_in_month y (Z.of_nat k)) (seq 1 (Z.to_nat (m - 1)))).

Definition ymd_to_ord (y m d : Z) : Z :=
  days_before_year y + days_before_month y m + d.

Definition utc_to_seconds (dt : datetime) : Z :=
  ((ymd_to_ord (year dt) (month dt) (day dt) * 24 + hour dt) * 60 + minute dt) * 60
  + second dt.

Definition epoch : Z := 719163 * 24 * 60 * 60.
Definition max_fold_seconds : Z := 24 * 3600.

(** The wall clocks of the years 1 to 9999. *)
Definition first_second : Z := 86400.
Definition end_second : Z := 3652060 * 86400.

(** [local(u)]: the local wall clock at [u], a [ValueError] when its
    year is out of range. *)
Definition local (utc_offset : Z -> Z) (u : Z) : result Z :=
  let wall := u + utc_offset (u - epoch) in
  if (first_second <=? wall) && (wall <? end_second) then Ok wall
  else Raise ValueError.

Definition local_to_seconds (utc_offset : Z -> Z) (dt : datetime) : result Z :=
  let t := utc_to_seconds dt in
  let? lt := local utc_offset t in
  let a := lt - t in
  let u1 := t - a in
  let? t1 := local utc_offset u1 in
  let other (b : Z) : result Z :=
    let u2 := t - b in
    let? t2 := local utc_offset u2 in
    if t2 =? t then Ok u2
    else if t1 =? t then Ok u1
    else Ok (Z.max u1 u2) in
  if t1 =? t then
    (* one solution; look for an earlier one, a day before *)
    let u2 := u1 - max_fold_seconds in
    let? lt2 := local utc_offset u2 in
    let b := lt2 - u2 in
    if a =? b then Ok u1 else other b
  else other (t1 - u1).

(** [int(dt.timestamp())]; the datetimes of this program have no
    microseconds. *)
Definition timestamp (utc_offset : Z -> Z) (dt : datetime) : result Z :=
  let? seconds := local_to_seconds utc_offset dt in
  Ok (seconds - epoch).

End Timestamp.

(** ** Writing the date, and the command line

    [set_file_dates] and [process_file].  What they do to the file is
    kept as the list of the actions attempted, in order, beside the
    value returned or the exception raised. *)

Module Cli.
Import DateExtractor.

(** The machine the program runs on. *)
Record platform : Type := mk_platform {
  utc_offset : Z -> Z;                   (* the local time zone *)
  exiftool_writes : list string -> bool;  (* does this exiftool command succeed *)
  utime_works : string -> Z -> bool       (* does [os.utime] succeed *)
}.

Inductive action : Type :=
| Exiftool (command : list string)              (* [subprocess.run(command, check=True)] *)
| Utime (file_path : string) (timestamp : Z).   (* [os.utime(file_path, (timestamp, timestamp))] *)

(** [strftime] of a number on two digits, and of a year, which is not
    padded. *)
Definition digit_char (n : Z) : ascii := ascii_of_N (Z.to_N (48 + n)).
Definition pad2 (n : Z) : list ascii := [digit_char (n / 10); digit_char (n mod 10)].
Definition pad4 (n : Z) : list ascii :=
  [digit_char (n / 1000); digit_char (n / 100 mod 10);
   digit_char (n / 10 mod 10); digit_char (n mod 10)].
Definition year_digits (n : Z) : list ascii :=
  if n <? 10 then [digit_char n]
  else if n <? 100 then pad2 n
  else if n <? 1000 then [digit_char (n / 100); digit_char (n / 10 mod 10); digit_char (n mod 10)]
  else pad4 n.

(** [target_date.strftime("%Y:%m:%d %H:%M:%S")] *)
Definition exif_date_str (dt : datetime) : string :=
  Text.text (year_digits (year dt) ++ ":"%char :: pad2 (month dt) ++ ":"%char :: pad2 (day dt)
             ++ " "%char :: pad2 (hour dt) ++ ":"%char :: pad2 (minute dt)
             ++ ":"%char :: pad2 (second dt)).

(** The tags [set_file_dates] has exiftool write, each with its value. *)
Definition written_tags (target_date : datetime) : list (string * string) :=
  let exif_date_str := exif_date_str target_date in
  [ ("DateTimeOriginal", exif_date_str);
    ("CreateDate", exif_date_str);
    ("DateTime", exif_date_str) ].

(** The exiftool command of [set_file_dates]. *)
Definition exiftool_command (file_path : string) (target_date : datetime) : list string :=
  ["exiftool"; "-overwrite_original_in_place"]
    ++ map (fun '(tag, value) => "-" +:+ tag +:+ "=" +:+ value) (written_tags target_date)
    ++ [file_path].

(** [set_file_dates].  A failure of exiftool ([CalledProcessError], or
    an [OSError] when it cannot be started) and one of [os.utime]
    ([OSError]) are caught and give [False]; what [timestamp()] raises is
    not caught, and by then exiftool has run. *)
Definition set_file_dates (os : platform) (file_path : string)
  (target_date : option datetime) : result bool * list action :=
  match target_date with
  | None => (Ok false, [])
  | Some target_date =>
      let command := exiftool_command file_path target_date in
      if exiftool_writes os command then
        match Timestamp.timestamp (utc_offset os) target_date with
        | Ok timestamp =>
            (Ok (utime_works os file_path timestamp),
             [Exiftool command; Utime file_path timestamp])
        | Raise e => (Raise e, [Exiftool command])
        end
      else (Ok false, [Exiftool command])
  end.

(** The formats [process_file] tries on a manual date, in order. *)
Definition date_formats : list string :=
  [ "%Y-%m-%d"; "%Y:%m:%d"; "%d-%m-%Y"; "%m-%d-%Y"; "%Y%m%d";
    "%Y-%m-%d %H:%M:%S"; "%Y:%m:%d %H:%M:%S" ].

(** [for fmt in date_formats]: the first format that parses ends the
    loop; a [ValueError] moves on to the next format, any other
    exception leaves the loop. *)
Fixpoint parse_manual (manual_date : string) (formats : list string)
  : result (option datetime) :=
  match formats with
  | [] => Ok None
  | fmt :: formats' =>
      match Strptime.strptime manual_date fmt with
      | Ok target_date => Ok (Some target_date)        (* break *)
      | Raise ValueError => parse_manual manual_date formats'   (* continue *)
      | Raise e => Raise e
      end
  end.

(** [if manual_date:] *)
Definition given (manual_date : option string) : bool :=
  match manual_date with
  | Some s => negb (String.eqb s "")
  | None => false
  end.

(** The date [process_file] settles on: [Ok None] where it returns
    [False] for want of a date.  The manual branch catches every
    exception; the other branch catches none. *)
Definition target_date (current_year : Z) (exif : exif_output) (file_path : string)
  (manual_date : option string) : result (option datetime) :=
  if given manual_date then
    match parse_manual (default "" manual_date) date_formats with
    | Ok (Some target_date) => Ok (Some target_date)
    | Ok None => Ok None          (* Could not parse date *)
    | Raise _ => Ok None          (* except Exception *)
    end
  else
    let? r := get_best_date init current_year exif file_path in
    match best r with
    | Some (target_date, _) => Ok (Some target_date)
    | None => Ok None             (* No dates found *)
    end.

(** [process_file].  [file_exists] is [os.path.exists(file_path)] and
    [exif] what exiftool reports for the file. *)
Definition process_file (os : platform) (current_year : Z) (file_exists : bool)
  (exif : exif_output) (file_path : string) (manual_date : option string)
  : result bool * list action :=
  if negb file_exists then (Ok false, [])
  else
    match target_date current_year exif file_path manual_date with
    | Ok (Some target_date) => set_file_dates os file_path (Some target_date)
    | Ok None => (Ok false, [])
    | Raise e => (Raise e, [])
    end.

End Cli.

(** * Properties *)

(** ** Instants and their order *)

Section Instants.

Lemma lex_eqb_eq (a b : list Z) : lex_eqb a b = true <-> a = b.
Proof.
  revert b; induction a as [|x a IH]; intros [|y b]; simpl; try easy.
  rewrite andb_true_iff, Z.eqb_eq, IH. split.
  - intros [-> ->]; reflexivity.
  - intros H; injection H; auto.
Qed.

Lemma fields_inj (a b : datetime) : fields a = fields b -> a = b.
Proof.
  destruct a, b; unfold fields; simpl; intros H; injection H; intros; subst.
  reflexivity.
Qed.

(** Equal keys, equal instants. *)
Lemma dt_eqb_eq (a b : datetime) : dt_eqb a b = true <-> a = b.
Proof.
  unfold dt_eqb; rewrite lex_eqb_eq; split; [apply fields_inj | congruence].
Qed.

Lemma lex_ltb_irrefl (a : list Z) : lex_ltb a a = false.
Proof.
  induction a as [|x a IH]; simpl; [reflexivity|].
  rewrite Z.ltb_irrefl, IH, andb_false_r; reflexivity.
Qed.

Lemma lex_ltb_trans (a b c : list Z) :
  lex_ltb a b = true -> lex_ltb b c = true -> lex_ltb a c = true.
Proof.
  revert b c; induction a as [|x a IH]; intros [|y b] [|z c]; simpl; try easy.
  rewrite !orb_true_iff, !andb_true_iff, !Z.ltb_lt, !Z.eqb_eq.
  intros [H1|[H1 H1']] [H2|[H2 H2']]; try (left; lia).
  right; split; [lia | eauto].
Qed.

Lemma lex_total (a b : list Z) :
  length a = length b ->
  lex_ltb a b = true \/ a = b \/ lex_ltb b a = true.
Proof.
  revert b; induction a as [|x a IH]; intros [|y b]; simpl; try easy; auto.
  intros H; injection H as H.
  rewrite !orb_true_iff, !andb_true_iff, !Z.ltb_lt, !Z.eqb_eq.
  destruct (Z.lt_trichotomy x y) as [?|[->|?]]; auto.
  destruct (IH b H) as [?|[->|?]]; auto.
Qed.

Lemma dt_total (a b : datetime) :
  dt_ltb a b = true \/ a = b \/ dt_ltb b a = true.
Proof.
  unfold dt_ltb.
  destruct (lex_total (fields a) (fields b)) as [?|[?|?]]; auto.
  right; left; apply fields_inj; assumption.
Qed.

End Instants.

(** ** The resolver *)

Module Resolver.
Import DateExtractor.

Definition score (c : candidate) : Z := get_date_precision_score (snd c).

(** [a] may stand before [b] in the report: a higher score, or the same
    score and an instant that is not later. *)
Definition ranks_before (a b : candidate) : Prop :=
  score a > score b \/ (score a = score b /\ dt_ltb (fst b) (fst a) = false).

(** The first candidate of [all_dates] bearing its instant. *)
Definition first_seen (all_dates : list candidate) (c : candidate) : Prop :=
  exists l1 l2, all_dates = l1 ++ c :: l2 /\ ~ In (fst c) (map fst l1).

(** The loop without its accumulators. *)
Fixpoint fresh (l : list candidate) (seen_dates : list (list Z)) : list candidate :=
  match l with
  | [] => []
  | c :: l' =>
      if seen (date_key (fst c)) seen_dates then fresh l' seen_dates
      else c :: fresh l' (date_key (fst c) :: seen_dates)
  end.

Lemma dedup_loop_fresh l u s : dedup_loop l u s = u ++ fresh l s.
Proof.
  revert u s; induction l as [|[d src] l IH]; intros u s; simpl.
  - now rewrite app_nil_r.
  - destruct (seen (date_key d) s); simpl; rewrite IH; [reflexivity|].
    now rewrite <- app_assoc.
Qed.

Lemma seen_spec k s : seen k s = true <-> In k s.
Proof.
  unfold seen. rewrite existsb_exists. split.
  - intros [x [Hx He]]. apply lex_eqb_eq in He. now subst.
  - intros H; exists k; split; [assumption | now apply lex_eqb_eq].
Qed.

Lemma date_key_inj a b : date_key a = date_key b -> a = b.
Proof. apply fields_inj. Qed.

Lemma fresh_In l s c :
  In c (fresh l s) <->
  exists l1 l2, l = l1 ++ c :: l2 /\ ~ In (fst c) (map fst l1)
                /\ ~ In (date_key (fst c)) s.
Proof.
  revert s; induction l as [|x l IH]; intros s; simpl.
  - split; [easy | intros (l1 & l2 & H & _); now destruct l1].
  - destruct (seen (date_key (fst x)) s) eqn:Hs.
    + apply seen_spec in Hs. rewrite IH. split.
      * intros (l1 & l2 & -> & Hn & Hk). exists (x :: l1), l2. simpl.
        repeat split; auto. intros [E|?]; [|tauto]. rewrite E in Hs. tauto.
      * intros (l1 & l2 & E & Hn & Hk). destruct l1 as [|y l1]; simpl in E.
        -- injection E as -> ->. tauto.
        -- injection E as -> ->. exists l1, l2. simpl in Hn. tauto.
    + assert (Hns : ~ In (date_key (fst x)) s).
      { intros H; apply seen_spec in H; congruence. }
      simpl. rewrite IH. split.
      * intros [->|(l1 & l2 & -> & Hn & Hk)].
        -- exists [], l. simpl. tauto.
        -- exists (x :: l1), l2. simpl in *. repeat split; auto.
           intros [E|?]; [|tauto]. rewrite E in Hk. tauto.
      * intros (l1 & l2 & E & Hn & Hk). destruct l1 as [|y l1]; simpl in E.
        -- injection E as -> ->. now left.
        -- injection E as -> ->. right. exists l1, l2. simpl in *.
           repeat split; auto. intros [E|?]; [|tauto].
           apply date_key_inj in E. tauto.
Qed.

Lemma fresh_keys l s c : In c (fresh l s) -> ~ In (date_key (fst c)) s.
Proof. rewrite fresh_In. intros (_ & _ & _ & _ & H). exact H. Qed.

Lemma fresh_NoDup l s : List.NoDup (map fst (fresh l s)).
Proof.
  revert s; induction l as [|x l IH]; intros s; simpl; [constructor|].
  destruct (seen (date_key (fst x)) s); [apply IH|].
  cbn [map]. constructor; [|apply IH].
  intros Hc. apply in_map_iff in Hc. destruct Hc as (c & E & Hc). apply fresh_keys in Hc.
  rewrite E in Hc. simpl in Hc. tauto.
Qed.

Lemma fresh_sublist l s : sublist (fresh l s) l.
Proof.
  revert s; induction l as [|x l IH]; intros s; simpl; [constructor|].
  destruct (seen (date_key (fst x)) s).
  - apply sublist_cons, IH.
  - apply sublist_skip, IH.
Qed.

Lemma dt_ltb_irrefl a : dt_ltb a a = false.
Proof. apply lex_ltb_irrefl. Qed.

Lemma dt_ltb_trans a b c :
  dt_ltb a b = true -> dt_ltb b c = true -> dt_ltb a c = true.
Proof. apply lex_ltb_trans. Qed.

Lemma dt_ltb_asym a b : dt_ltb a b = true -> dt_ltb b a = false.
Proof.
  intros H. destruct (dt_ltb b a) eqn:E; [|reflexivity].
  pose proof (dt_ltb_trans _ _ _ H E) as F. now rewrite dt_ltb_irrefl in F.
Qed.

(** Not later than: [dt_ltb b a = false] is [a <= b]. *)
Lemma dt_le_trans a b c :
  dt_ltb b a = false -> dt_ltb c b = false -> dt_ltb c a = false.
Proof.
  intros H1 H2. destruct (dt_ltb c a) eqn:E; [|reflexivity].
  destruct (dt_total a b) as [H|[->|H]]; [|congruence|congruence].
  pose proof (dt_ltb_trans _ _ _ E H). congruence.
Qed.

Lemma key_ltb_false a b :
  key_ltb (sort_key b) (sort_key a) = false <-> ranks_before a b.
Proof.
  unfold key_ltb, sort_key, ranks_before, score; simpl.
  rewrite orb_false_iff, andb_false_iff, Z.ltb_ge, Z.eqb_neq.
  destruct (dt_ltb (fst b) (fst a)); split; intros H.
  - left. destruct H as [H1 [H2|H2]]; [lia | discriminate].
  - destruct H as [H|[_ H]]; [|discriminate]. split; [lia | left; lia].
  - destruct H as [H1 _].
    destruct (Z.eq_dec (get_date_precision_score (snd a))
                       (get_date_precision_score (snd b))); [right | left]; auto; lia.
  - split; [|right; reflexivity]. destruct H as [H|[H _]]; lia.
Qed.

Lemma key_ltb_true a b :
  key_ltb (sort_key a) (sort_key b) = true -> ranks_before a b.
Proof.
  unfold key_ltb, sort_key, ranks_before, score; simpl.
  rewrite orb_true_iff, andb_true_iff, Z.ltb_lt, Z.eqb_eq.
  intros [H|[H1 H2]]; [left; lia | right; split; [lia | now apply dt_ltb_asym]].
Qed.

Lemma ranks_before_trans a b c :
  ranks_before a b -> ranks_before b c -> ranks_before a c.
Proof.
  unfold ranks_before. intros [H1|[H1 H1']] [H2|[H2 H2']]; try (left; lia).
  right; split; [lia | eapply dt_le_trans; eassumption].
Qed.

Lemma insert_sorted_perm x l : Permutation (insert_sorted x l) (x :: l).
Proof.
  induction l as [|y l IH]; simpl; [reflexivity|].
  destruct (key_ltb (sort_key y) (sort_key x)); [|reflexivity].
  rewrite IH. apply perm_swap.
Qed.

Lemma sort_perm l : Permutation (sort l) l.
Proof.
  induction l as [|x l IH]; simpl; [reflexivity|].
  rewrite insert_sorted_perm. now constructor.
Qed.

Lemma insert_sorted_sorted x l :
  StronglySorted ranks_before l -> StronglySorted ranks_before (insert_sorted x l).
Proof.
  induction 1 as [|y l Hs IH Hy]; simpl.
  - repeat constructor.
  - destruct (key_ltb (sort_key y) (sort_key x)) eqn:E.
    + constructor; [exact IH|].
      rewrite List.Forall_forall. intros z Hz.
      apply (Permutation_in _ (insert_sorted_perm x l)) in Hz.
      destruct Hz as [<-|Hz]; [now apply key_ltb_true|].
      rewrite List.Forall_forall in Hy. now apply Hy.
    + apply key_ltb_false in E. constructor; [now constructor|].
      constructor; [exact E|].
      rewrite List.Forall_forall in *. intros z Hz.
      eapply ranks_before_trans; [exact E | now apply Hy].
Qed.

Lemma sort_sorted l : StronglySorted ranks_before (sort l).
Proof.
  induction l as [|x l IH]; simpl; [constructor | now apply insert_sorted_sorted].
Qed.

End Resolver.

(** ** Claims about the resolver *)

Section ResolverClaims.
Import DateExtractor Resolver.

(** Strictly before: a higher score, or the same score and an earlier
    instant. *)
Definition strictly_before (a b : candidate) : Prop :=
  score a > score b \/ (score a = score b /\ dt_ltb (fst a) (fst b) = true).

Lemma candidate_eq_dec (a b : candidate) : {a = b} + {a <> b}.
Proof.
  decide equality; [apply string_dec | decide equality; apply Z.eq_dec].
Qed.

Lemma strict_of_distinct a b :
  ranks_before a b -> fst a <> fst b -> strictly_before a b.
Proof.
  intros [H|[H1 H2]] Hne; [now left | right; split; [exact H1|]].
  destruct (dt_total (fst a) (fst b)) as [?|[?|?]]; congruence.
Qed.

Lemma sorted_strict l :
  StronglySorted ranks_before l -> List.NoDup (map fst l) ->
  StronglySorted strictly_before l.
Proof.
  induction 1 as [|x l Hs IH Hx]; intros Hnd; [constructor|].
  simpl in Hnd. apply List.NoDup_cons_iff in Hnd as [Hnot Hnd].
  constructor; [now apply IH|].
  rewrite List.Forall_forall in *. intros y Hy.
  apply strict_of_distinct; [now apply Hx|].
  intros E. apply Hnot. rewrite E. now apply in_map.
Qed.

Lemma dedup_loop_NoDup l : List.NoDup (map fst (dedup_loop l [] [])).
Proof. rewrite dedup_loop_fresh. apply fresh_NoDup. Qed.

Lemma dedup_loop_first_seen l c :
  In c (dedup_loop l [] []) <-> first_seen l c.
Proof.
  rewrite dedup_loop_fresh. simpl. rewrite fresh_In. unfold first_seen.
  split.
  - intros (l1 & l2 & H1 & H2 & _). eauto.
  - intros (l1 & l2 & H1 & H2). exists l1, l2. simpl. tauto.
Qed.

Lemma fresh_covers l s c :
  In c l -> In (date_key (fst c)) s \/ exists c', In c' (fresh l s) /\ fst c' = fst c.
Proof.
  revert s; induction l as [|x l IH]; intros s; simpl; [easy|].
  intros [->|Hc].
  - destruct (seen (date_key (fst c)) s) eqn:E.
    + left. now apply seen_spec.
    + right. exists c. simpl. auto.
  - destruct (seen (date_key (fst x)) s) eqn:E.
    + now apply IH.
    + destruct (IH (date_key (fst x) :: s) Hc) as [[H|H]|(c' & H1 & H2)].
      * right. exists x. simpl. split; [now left | now apply date_key_inj].
      * now left.
      * right. exists c'. simpl. auto.
Qed.

Lemma permutation_NoDup_fst (l l' : list candidate) :
  Permutation l l' -> List.NoDup (map fst l') -> List.NoDup (map fst l).
Proof.
  intros H. apply Permutation_NoDup. apply Permutation_map. now symmetry.
Qed.

Lemma sort_nonempty c l : exists b rep, sort (c :: l) = b :: rep.
Proof.
  destruct (sort (c :: l)) as [|b rep] eqn:E; [|eauto].
  pose proof (sort_perm (c :: l)) as P. rewrite E in P.
  now apply Permutation_nil in P.
Qed.

Lemma dedup_loop_cons c l :
  dedup_loop (c :: l) [] [] = c :: fresh l [date_key (fst c)].
Proof. rewrite dedup_loop_fresh. destruct c; reflexivity. Qed.

(** C1. The resolver sorts the deduplicated candidates by score,
    highest first, and among equal scores by instant, earliest first; the
    head of the sorted list is the winner and the sorted list is the
    report.  With no candidate there is no winner.  In particular a
    candidate from [EXIF:FileModifyDate], which scores 75, wins whenever
    every other candidate in the report scores 70 or less. *)
Theorem resolve_sorts_and_returns_head :
  resolve [] = Ok (mk_resolution None [])
  /\ forall (c : candidate) (l : list candidate),
      exists b rep,
        resolve (c :: l) = Ok (mk_resolution (Some b) rep)
        /\ head rep = Some b
        /\ Permutation rep (dedup_loop (c :: l) [] [])
        /\ StronglySorted strictly_before rep
        /\ (forall x, In x rep -> x = b \/ strictly_before b x)
        /\ get_date_precision_score "EXIF:FileModifyDate" = 75
        /\ (forall d,
              In (d, "EXIF:FileModifyDate") rep ->
              (forall x, In x rep -> x <> (d, "EXIF:FileModifyDate") -> score x <= 70) ->
              b = (d, "EXIF:FileModifyDate")).
Proof.
  split; [reflexivity|]. intros c l.
  assert (Hsorted : StronglySorted strictly_before (sort (dedup_loop (c :: l) [] []))).
  { apply sorted_strict; [apply sort_sorted|].
    eapply permutation_NoDup_fst; [apply sort_perm | apply dedup_loop_NoDup]. }
  assert (Hperm := sort_perm (dedup_loop (c :: l) [] [])).
  unfold resolve. rewrite dedup_loop_cons in *.
  destruct (sort_nonempty c (fresh l [date_key (fst c)])) as (b & rep & E).
  rewrite E in *. exists b, (b :: rep).
  assert (Hhead : forall x, In x (b :: rep) -> x = b \/ strictly_before b x).
  { intros x [<-|Hx]; [now left | right].
    apply StronglySorted_inv in Hsorted as [_ Hall].
    rewrite List.Forall_forall in Hall. now apply Hall. }
  repeat split; auto.
  intros d Hin Hothers.
  destruct (candidate_eq_dec b (d, "EXIF:FileModifyDate")) as [Heq|Hne]; [exact Heq|].
  exfalso. assert (Hb : score b <= 70) by (apply Hothers; [now left | exact Hne]).
  assert (H75 : score (d, "EXIF:FileModifyDate") = 75) by reflexivity.
  destruct (Hhead _ Hin) as [Heq|[Hs|[Hs _]]]; [congruence | |];
    rewrite H75 in Hs; lia.
Qed.

(** C3. Deduplication keeps, for every instant, the first candidate
    seen in the order metadata, filename, path, with its provenance, and
    drops every later candidate bearing that instant, whatever its score:
    the kept candidates are exactly the first occurrences, in their
    original order, one for each instant that occurs. *)
Theorem dedup_first_seen_wins (e f p : list candidate) :
  let all_dates := e ++ f ++ p in
  let unique_dates := dedup_loop all_dates [] [] in
  List.NoDup (map fst unique_dates)
  /\ (forall c, In c unique_dates <-> first_seen all_dates c)
  /\ sublist unique_dates all_dates
  /\ (forall c, In c all_dates ->
        exists c', In c' unique_dates /\ fst c' = fst c)
  /\ (forall l1 c l2 c',
        all_dates = l1 ++ c :: l2 -> In c unique_dates ->
        In c' l2 -> fst c' = fst c -> snd c' <> snd c ->
        ~ In c' unique_dates).
Proof.
  intros all_dates unique_dates. unfold unique_dates.
  split; [apply dedup_loop_NoDup|].
  split; [apply dedup_loop_first_seen|].
  split; [rewrite dedup_loop_fresh; apply fresh_sublist|].
  split.
  - intros c Hc. rewrite dedup_loop_fresh. simpl.
    destruct (fresh_covers all_dates [] c Hc) as [[]|H]. exact H.
  - intros l1 c l2 c' Hall Hc Hc' Hfst Hsnd Hin.
    pose proof (dedup_loop_NoDup all_dates) as Hnd.
    assert (Heq : c' = c); [|now subst].
    clear - Hnd Hc Hin Hfst.
    induction (dedup_loop all_dates [] []) as [|x u IH]; [easy|].
    simpl in Hnd. apply List.NoDup_cons_iff in Hnd as [Hx Hnd].
    destruct Hc as [->|Hc], Hin as [->|Hin]; auto.
    + exfalso. apply Hx. rewrite <- Hfst. now apply in_map.
    + exfalso. apply Hx. rewrite Hfst. now apply in_map.
Qed.

End ResolverClaims.

(** ** The precision score *)

Section Score.
Import DateExtractor.

Lemma starts_with_prefix (p q s : list ascii) :
  Text.starts_with (p ++ q) s = true -> Text.starts_with p s = true.
Proof.
  revert s; induction p as [|a p IH]; intros s; simpl; [reflexivity|].
  destruct s as [|b s]; [discriminate|].
  destruct (Ascii.eqb a b); [apply IH | discriminate].
Qed.

Lemma contains_chars_prefix (p q s : list ascii) :
  Text.contains_chars (p ++ q) s = true -> Text.contains_chars p s = true.
Proof.
  induction s as [|b s IH]; simpl.
  - destruct (Text.starts_with (p ++ q) []) eqn:E; [|discriminate].
    intros _. now rewrite (starts_with_prefix _ _ _ E).
  - destruct (Text.starts_with (p ++ q) (b :: s)) eqn:E.
    + intros _. now rewrite (starts_with_prefix _ _ _ E).
    + intros H. rewrite (IH H). now destruct (Text.starts_with p (b :: s)).
Qed.

Lemma chars_append (a b : string) :
  Text.chars (a +:+ b) = Text.chars a ++ Text.chars b.
Proof. induction a as [|c a IH]; simpl; [reflexivity | now rewrite <- IH]. Qed.

(** A text that contains [p +:+ q] contains [p]. *)
Lemma contains_prefix (p q s : string) :
  (p +:+ q) in_str s = true -> p in_str s = true.
Proof.
  unfold Text.contains. rewrite chars_append. apply contains_chars_prefix.
Qed.

(** The test for [EXIF:DateTime] comes before the test for
    [EXIF:DateTimeDigitized] and holds whenever that one does: no source
    text scores 85. *)
Lemma score_never_85 (source : string) : get_date_precision_score source <> 85.
Proof.
  unfold get_date_precision_score.
  destruct ("EXIF:DateTimeOriginal" in_str source); [discriminate|].
  destruct ("EXIF:CreateDate" in_str source); [discriminate|].
  destruct ("EXIF:DateTime" in_str source) eqn:E; [discriminate|].
  destruct ("EXIF:DateTimeDigitized" in_str source) eqn:F.
  { apply (contains_prefix "EXIF:DateTime" "Digitized") in F. congruence. }
  repeat match goal with
         | |- context [if ?c then _ else _] => destruct c
         end; discriminate.
Qed.

Lemma not_contains_prefix (p q s : string) :
  p in_str s = false -> (p +:+ q) in_str s = false.
Proof.
  intros H. destruct ((p +:+ q) in_str s) eqn:E; [|reflexivity].
  apply contains_prefix in E. congruence.
Qed.

(** C5. The score depends on the provenance text alone and follows the
    table, except where the tests of the code overlap: [EXIF:DateTime] is
    tested before [EXIF:DateTimeDigitized] and is contained in it, so
    that field scores 90 and no provenance scores 85; the tags of the
    compact year-month shape and of the year-month-day shape contain none
    of the texts tested for 60 or 55 and score 50 (25 for a path). *)
Theorem score_table_as_coded :
  map get_date_precision_score
      ["EXIF:DateTimeOriginal"; "EXIF:CreateDate"; "EXIF:DateTime";
       "EXIF:DateTimeDigitized"; "EXIF:ModifyDate"; "EXIF:FileModifyDate"]
    = [100; 95; 90; 90; 80; 75]
  /\ (forall source, get_date_precision_score source <> 85)
  /\ map get_date_precision_score
      ["filename:YYYY-MM-DD HH:MM:SS"; "filename:YYYY-MM-DD HH:MM";
       "filename:DD-MM-YYYY"; "filename:MM-DD-YYYY";
       "filename:YYYY-MM (set to 1st of month)";
       "filename:DD-MMM-YY"; "filename:YYYY (set to Jan 1st)"]
    = [70; 65; 60; 60; 55; 50; 20]
  /\ map get_date_precision_score
      ["filename:YYYYMM (set to 1st of month)"; "filename:%Y-%m-%d"]
    = [50; 50]
  /\ map get_date_precision_score
      ["path:YYYY-MM-DD HH:MM:SS"; "path:YYYY-MM-DD HH:MM";
       "path:DD-MM-YYYY"; "path:MM-DD-YYYY";
       "path:YYYY-MM (set to 1st of month)";
       "path:DD-MMM-YY"; "path:YYYY (set to Jan 1st)"]
    = [45; 40; 35; 35; 30; 25; 10]
  /\ map get_date_precision_score
      ["path:YYYYMM (set to 1st of month)"; "path:%Y-%m-%d"]
    = [25; 25]
  /\ (forall source,
        "EXIF:" in_str source = false ->
        "filename:" in_str source = false ->
        "path:" in_str source = false ->
        get_date_precision_score source = 0).
Proof.
  repeat split; try reflexivity; [apply score_never_85|].
  intros source He Hf Hp. unfold get_date_precision_score.
  pose proof (not_contains_prefix "EXIF:" "DateTimeOriginal" _ He) as H1.
  pose proof (not_contains_prefix "EXIF:" "CreateDate" _ He) as H2.
  pose proof (not_contains_prefix "EXIF:" "DateTime" _ He) as H3.
  pose proof (not_contains_prefix "EXIF:" "DateTimeDigitized" _ He) as H4.
  pose proof (not_contains_prefix "EXIF:" "ModifyDate" _ He) as H5.
  pose proof (not_contains_prefix "EXIF:" "FileModifyDate" _ He) as H6.
  change ("EXIF:DateTimeOriginal" in_str source = false) in H1.
  change ("EXIF:CreateDate" in_str source = false) in H2.
  change ("EXIF:DateTime" in_str source = false) in H3.
  change ("EXIF:DateTimeDigitized" in_str source = false) in H4.
  change ("EXIF:ModifyDate" in_str source = false) in H5.
  change ("EXIF:FileModifyDate" in_str source = false) in H6.
  rewrite H1, H2, H3, H4, H5, H6.
  now rewrite Hf, Hp.
Qed.

End Score.

(** ** The matcher *)

Module RegexFacts.
Import Regex.

(** The texts a regular expression can consume, anchors aside. *)
Fixpoint lang (r : regex) (w : list ascii) : Prop :=
  match r with
  | Chr p => exists a, w = [a] /\ p a = true
  | Rep p lo hi =>
      forallb p w = true /\ (lo <= length w)%nat
      /\ match hi with Some h => (length w <= h)%nat | None => True end
  | Grp r1 => lang r1 w
  | Seq r1 r2 => exists w1 w2, w = w1 ++ w2 /\ lang r1 w1 /\ lang r2 w2
  | Alt r1 r2 => lang r1 w \/ lang r2 w
  | Bol | Eol => w = []
  end.

(** One step of the matcher: what was consumed, and where it stands. *)
Definition consumed (st st' : mstate) (w : list ascii) : Prop :=
  rest st = w ++ rest st' /\ pos st' = (pos st + length w)%nat.

Lemma span_firstn p s k :
  (k <= span p s)%nat -> forallb p (firstn k s) = true /\ length (firstn k s) = k.
Proof.
  revert k; induction s as [|a s IH]; intros [|k]; simpl; auto; [lia|].
  destruct (p a) eqn:E; [|lia]. intros H.
  destruct (IH k ltac:(lia)) as [H1 H2]. simpl. now rewrite H1, H2.
Qed.

Lemma in_counts lo n k : In k (counts lo n) -> (lo <= k <= n)%nat.
Proof.
  unfold counts. rewrite <- in_rev, in_seq. lia.
Qed.

Lemma cap_limit_le hi n :
  (cap_limit hi n <= n)%nat
  /\ match hi with Some h => (cap_limit hi n <= h)%nat | None => True end.
Proof. destruct hi; simpl; lia. Qed.

Lemma firstn_skipn_consumed (st : mstate) k :
  (k <= length (rest st))%nat ->
  consumed st (advance k st) (firstn k (rest st)).
Proof.
  intros H. unfold consumed, advance; simpl.
  rewrite firstn_skipn, length_firstn. split; [reflexivity | lia].
Qed.

Lemma span_le p s : (span p s <= length s)%nat.
Proof. induction s as [|a s IH]; simpl; [lia | destruct (p a); simpl; lia]. Qed.

Lemma run_sound r st st' :
  In st' (run r st) -> exists w, consumed st st' w /\ lang r w.
Proof.
  revert st st'; induction r as [p|p lo hi|r IH|r1 IH1 r2 IH2|r1 IH1 r2 IH2| |];
    intros st st'; simpl.
  - destruct (rest st) as [|a s] eqn:E; [easy|].
    destruct (p a) eqn:Hp; [|easy]. intros [<-|[]].
    exists [a]. split; [|eauto].
    unfold consumed, advance; simpl. rewrite E. simpl. auto.
  - rewrite in_map_iff. intros (k & <- & Hk). apply in_counts in Hk.
    destruct (cap_limit_le hi (span p (rest st))) as [H1 H2].
    pose proof (span_le p (rest st)).
    destruct (span_firstn p (rest st) k ltac:(lia)) as [Hf Hl].
    exists (firstn k (rest st)). split; [apply firstn_skipn_consumed; lia|].
    rewrite Hl. repeat split; auto; [lia|]. destruct hi; [lia | exact I].
  - rewrite in_map_iff. intros (s1 & <- & H1).
    destruct (IH _ _ H1) as (w & Hc & Hw). exists w. split; [|exact Hw].
    unfold consumed, close_group in *; simpl. exact Hc.
  - rewrite in_flat_map. intros (s1 & H1 & H2).
    destruct (IH1 _ _ H1) as (w1 & [Hr1 Hp1] & Hw1).
    destruct (IH2 _ _ H2) as (w2 & [Hr2 Hp2] & Hw2).
    exists (w1 ++ w2). split; [|eauto].
    unfold consumed. rewrite Hr1, Hr2, Hp2, Hp1, length_app, <- app_assoc.
    split; [reflexivity | lia].
  - rewrite in_app_iff. intros [H|H]; [apply IH1 in H | apply IH2 in H];
      destruct H as (w & Hc & Hw); exists w; auto.
  - destruct (Nat.eqb (pos st) 0); [|easy]. intros [<-|[]].
    exists []. unfold consumed. simpl. auto with arith.
  - assert (In st' [st] -> exists w, consumed st st' w /\ w = []) as Hone.
    { intros [<-|[]]. exists []. unfold consumed; simpl. auto with arith. }
    destruct (rest st) as [|a [|b s]]; [exact Hone| |easy].
    destruct (Ascii.eqb a newline); [exact Hone | easy].
Qed.

(** A regular expression without groups leaves the groups alone. *)
Lemma run_caps_same r st st' :
  ngroups r = O -> In st' (run r st) -> caps st' = caps st.
Proof.
  revert st st'; induction r as [p|p lo hi|r IH|r1 IH1 r2 IH2|r1 IH1 r2 IH2| |];
    intros st st'; simpl; intros Hn.
  - destruct (rest st) as [|a s]; [easy|]. destruct (p a); [|easy].
    now intros [<-|[]].
  - rewrite in_map_iff. now intros (k & <- & _).
  - discriminate.
  - rewrite in_flat_map. intros (s1 & H1 & H2).
    rewrite (IH2 _ _ ltac:(lia) H2). apply IH1; [lia | exact H1].
  - rewrite in_app_iff. intros [H|H]; [apply IH1 | apply IH2]; auto; lia.
  - destruct (Nat.eqb (pos st) 0); [|easy]. now intros [<-|[]].
  - destruct (rest st) as [|a [|b s]]; [now intros [<-|[]]| |easy].
    destruct (Ascii.eqb a newline); [now intros [<-|[]] | easy].
Qed.

(** Every match has one text for each group of the pattern. *)
Lemma run_caps_length r st st' :
  flat_groups r = true -> In st' (run r st) ->
  length (caps st') = (length (caps st) + ngroups r)%nat.
Proof.
  revert st st'; induction r as [p|p lo hi|r IH|r1 IH1 r2 IH2|r1 IH1 r2 IH2| |];
    intros st st' Hf Hin;
    try (pose proof (fun H => run_caps_same _ st st' H Hin) as E;
         rewrite E by reflexivity; simpl; lia);
    simpl in Hf, Hin |- *.
  - apply Nat.eqb_eq in Hf. apply in_map_iff in Hin as (s1 & <- & H1).
    unfold close_group; simpl. rewrite length_app; simpl.
    rewrite (run_caps_same _ _ _ Hf H1), Hf. lia.
  - apply andb_true_iff in Hf as [Hf1 Hf2].
    apply in_flat_map in Hin as (s1 & H1 & H2).
    rewrite (IH2 _ _ Hf2 H2), (IH1 _ _ Hf1 H1). lia.
  - apply andb_true_iff in Hf as [Hf1 Hf2].
    apply Nat.eqb_eq in Hf1, Hf2. rewrite Hf1, Hf2.
    apply in_app_iff in Hin as [H|H];
      [rewrite (run_caps_same _ _ _ Hf1 H) | rewrite (run_caps_same _ _ _ Hf2 H)]; lia.
Qed.

(** What [finditer] yields are matches of the pattern somewhere in the
    text. *)
Definition is_match (r : regex) (m : rmatch) : Prop :=
  exists p s st, In st (run r (mk_mstate p s [])) /\ m = to_rmatch p st.

Lemma match_at_In r p s st : match_at r p s = Some st -> In st (run r (mk_mstate p s [])).
Proof.
  unfold match_at. destruct (run r (mk_mstate p s [])) as [|x l]; simpl; [easy|].
  intros H; injection H as ->. now left.
Qed.

Lemma scan_is_match r p skip s m : In m (scan r p skip s) -> is_match r m.
Proof.
  revert p skip; induction s as [|a s IH]; intros p skip; simpl.
  - destruct skip; [|easy]. destruct (match_at r p []) as [st|] eqn:E; [|easy].
    intros [<-|[]]. exists p, [], st. split; [now apply match_at_In | reflexivity].
  - destruct skip as [|k]; [|apply IH].
    destruct (match_at r p (a :: s)) as [st|] eqn:E; [|apply IH].
    intros [<-|H]; [|now apply IH in H].
    exists p, (a :: s), st. split; [now apply match_at_In | reflexivity].
Qed.

Lemma finditer_is_match r text m : In m (finditer r text) -> is_match r m.
Proof. apply scan_is_match. Qed.

Lemma is_match_groups r m :
  flat_groups r = true -> is_match r m -> length (m_groups m) = ngroups r.
Proof.
  intros Hf (p & s & st & Hin & ->). simpl. rewrite length_map.
  now rewrite (run_caps_length _ _ _ Hf Hin).
Qed.

End RegexFacts.

(** ** The scanner monad *)

Module ScanFacts.
Import Scan.

(** Raises nothing but [ValueError]. *)
Definition rquiet {A} (r : result A) : Prop := forall e, r = Raise e -> e = ValueError.
Definition quiet {A} (m : M A) : Prop := forall ds, rquiet (fst (m ds)).

(** Raises nothing. *)
Definition safe (m : M unit) : Prop := forall ds, exists ds', m ds = (Ok tt, ds').

Lemma safe_quiet m : safe m -> quiet m.
Proof. intros H ds e. destruct (H ds) as [ds' ->]. discriminate. Qed.

Lemma quiet_ret {A} (a : A) : quiet (ret a).
Proof. intros ds e. discriminate. Qed.

Lemma quiet_lift {A} (r : result A) : rquiet r -> quiet (lift r).
Proof. intros H ds. exact H. Qed.

Lemma quiet_append c : quiet (append c).
Proof. intros ds e. discriminate. Qed.

Lemma quiet_bind {A B} (m : M A) (k : A -> M B) :
  quiet m -> (forall a, quiet (k a)) -> quiet (bind m k).
Proof.
  intros Hm Hk ds. unfold bind. specialize (Hm ds).
  destruct (m ds) as [[a|e] ds']; simpl in *; [apply Hk|].
  intros e' E. apply Hm. congruence.
Qed.

Lemma quiet_when c m : quiet m -> quiet (when c m).
Proof. destruct c; [auto | intros _; apply quiet_ret]. Qed.

Lemma quiet_if {A} (c : bool) (m1 m2 : M A) : quiet m1 -> quiet m2 -> quiet (if c then m1 else m2).
Proof. now destruct c. Qed.

Lemma safe_ret : safe (ret tt).
Proof. intros ds. now exists ds. Qed.

Lemma safe_append c : safe (append c).
Proof. intros ds. now exists (ds ++ [c]). Qed.

Lemma safe_bind (m : M unit) (k : unit -> M unit) :
  safe m -> (forall u, safe (k u)) -> safe (bind m k).
Proof.
  intros Hm Hk ds. unfold bind. destruct (Hm ds) as [ds' ->]. apply Hk.
Qed.

(** [try ... except ValueError] makes a quiet body safe. *)
Lemma safe_try_except body handler :
  quiet body -> safe handler -> safe (try_except body handler).
Proof.
  intros Hb Hh ds. unfold try_except. specialize (Hb ds).
  destruct (body ds) as [[[]|e] ds']; simpl in *; [now exists ds'|].
  rewrite (Hb e eq_refl). apply Hh.
Qed.

Lemma safe_for_each {A} (xs : list A) (body : A -> M unit) :
  (forall x, In x xs -> safe (body x)) -> safe (for_each xs body).
Proof.
  induction xs as [|x xs IH]; simpl; intros H; [apply safe_ret|].
  apply safe_bind; [apply H; now left | intros _; apply IH; auto].
Qed.

Lemma safe_collect m : safe m -> exists ds, collect m = Ok ds.
Proof. intros H. unfold collect. destruct (H []) as [ds ->]. now exists ds. Qed.

(** [m] appends [out] to whatever list it is given and returns. *)
Definition emits (m : M unit) (out : list candidate) : Prop :=
  forall ds, m ds = (Ok tt, ds ++ out).

(** [m] only appends, the same candidates whatever list it is given, and
    all of them satisfy [P]. *)
Definition writes (P : candidate -> Prop) {A} (m : M A) : Prop :=
  exists r out, (forall ds, m ds = (r, ds ++ out)) /\ List.Forall P out.

Lemma writes_ret P {A} (a : A) : writes P (ret a).
Proof. exists (Ok a), []. split; [intros ds; now rewrite app_nil_r | constructor]. Qed.

Lemma writes_lift P {A} (r : result A) : writes P (lift r).
Proof. exists r, []. split; [intros ds; now rewrite app_nil_r | constructor]. Qed.

Lemma writes_append (P : candidate -> Prop) c : P c -> writes P (append c).
Proof. intros H. exists (Ok tt), [c]. split; [reflexivity | now repeat constructor]. Qed.

Lemma writes_bind P {A B} (m : M A) (k : A -> M B) :
  writes P m -> (forall a, writes P (k a)) -> writes P (bind m k).
Proof.
  intros (r & o1 & H1 & F1) Hk. destruct r as [a|e].
  - destruct (Hk a) as (r2 & o2 & H2 & F2). exists r2, (o1 ++ o2). split.
    + intros ds. unfold bind. now rewrite H1, H2, app_assoc.
    + apply List.Forall_app; auto.
  - exists (Raise e), o1. split; [|exact F1].
    intros ds. unfold bind. now rewrite H1.
Qed.

Lemma writes_try_except P body handler :
  writes P body -> writes P handler -> writes P (try_except body handler).
Proof.
  intros (r & o1 & H1 & F1) (r2 & o2 & H2 & F2).
  destruct r as [[]|[| |]].
  - exists (Ok tt), o1. split; [|exact F1]. intros ds. unfold try_except. now rewrite H1.
  - exists r2, (o1 ++ o2). split; [|apply List.Forall_app; auto].
    intros ds. unfold try_except. now rewrite H1, H2, app_assoc.
  - exists (Raise IndexError), o1. split; [|exact F1].
    intros ds. unfold try_except. now rewrite H1.
  - exists (Raise TypeError), o1. split; [|exact F1].
    intros ds. unfold try_except. now rewrite H1.
Qed.

Lemma writes_when P c m : (c = true -> writes P m) -> writes P (when c m).
Proof. destruct c; simpl; [auto | intros _; apply writes_ret]. Qed.

Lemma writes_if P {A} (c : bool) (m1 m2 : M A) :
  (c = true -> writes P m1) -> (c = false -> writes P m2) ->
  writes P (if c then m1 else m2).
Proof. destruct c; auto. Qed.

Lemma writes_for_each P {A} (xs : list A) (body : A -> M unit) :
  (forall x, In x xs -> writes P (body x)) -> writes P (for_each xs body).
Proof.
  induction xs as [|x xs IH]; simpl; intros H; [apply writes_ret|].
  apply writes_bind; [apply H; now left | intros _; apply IH; auto].
Qed.

Lemma safe_writes_emits P m :
  safe m -> writes P m -> exists out, emits m out /\ List.Forall P out.
Proof.
  intros Hs (r & out & H & F). exists out. split; [|exact F].
  intros ds. destruct (Hs ds) as [ds' E]. rewrite H in E |- *. congruence.
Qed.

Lemma emits_for_each {A} (xs : list A) (body : A -> M unit) outs :
  List.Forall2 (fun x out => emits (body x) out) xs outs ->
  emits (for_each xs body) (concat outs).
Proof.
  induction 1 as [|x out xs outs Hx _ IH]; intros ds; simpl.
  - unfold ret. now rewrite app_nil_r.
  - unfold bind. rewrite Hx, IH. now rewrite app_assoc.
Qed.

Lemma emits_collect m out : emits m out -> collect m = Ok out.
Proof. intros H. unfold collect. now rewrite H. Qed.

Lemma emits_each {A} P (xs : list A) (body : A -> M unit) :
  (forall x, In x xs -> safe (body x) /\ writes P (body x)) ->
  exists outs,
    List.Forall2 (fun x out => emits (body x) out /\ List.Forall P out) xs outs.
Proof.
  induction xs as [|x xs IH]; intros H; [exists []; constructor|].
  destruct IH as [outs Houts]; [intros; apply H; now right|].
  destruct (H x ltac:(now left)) as [Hs Hw].
  destruct (safe_writes_emits P _ Hs Hw) as (out & He & Hf).
  exists (out :: outs). now constructor.
Qed.

End ScanFacts.

(** ** No scanner raises *)

Module Safety.
Import Regex RegexFacts Scan ScanFacts Json DateExtractor.

Lemma rquiet_bind {A B} (r : result A) (k : A -> result B) :
  rquiet r -> (forall a, rquiet (k a)) -> rquiet (rbind r k).
Proof.
  intros Hr Hk. destruct r as [a|e]; simpl; [apply Hk|].
  intros e' E. apply Hr. congruence.
Qed.

Lemma rquiet_ok {A} (a : A) : rquiet (Ok a).
Proof. intros e. discriminate. Qed.

Lemma rquiet_value_error {A} : rquiet (@Raise A ValueError).
Proof. intros e. congruence. Qed.

Lemma rquiet_int_chars s : rquiet (PyInt.int_chars s).
Proof.
  unfold PyInt.int_chars. destruct (PyInt.strip s); [apply rquiet_value_error|].
  destruct (forallb _ _); [apply rquiet_ok | apply rquiet_value_error].
Qed.

Lemma rquiet_int s : rquiet (PyInt.int s).
Proof. apply rquiet_int_chars. Qed.

Lemma rquiet_datetime_new y m d H M S : rquiet (datetime_new y m d H M S).
Proof.
  unfold datetime_new. destruct (_ && _); [apply rquiet_ok | apply rquiet_value_error].
Qed.

Lemma rquiet_index_of w l i : rquiet (Strptime.index_of w l i).
Proof.
  revert i; induction l as [|x l IH]; intros i; simpl; [apply rquiet_value_error|].
  destruct (String.eqb w x); [apply rquiet_ok | apply IH].
Qed.

Lemma rquiet_convert c g f : rquiet (Strptime.convert c g f).
Proof.
  unfold Strptime.convert.
  repeat match goal with
         | |- rquiet (if ?c then _ else _) => destruct c
         | |- rquiet (rbind _ _) => apply rquiet_bind; [|intros ?]
         | |- rquiet (PyInt.int_chars _) => apply rquiet_int_chars
         | |- rquiet (Strptime.index_of _ _ _) => apply rquiet_index_of
         | |- rquiet (Ok _) => apply rquiet_ok
         end.
Qed.

Lemma rquiet_convert_all cs gs f : rquiet (Strptime.convert_all cs gs f).
Proof.
  revert gs f; induction cs as [|c cs IH]; intros [|g gs] f; simpl;
    try apply rquiet_ok.
  apply rquiet_bind; [apply rquiet_convert | intros f'; apply IH].
Qed.

Lemma rquiet_strptime data format : rquiet (Strptime.strptime data format).
Proof.
  unfold Strptime.strptime.
  destruct (Strptime.compile _); [|apply rquiet_value_error].
  destruct (Strptime.run_all _ _) as [|st ?]; [apply rquiet_value_error|].
  destruct (rest st); [|apply rquiet_value_error].
  apply rquiet_bind; [apply rquiet_convert_all | intros f; apply rquiet_datetime_new].
Qed.

Lemma rquiet_item l i : (i < length l)%nat -> rquiet (Py.item l i).
Proof.
  intros H. unfold Py.item. destruct (nth_error l i) eqn:E; [apply rquiet_ok|].
  apply nth_error_None in E. lia.
Qed.

Lemma rquiet_unpack3 l : rquiet (Py.unpack3 l).
Proof.
  destruct l as [|a [|b [|c [|d l]]]]; first [apply rquiet_ok | apply rquiet_value_error].
Qed.

Lemma rquiet_unpack2 l : rquiet (Py.unpack2 l).
Proof.
  destruct l as [|a [|b [|c l]]]; first [apply rquiet_ok | apply rquiet_value_error].
Qed.

Lemma rquiet_int_item l i : (i < length l)%nat -> rquiet (int_item l i).
Proof.
  intros H. apply rquiet_bind; [now apply rquiet_item | intros s; apply rquiet_int].
Qed.

Lemma rquiet_datetime_of_parts (l : list string) (b : bool) :
  length l = (if b then 6%nat else 5%nat) -> rquiet (datetime_of_parts l b).
Proof.
  intros H. unfold datetime_of_parts.
  assert (5 <= length l)%nat by (destruct b; lia).
  repeat (apply rquiet_bind; [apply rquiet_int_item; lia | intros ?]).
  destruct b; [|apply rquiet_datetime_new].
  apply rquiet_bind; [apply rquiet_int_item; lia | intros ?; apply rquiet_datetime_new].
Qed.

Lemma rquiet_first_of_month y m : rquiet (first_of_month y m).
Proof.
  unfold first_of_month.
  repeat (apply rquiet_bind; [apply rquiet_int | intros ?]).
  apply rquiet_datetime_new.
Qed.

Lemma rquiet_group1 m : (1 <= length (m_groups m))%nat -> rquiet (Py.group1 m).
Proof. intros H. apply rquiet_item. lia. Qed.

Lemma rquiet_dashed3 l : (3 <= length l)%nat -> rquiet (dashed3 l).
Proof.
  intros H. unfold dashed3.
  repeat (apply rquiet_bind; [apply rquiet_item; lia | intros ?]).
  apply rquiet_ok.
Qed.

Lemma rquiet_date_str m : rquiet (date_str m).
Proof.
  unfold date_str. destruct (Nat.eqb _ 1) eqn:E; [|apply rquiet_ok].
  apply Nat.eqb_eq in E. apply rquiet_group1. lia.
Qed.

(** The number of groups of the pattern listed with each format. *)
Definition expected_groups (date_format : string) : nat :=
  if String.eqb date_format "%Y-%m-%d-%H-%M-%S" then 6
  else if String.eqb date_format "%Y-%m-%d-%H-%M" then 5
  else if String.eqb date_format "%Y-%m" then 2
  else if String.eqb date_format "%Y%m" then 2
  else if String.eqb date_format "%Y" then 1
  else 3.

Lemma catalogue_groups pattern date_format :
  In (pattern, date_format) (date_patterns init) ->
  flat_groups pattern = true /\ ngroups pattern = expected_groups date_format.
Proof.
  simpl. intros H.
  repeat (destruct H as [H|H]; [injection H as <- <-; split; reflexivity|]).
  destruct H.
Qed.

Ltac quiet_step :=
  match goal with
  | |- quiet (bind _ _) => apply quiet_bind; [|intros ?]
  | |- quiet (lift _) => apply quiet_lift
  | |- quiet (when _ _) => apply quiet_when
  | |- quiet (append _) => apply quiet_append
  | |- quiet (try_except _ _) => apply safe_quiet, safe_try_except; [|apply safe_ret]
  | |- quiet pass => apply quiet_ret
  | |- quiet continue => apply quiet_ret
  | |- quiet (ret _) => apply quiet_ret
  | |- quiet (let '(_, _) := ?p in _) => destruct p
  | |- quiet (if _ then _ else _) => apply quiet_if
  | |- rquiet (Strptime.strptime _ _) => apply rquiet_strptime
  | |- rquiet (PyInt.int _) => apply rquiet_int
  | |- rquiet (datetime_new _ _ _ _ _ _) => apply rquiet_datetime_new
  | |- rquiet (Py.unpack3 _) => apply rquiet_unpack3
  | |- rquiet (Py.unpack2 _) => apply rquiet_unpack2
  | |- rquiet (first_of_month _ _) => apply rquiet_first_of_month
  | |- rquiet (date_str _) => apply rquiet_date_str
  end.

Ltac match_safe body H :=
  unfold body; apply safe_try_except; [|apply safe_ret];
  unfold expected_groups in H;
  repeat match goal with
         | |- quiet (if ?c then _ else _) =>
             destruct c eqn:?;
             [repeat quiet_step;
              first [ now apply rquiet_datetime_of_parts
                    | apply rquiet_group1; lia
                    | apply rquiet_dashed3; lia ] |]
         end;
  repeat quiet_step.

(** With as many groups as its pattern has, the body of the match loop
    raises nothing: the [ValueError]s of [int], [datetime] and [strptime]
    are caught and no index is out of range. *)
Lemma filename_match_safe cy date_format (m : rmatch) :
  length (m_groups m) = expected_groups date_format ->
  safe (filename_match cy date_format m).
Proof. intros H. match_safe filename_match H. Qed.

Lemma path_match_safe cy date_format (m : rmatch) :
  length (m_groups m) = expected_groups date_format ->
  safe (path_match cy date_format m).
Proof. intros H. match_safe path_match H. Qed.

(** A field the metadata scanner cannot take: its value is truthy and
    is no text. *)
Definition unreadable (exif_data : gmap string json) (field : string) : bool :=
  match exif_data !! field with
  | Some (JString _) => false
  | Some value => truthy value
  | None => false
  end.

(** Metadata in which none of the six fields is unreadable. *)
Definition readable (exif : exif_output) : bool :=
  match exif with
  | Some exif_data => negb (existsb (unreadable exif_data) (exif_date_fields init))
  | None => true
  end.

(** Metadata whose values are all texts. *)
Definition texts (exif : option (gmap string string)) : exif_output :=
  option_map (fmap JString) exif.

Lemma texts_readable exif : readable (texts exif) = true.
Proof.
  destruct exif as [m|]; [|reflexivity]. unfold readable, texts, option_map.
  apply negb_true_iff, not_true_is_false. intros H.
  apply existsb_exists in H as (field & _ & H). unfold unreadable in H.
  rewrite lookup_fmap in H. destruct (m !! field); discriminate H.
Qed.

Lemma exif_field_safe cy (exif_data : gmap string json) field :
  unreadable exif_data field = false -> safe (exif_field cy exif_data field).
Proof.
  unfold unreadable, exif_field.
  destruct (exif_data !! field) as [value|]; [|intros _; apply safe_ret].
  intros H. destruct (truthy value) eqn:T; [|apply safe_ret].
  destruct value; try discriminate H.
  apply safe_try_except; [|apply safe_ret]. cbn [strptime_value]. repeat quiet_step.
Qed.

(** A value that is truthy and no text ends the scan: [strptime] raises
    [TypeError], which no handler catches. *)
Lemma exif_field_raises cy (exif_data : gmap string json) field :
  unreadable exif_data field = true ->
  forall ds, exif_field cy exif_data field ds = (Raise TypeError, ds).
Proof.
  unfold unreadable, exif_field. intros H ds.
  destruct (exif_data !! field) as [value|]; [|discriminate H].
  destruct value; try discriminate H; rewrite H; reflexivity.
Qed.

Lemma for_each_raises cy (exif_data : gmap string json) fields :
  existsb (unreadable exif_data) fields = true ->
  forall ds, exists ds',
    for_each fields (exif_field cy exif_data) ds = (Raise TypeError, ds').
Proof.
  induction fields as [|field fields IH]; simpl; [discriminate|].
  intros H ds. unfold bind.
  destruct (unreadable exif_data field) eqn:U.
  - rewrite (exif_field_raises cy exif_data field U). now exists ds.
  - destruct (exif_field_safe cy exif_data field U ds) as [ds1 ->]. apply IH, H.
Qed.

Lemma scan_entry_safe (body : Z -> string -> rmatch -> M unit) cy text entry :
  (forall fmt m, length (m_groups m) = expected_groups fmt -> safe (body cy fmt m)) ->
  In entry (date_patterns init) ->
  safe (let '(pattern, date_format) := entry in
        for_each (finditer pattern text) (body cy date_format)).
Proof.
  intros Hbody Hin. destruct entry as [pattern date_format].
  destruct (catalogue_groups _ _ Hin) as [Hflat Hn].
  apply safe_for_each. intros m Hm. apply Hbody.
  rewrite <- Hn. apply is_match_groups; [exact Hflat|].
  eapply finditer_is_match; exact Hm.
Qed.

Lemma extract_filename_dates_ok cy file_path :
  exists ds, extract_filename_dates init cy file_path = Ok ds.
Proof.
  apply safe_collect, safe_for_each. intros entry Hin.
  apply (scan_entry_safe filename_match); [apply filename_match_safe | exact Hin].
Qed.

Lemma extract_path_dates_ok cy file_path :
  exists ds, extract_path_dates init cy file_path = Ok ds.
Proof.
  apply safe_collect, safe_for_each. intros part _.
  apply safe_for_each. intros entry Hin.
  apply (scan_entry_safe path_match); [apply path_match_safe | exact Hin].
Qed.

Lemma extract_exif_dates_ok cy exif :
  readable exif = true -> exists ds, extract_exif_dates init cy exif = Ok ds.
Proof.
  destruct exif as [exif_data|]; unfold extract_exif_dates; [|now exists []].
  unfold readable. intros H. apply negb_true_iff in H.
  apply safe_collect, safe_for_each. intros field Hin. apply exif_field_safe.
  destruct (unreadable exif_data field) eqn:U; [|reflexivity].
  rewrite <- H. symmetry. apply existsb_exists. now exists field.
Qed.

Lemma extract_exif_dates_raises cy exif :
  readable exif = false -> extract_exif_dates init cy exif = Raise TypeError.
Proof.
  destruct exif as [exif_data|]; [|discriminate]. unfold readable.
  intros H. apply negb_false_iff in H.
  destruct (for_each_raises cy exif_data _ H []) as [ds' E].
  unfold extract_exif_dates, collect. now rewrite E.
Qed.

Lemma resolve_ok all_dates : exists r, resolve all_dates = Ok r.
Proof.
  destruct all_dates as [|c l]; [now eexists|].
  unfold resolve. rewrite dedup_loop_cons.
  destruct (sort_nonempty c (Resolver.fresh l [date_key (fst c)])) as (b & rep & ->).
  now eexists.
Qed.

Lemma get_best_date_raises cy exif file_path :
  readable exif = false -> get_best_date init cy exif file_path = Raise TypeError.
Proof.
  intros H. unfold get_best_date. now rewrite (extract_exif_dates_raises cy exif H).
Qed.

Lemma get_best_date_ok cy exif file_path :
  readable exif = true -> exists r, get_best_date init cy exif file_path = Ok r.
Proof.
  intros H. unfold get_best_date.
  destruct (extract_exif_dates_ok cy exif H) as [e ->].
  destruct (extract_filename_dates_ok cy file_path) as [f ->].
  destruct (extract_path_dates_ok cy file_path) as [p ->].
  simpl. apply resolve_ok.
Qed.

(** C8, on the code.  The file-name scanner and the path scanner never
    raise, and a match whose numbers form no calendar date, such as
    month 13, adds no candidate.  The metadata scanner skips a text that
    is no full timestamp and goes on with the remaining fields.  But it
    catches [ValueError] only: a field whose value [json.loads] gives as
    a number makes [strptime] raise [TypeError]; the scan of the
    remaining fields is aborted, and [get_best_date] raises too.  The
    scanners return exactly when no field holds such a value. *)
Theorem metadata_number_aborts_scan :
  (forall cy file_path,
      (exists ds, extract_filename_dates init cy file_path = Ok ds)
      /\ (exists ds, extract_path_dates init cy file_path = Ok ds))
  /\ (forall cy exif file_path,
        if readable exif
        then (exists ds, extract_exif_dates init cy exif = Ok ds)
             /\ (exists r, get_best_date init cy exif file_path = Ok r)
        else extract_exif_dates init cy exif = Raise TypeError
             /\ get_best_date init cy exif file_path = Raise TypeError)
  /\ (forall exif, readable (texts exif) = true)
  /\ (forall cy with_seconds m ds,
        datetime_of_parts (m_groups m) with_seconds = Raise ValueError ->
        let date_format :=
          if with_seconds then "%Y-%m-%d-%H-%M-%S" else "%Y-%m-%d-%H-%M" in
        filename_match cy date_format m ds = (Ok tt, ds)
        /\ path_match cy date_format m ds = (Ok tt, ds))
  /\ datetime_of_parts ["2023"; "13"; "06"; "10"; "11"; "12"] true = Raise ValueError
  /\ (forall cy (exif_data : gmap string json) field value fields ds,
        exif_data !! field = Some (JString value) ->
        Strptime.strptime value "%Y:%m:%d %H:%M:%S" = Raise ValueError ->
        for_each (field :: fields) (exif_field cy exif_data) ds
        = for_each fields (exif_field cy exif_data) ds)
  /\ extract_exif_dates init 2026
        (Some {[ "DateTimeOriginal" := JString "2019-05-02";
                 "CreateDate" := JString "2019:05:02 10:00:00" ]})
      = Ok [(mk_datetime 2019 5 2 10 0 0, "EXIF:CreateDate")]
  /\ extract_exif_dates init 2026
        (Some {[ "DateTimeOriginal" := JInt 2019;
                 "CreateDate" := JString "2019:05:02 10:00:00" ]})
      = Raise TypeError
  /\ get_best_date init 2026
        (Some {[ "DateTimeOriginal" := JInt 2019;
                 "CreateDate" := JString "2019:05:02 10:00:00" ]})
        "IMG_20190502.jpg"
      = Raise TypeError.
Proof.
  split.
  { intros cy file_path.
    split; [apply extract_filename_dates_ok | apply extract_path_dates_ok]. }
  split.
  { intros cy exif file_path. destruct (readable exif) eqn:R.
    - split; [now apply extract_exif_dates_ok | now apply get_best_date_ok].
    - split; [now apply extract_exif_dates_raises | now apply get_best_date_raises]. }
  split; [apply texts_readable|].
  split.
  { intros cy [|] m ds H; simpl; unfold filename_match, path_match, try_except, bind, lift;
      simpl; rewrite H; auto. }
  split; [reflexivity|].
  split.
  { intros cy exif_data field value fields ds Hv Hs. simpl. unfold bind, exif_field.
    rewrite Hv. cbn [truthy strptime_value]. destruct (String.eqb value ""); [reflexivity|].
    cbn [negb]. unfold try_except, bind, lift. rewrite Hs. reflexivity. }
  repeat split; vm_compute; reflexivity.
Qed.

End Safety.

(** ** What the scanners append *)

Module Outputs.
Import Regex RegexFacts Scan ScanFacts Json DateExtractor Safety.

(** A candidate that passed the sanity filter and bears a tag of the
    given source. *)
Definition sane_from (prefix : string) (cy : Z) (c : candidate) : Prop :=
  is_valid_date cy (fst c) = true
  /\ Text.starts_with (Text.chars prefix) (Text.chars (snd c)) = true.

Ltac writes_step :=
  match goal with
  | |- writes _ (bind _ _) => apply writes_bind; [|intros ?]
  | |- writes _ (lift _) => apply writes_lift
  | |- writes _ (when _ _) => apply writes_when; intros ?
  | |- writes _ (append _) => apply writes_append; split; [assumption | reflexivity]
  | |- writes _ (append (_, _ +:+ ?f)) =>
      apply writes_append; split; [assumption | destruct f; reflexivity]
  | |- writes _ (try_except _ _) => apply writes_try_except
  | |- writes _ pass => apply writes_ret
  | |- writes _ continue => apply writes_ret
  | |- writes _ (ret _) => apply writes_ret
  | |- writes _ (let '(_, _) := ?p in _) => destruct p
  | |- writes _ (if _ then _ else _) => apply writes_if; intros ?
  end.

(** Every branch of the path scanner filters what it appends. *)
Lemma path_match_writes cy date_format m :
  writes (sane_from "path:" cy) (path_match cy date_format m).
Proof. unfold path_match. repeat writes_step. Qed.

Lemma exif_field_writes cy (exif_data : gmap string json) field :
  writes (sane_from "EXIF:" cy) (exif_field cy exif_data field).
Proof.
  unfold exif_field. destruct (exif_data !! field); [|apply writes_ret].
  repeat writes_step.
Qed.

(** The loops of [extract_path_dates] over the patterns and their
    matches, for one component of the path. *)
Definition path_part_loop (self : t) (cy : Z) (part : string) : M unit :=
  for_each (date_patterns self) (fun entry =>
    let '(pattern, date_format) := entry in
    for_each (finditer pattern part) (path_match cy date_format)).

(** The candidates one component of the path yields on its own. *)
Definition path_part_dates (self : t) (cy : Z) (part : string)
  : result (list candidate) :=
  collect (path_part_loop self cy part).

Lemma path_part_loop_safe cy part : safe (path_part_loop init cy part).
Proof.
  apply safe_for_each. intros entry Hin.
  apply (scan_entry_safe path_match); [apply path_match_safe | exact Hin].
Qed.

Lemma path_part_loop_writes cy part :
  writes (sane_from "path:" cy) (path_part_loop init cy part).
Proof.
  apply writes_for_each. intros [pattern date_format] _.
  apply writes_for_each. intros m _. apply path_match_writes.
Qed.

Lemma extract_path_dates_parts cy file_path :
  exists outs,
    List.Forall2 (fun part out =>
                    path_part_dates init cy part = Ok out
                    /\ List.Forall (sane_from "path:" cy) out)
                 (PathLib.parts file_path) outs
    /\ extract_path_dates init cy file_path = Ok (concat outs).
Proof.
  destruct (emits_each (sane_from "path:" cy) (PathLib.parts file_path)
              (path_part_loop init cy)) as [outs Houts].
  { intros part _. split; [apply path_part_loop_safe | apply path_part_loop_writes]. }
  exists outs. split.
  - eapply List.Forall2_impl; [|exact Houts]. intros part out [He Hf].
    split; [now apply emits_collect | exact Hf].
  - apply emits_collect. apply (emits_for_each _ (path_part_loop init cy)).
    eapply List.Forall2_impl; [|exact Houts]. now intros part out [He _].
Qed.

(** The words of the specification for the path scanner: the directory
    components, that is the parts of the path without the final file
    name, and only those. *)
Definition directory_parts (file_path : string) : list string :=
  let s := Text.chars file_path in
  map Text.text (PathLib.root s ++ removelast (PathLib.components s)).

Definition spec_extract_path_dates (self : t) (cy : Z) (file_path : string)
  : result (list candidate) :=
  collect (for_each (directory_parts file_path) (path_part_loop self cy)).

Lemma last_app_nonempty {A} (r c : list A) d :
  c <> [] -> List.last (r ++ c) d = List.last c d.
Proof.
  intros Hc. induction r as [|x r IH]; [reflexivity|].
  simpl. rewrite IH. destruct (r ++ c) eqn:E; [|reflexivity].
  apply app_eq_nil in E as [_ ->]. congruence.
Qed.

Lemma last_map {A B} (f : A -> B) (l : list A) d :
  List.last (map f l) (f d) = f (List.last l d).
Proof.
  induction l as [|x l IH]; [reflexivity|].
  simpl. rewrite IH. now destruct l.
Qed.

(** The file name is the last of the parts the path scanner runs on. *)
Lemma parts_last_is_name file_path :
  PathLib.components (Text.chars file_path) <> [] ->
  List.last (PathLib.parts file_path) "" = Text.text (PathLib.name file_path).
Proof.
  intros H. unfold PathLib.parts, PathLib.name.
  change "" with (Text.text []). rewrite last_map.
  now rewrite last_app_nonempty.
Qed.

(** C7, as the code has it.  The path scanner runs the pattern loops on
    every part of [Path(file_path).parts], each on its own, and
    concatenates what they yield; the parts are the root, the directory
    components and, last, the file name with its extension.  Every
    candidate passed the sanity filter and bears a [path:] tag, and a date
    in several parts yields a candidate for each. *)
Theorem path_scanner_scans_every_part (cy : Z) (file_path : string) :
  (exists outs,
      List.Forall2 (fun part out =>
                      path_part_dates init cy part = Ok out
                      /\ List.Forall (sane_from "path:" cy) out)
                   (PathLib.parts file_path) outs
      /\ extract_path_dates init cy file_path = Ok (concat outs))
  /\ (PathLib.components (Text.chars file_path) <> [] ->
      List.last (PathLib.parts file_path) "" = Text.text (PathLib.name file_path))
  /\ PathLib.parts "/trip_2021-05-06/day_2021-05-07/x.jpg"
     = ["/"; "trip_2021-05-06"; "day_2021-05-07"; "x.jpg"]
  /\ option_map (filter (fun c => String.eqb (snd c) "path:%Y-%m-%d"))
       (match extract_path_dates init 2026 "/trip_2021-05-06/day_2021-05-07/x.jpg" with
        | Ok ds => Some ds
        | Raise _ => None
        end)
     = Some [(mk_datetime 2021 5 6 0 0 0, "path:%Y-%m-%d");
             (mk_datetime 2021 5 7 0 0 0, "path:%Y-%m-%d")].
Proof.
  split; [apply extract_path_dates_parts|].
  split; [apply parts_last_is_name|].
  split; vm_compute; reflexivity.
Qed.

(** C7, as stated, fails: for a file with no directory the path scanner
    still yields candidates, from the file name. *)
Lemma path_scanner_reads_file_name :
  directory_parts "2021-05-06.jpg" = []
  /\ spec_extract_path_dates init 2026 "2021-05-06.jpg" = Ok []
  /\ extract_path_dates init 2026 "2021-05-06.jpg"
     = Ok [(mk_datetime 2021 5 6 0 0 0, "path:%Y-%m-%d");
           (mk_datetime 2006 5 21 0 0 0, "path:%d-%m-%y");
           (mk_datetime 2021 5 6 0 0 0, "path:%y-%m-%d");
           (mk_datetime 2021 5 1 0 0 0, "path:YYYY-MM (set to 1st of month)");
           (mk_datetime 2021 1 1 0 0 0, "path:YYYY (set to Jan 1st)")]
  /\ extract_path_dates init 2026 "2021-05-06.jpg"
     <> spec_extract_path_dates init 2026 "2021-05-06.jpg".
Proof.
  repeat split; try (vm_compute; reflexivity).
  vm_compute. discriminate.
Qed.

(** The sentinel calendar dates. *)
Definition sentinels : list (Z * Z * Z) :=
  [(1010, 1, 1); (1980, 1, 1); (1999, 1, 1); (2000, 1, 1); (1970, 1, 1)].

Lemma is_valid_date_spec cy dt :
  is_valid_date cy dt = true <->
  1970 <= year dt <= cy + 1 /\ ~ In (year dt, month dt, day dt) sentinels.
Proof.
  unfold is_valid_date, sentinels; simpl.
  destruct (year dt <? 1970) eqn:E1; simpl.
  { apply Z.ltb_lt in E1. split; [discriminate | lia]. }
  destruct (year dt >? cy + 1) eqn:E2.
  { rewrite Z.gtb_gt in E2. split; [discriminate | lia]. }
  apply Z.ltb_ge in E1. rewrite Z.gtb_ltb in E2. apply Z.ltb_ge in E2.
  repeat match goal with
         | |- context [if ?c then false else _] =>
             let E := fresh "E" in
             destruct c eqn:E;
             [ rewrite !andb_true_iff, !Z.eqb_eq in E; destruct E as [[Ey Em] Ed];
               split; [discriminate | intros [_ Hn]; exfalso; apply Hn;
                                      rewrite Ey, Em, Ed; tauto]
             | rewrite !andb_false_iff, !Z.eqb_neq in E ]
         end.
  split; [intros _ | reflexivity]. split; [lia|].
  intros H. repeat (destruct H as [H|H]; [injection H as Hy Hm Hd; lia|]).
  exact H.
Qed.

(** What the metadata scanner returns passed the filter, and all it can
    raise is [TypeError]. *)
Lemma extract_exif_dates_sane cy exif :
  match extract_exif_dates init cy exif with
  | Ok ds => List.Forall (sane_from "EXIF:" cy) ds
  | Raise e => e = TypeError
  end.
Proof.
  destruct (readable exif) eqn:R;
    [|now rewrite (extract_exif_dates_raises cy exif R)].
  destruct exif as [exif_data|]; unfold extract_exif_dates; [|constructor].
  destruct (writes_for_each (sane_from "EXIF:" cy) (exif_date_fields init)
              (exif_field cy exif_data)) as (r & out & Hm & Hf).
  { intros field _. apply exif_field_writes. }
  unfold collect. rewrite Hm. destruct r as [[]|e]; [exact Hf|].
  destruct (extract_exif_dates_ok cy (Some exif_data) R) as [ds E].
  unfold extract_exif_dates, collect in E. rewrite Hm in E. discriminate E.
Qed.

Lemma extract_exif_dates_texts_sane cy exif :
  exists ds, extract_exif_dates init cy (texts exif) = Ok ds
             /\ List.Forall (sane_from "EXIF:" cy) ds.
Proof.
  destruct (extract_exif_dates_ok cy (texts exif) (texts_readable exif)) as [ds E].
  exists ds. split; [exact E|].
  pose proof (extract_exif_dates_sane cy (texts exif)) as H. now rewrite E in H.
Qed.

Lemma extract_path_dates_sane cy file_path :
  exists ds, extract_path_dates init cy file_path = Ok ds
             /\ List.Forall (sane_from "path:" cy) ds.
Proof.
  destruct (extract_path_dates_parts cy file_path) as (outs & H2 & ->).
  exists (concat outs). split; [reflexivity|].
  apply List.Forall_concat. clear - H2.
  induction H2 as [|part out parts outs [_ Hf] _ IH]; constructor; auto.
Qed.

(** C2, on the code.  The sanity filter is the stated predicate, and
    every candidate of the metadata scanner and of the path scanner
    passed it; the metadata scanner returns for all metadata whose
    values are texts.  The file-name scanner does not apply it in three of its
    branches (bare year, day/month order, plain formats), which the path
    scanner does: the file name [2000-01-01.jpg] yields the sentinel date
    2000-01-01, and that date wins the resolution. *)
Theorem sentinel_from_file_name :
  (forall cy dt,
      is_valid_date cy dt = true <->
      1970 <= year dt <= cy + 1 /\ ~ In (year dt, month dt, day dt) sentinels)
  /\ (forall cy exif,
        exists ds, extract_exif_dates init cy (texts exif) = Ok ds
                   /\ List.Forall (sane_from "EXIF:" cy) ds)
  /\ (forall cy exif,
        match extract_exif_dates init cy exif with
        | Ok ds => List.Forall (sane_from "EXIF:" cy) ds
        | Raise e => e = TypeError
        end)
  /\ (forall cy file_path,
        exists ds, extract_path_dates init cy file_path = Ok ds
                   /\ List.Forall (sane_from "path:" cy) ds)
  /\ is_valid_date 2026 (mk_datetime 2000 1 1 0 0 0) = false
  /\ extract_filename_dates init 2026 "2000-01-01.jpg"
     = Ok [(mk_datetime 2000 1 1 0 0 0, "filename:%Y-%m-%d");
           (mk_datetime 2000 1 1 0 0 0, "filename:%y-%m-%d");
           (mk_datetime 2000 1 1 0 0 0, "filename:YYYY (set to Jan 1st)")]
  /\ extract_filename_dates init 2026 "01-01-2000.jpg"
     = Ok [(mk_datetime 2000 1 1 0 0 0, "filename:DD-MM-YYYY");
           (mk_datetime 2000 1 1 0 0 0, "filename:MM-DD-YYYY");
           (mk_datetime 2000 1 1 0 0 0, "filename:DD-MM-YYYY");
           (mk_datetime 2000 1 1 0 0 0, "filename:MM-DD-YYYY");
           (mk_datetime 2020 1 1 0 0 0, "filename:%d-%m-%y");
           (mk_datetime 2001 1 20 0 0 0, "filename:%y-%m-%d");
           (mk_datetime 2000 1 1 0 0 0, "filename:YYYY (set to Jan 1st)")]
  /\ extract_path_dates init 2026 "2000-01-01/x.jpg" = Ok []
  /\ get_best_date init 2026 None "2000-01-01.jpg"
     = Ok (mk_resolution
             (Some (mk_datetime 2000 1 1 0 0 0, "filename:%Y-%m-%d"))
             [(mk_datetime 2000 1 1 0 0 0, "filename:%Y-%m-%d")]).
Proof.
  split; [apply is_valid_date_spec|].
  split; [apply extract_exif_dates_texts_sane|].
  split; [apply extract_exif_dates_sane|].
  split; [apply extract_path_dates_sane|].
  repeat split; vm_compute; reflexivity.
Qed.

End Outputs.

(** ** Determinism *)

Module Determinism.
Import Scan ScanFacts Json DateExtractor.

(** Two outcomes of reading the metadata that show the same six
    fields. *)
Definition same_fields (self : t) (a b : exif_output) : Prop :=
  match a, b with
  | Some x, Some y => forall field, In field (exif_date_fields self) -> x !! field = y !! field
  | None, None => True
  | _, _ => False
  end.

Lemma for_each_ext {A} (xs : list A) (f g : A -> M unit) :
  (forall x ds, In x xs -> f x ds = g x ds) ->
  forall ds, for_each xs f ds = for_each xs g ds.
Proof.
  induction xs as [|x xs IH]; intros H ds; simpl; [reflexivity|].
  unfold bind. rewrite H by now left.
  destruct (g x ds) as [[[]|e] ds']; [|reflexivity].
  apply IH. intros; apply H; now right.
Qed.

Lemma exif_field_ext cy (x y : gmap string json) field :
  x !! field = y !! field -> forall ds, exif_field cy x field ds = exif_field cy y field ds.
Proof. intros H ds. unfold exif_field. now rewrite H. Qed.

Lemma extract_exif_dates_ext self cy a b :
  same_fields self a b -> extract_exif_dates self cy a = extract_exif_dates self cy b.
Proof.
  destruct a as [x|], b as [y|]; simpl; try easy. intros H.
  unfold collect. rewrite (for_each_ext _ (exif_field cy x) (exif_field cy y)); [reflexivity|].
  intros field ds Hin. now apply exif_field_ext, H.
Qed.

(** C9. A resolution is a function of the six metadata field values,
    the file path and the reference year, and of nothing else: the
    extractor is only read, never written, and two runs on inputs that
    agree on these give the same winner, provenance and report. *)
Theorem resolution_deterministic (self : t) (cy : Z) (exif1 exif2 : exif_output)
  (file_path : string) :
  same_fields self exif1 exif2 ->
  get_best_date self cy exif1 file_path = get_best_date self cy exif2 file_path.
Proof.
  intros H. unfold get_best_date. now rewrite (extract_exif_dates_ext self cy _ _ H).
Qed.

Definition exif_a : gmap string json :=
  {[ "FileModifyDate" := JString "2019:05:02 10:00:00"; "Make" := JString "Canon" ]}.
Definition exif_b : gmap string json :=
  {[ "FileModifyDate" := JString "2019:05:02 10:00:00"; "ISO" := JInt 100 ]}.

Lemma resolution_deterministic_witness :
  same_fields init (Some exif_a) (Some exif_b)
  /\ get_best_date init 2026 (Some exif_a) "IMG_20190501_120000.jpg"
     = get_best_date init 2026 (Some exif_b) "IMG_20190501_120000.jpg".
Proof.
  assert (H : same_fields init (Some exif_a) (Some exif_b)).
  { simpl. intros field Hin.
    repeat (destruct Hin as [<-|Hin]; [vm_compute; reflexivity|]). destruct Hin. }
  split; [exact H | apply (resolution_deterministic init 2026 _ _ _ H)].
Defined.

End Determinism.

(** ** The texts of the groups *)

Module Groups.
Import Regex RegexFacts.

(** For a pattern whose groups are repetitions of a class: the class and
    the bounds of each group, in order. *)
Fixpoint group_specs (r : regex) : list (cclass * nat * nat) :=
  match r with
  | Grp (Rep p lo (Some hi)) => [(p, lo, hi)]
  | Seq r1 r2 => group_specs r1 ++ group_specs r2
  | _ => []
  end.

Fixpoint simple_groups (r : regex) : bool :=
  match r with
  | Grp (Rep _ _ (Some _)) => true
  | Grp _ => false
  | Seq r1 r2 => simple_groups r1 && simple_groups r2
  | Alt r1 r2 => Nat.eqb (ngroups r1) 0 && Nat.eqb (ngroups r2) 0
  | _ => true
  end.

Definition fits (spec : cclass * nat * nat) (w : list ascii) : Prop :=
  let '(p, lo, hi) := spec in
  forallb p w = true /\ (lo <= length w <= hi)%nat.

Lemma run_group_rep p lo hi st st' :
  In st' (run (Grp (Rep p lo (Some hi))) st) ->
  exists w, consumed st st' w /\ fits (p, lo, hi) w /\ caps st' = caps st ++ [w].
Proof.
  intros H. simpl in H. apply in_map_iff in H as (s1 & <- & H).
  destruct (run_sound (Rep p lo (Some hi)) st s1 H) as (w & [Hr Hp] & Hf & Hlo & Hhi).
  exists w. split; [split; assumption|]. split; [split; [exact Hf | lia]|].
  unfold close_group; simpl.
  apply in_map_iff in H as (k & <- & _). simpl in *.
  replace (pos st + k - pos st)%nat with k by lia.
  f_equal. f_equal.
  assert (k = length w) by lia. subst k.
  rewrite Hr at 1. now rewrite firstn_app, Nat.sub_diag, firstn_all, app_nil_r.
Qed.

(** The groups of a match are texts of the classes of the pattern's
    groups, within their bounds. *)
Lemma run_group_specs r st st' :
  simple_groups r = true -> In st' (run r st) ->
  exists ws, caps st' = caps st ++ ws /\ List.Forall2 fits (group_specs r) ws.
Proof.
  revert st st'; induction r as [p|p lo hi|r IH|r1 IH1 r2 IH2|r1 IH1 r2 IH2| |];
    intros st st' Hs Hin;
    try (exists []; split; [|constructor];
         pose proof (fun H => run_caps_same _ st st' H Hin) as E;
         rewrite E by reflexivity; now rewrite app_nil_r).
  - destruct r as [| p lo [hi|] | | | | |]; simpl in Hs; try discriminate Hs.
    destruct (run_group_rep _ _ _ _ _ Hin) as (w & _ & Hf & Hc).
    exists [w]. split; [exact Hc | simpl; constructor; [exact Hf | constructor]].
  - simpl in Hs, Hin. apply andb_true_iff in Hs as [Hs1 Hs2].
    apply in_flat_map in Hin as (s1 & H1 & H2).
    destruct (IH1 _ _ Hs1 H1) as (ws1 & E1 & F1).
    destruct (IH2 _ _ Hs2 H2) as (ws2 & E2 & F2).
    exists (ws1 ++ ws2). split; [now rewrite E2, E1, app_assoc|].
    simpl. now apply List.Forall2_app.
  - simpl in Hs, Hin. apply andb_true_iff in Hs as [Hs1 Hs2].
    apply Nat.eqb_eq in Hs1, Hs2. exists []. split; [|constructor].
    rewrite app_nil_r.
    apply in_app_iff in Hin as [H|H];
      [apply (run_caps_same r1) | apply (run_caps_same r2)]; assumption.
Qed.

Lemma is_match_group_specs r m :
  simple_groups r = true -> is_match r m ->
  exists ws, m_groups m = map Text.text ws /\ List.Forall2 fits (group_specs r) ws.
Proof.
  intros Hs (p & s & st & Hin & ->).
  destruct (run_group_specs _ _ _ Hs Hin) as (ws & E & F).
  exists ws. simpl in *. now rewrite E.
Qed.

End Groups.

(** ** Numbers in digit texts, and the bare-year branch *)

Module Years.
Import Regex RegexFacts Scan ScanFacts DateExtractor Safety Groups.

Lemma chars_text w : Text.chars (Text.text w) = w.
Proof. apply list_ascii_of_string_of_list_ascii. Qed.

Lemma text_chars s : Text.text (Text.chars s) = s.
Proof. apply string_of_list_ascii_of_string. Qed.

Lemma digit_code a : digit a = true <-> 48 <= code a <= 57.
Proof.
  unfold digit, range. change (code "0") with 48. change (code "9") with 57.
  rewrite andb_true_iff, !Z.leb_le. tauto.
Qed.

Lemma digit_not_space a : digit a = true -> space a = false.
Proof.
  rewrite digit_code. intros H. unfold space, in_range.
  repeat match goal with
         | |- context [?x <=? ?y] => destruct (Z.leb_spec x y)
         | |- context [?x =? ?y] => destruct (Z.eqb_spec x y)
         end; simpl; try reflexivity; lia.
Qed.

Lemma lstrip_digits w : forallb digit w = true -> PyInt.lstrip w = w.
Proof.
  destruct w as [|a w]; simpl; [reflexivity|].
  intros H. apply andb_true_iff in H as [H _]. now rewrite (digit_not_space _ H).
Qed.

Lemma forallb_rev {A} (p : A -> bool) l : forallb p (rev l) = forallb p l.
Proof.
  induction l as [|x l IH]; simpl; [reflexivity|].
  rewrite forallb_app, IH. simpl. now rewrite andb_true_r, andb_comm.
Qed.

Lemma strip_digits w : forallb digit w = true -> PyInt.strip w = w.
Proof.
  intros H. unfold PyInt.strip. rewrite (lstrip_digits _ H).
  rewrite lstrip_digits by now rewrite forallb_rev. apply rev_involutive.
Qed.

(** The number a digit text denotes. *)
Definition value (w : list ascii) : Z := PyInt.digits_value 0 w.

Lemma int_chars_digits w :
  forallb digit w = true -> w <> [] -> PyInt.int_chars w = Ok (value w).
Proof.
  intros H Hne. unfold PyInt.int_chars. rewrite (strip_digits _ H).
  destruct w; [congruence|]. now rewrite H.
Qed.

Lemma int_text_digits w :
  forallb digit w = true -> w <> [] -> PyInt.int (Text.text w) = Ok (value w).
Proof. intros. unfold PyInt.int. rewrite chars_text. now apply int_chars_digits. Qed.

Lemma digits_value_bounds w acc :
  forallb digit w = true -> 0 <= acc ->
  10 ^ Z.of_nat (length w) * acc <= PyInt.digits_value acc w
    < 10 ^ Z.of_nat (length w) * (acc + 1).
Proof.
  revert acc; induction w as [|a w IH]; intros acc H Hacc; simpl PyInt.digits_value.
  - simpl. lia.
  - simpl in H. apply andb_true_iff in H as [Ha Hw]. apply digit_code in Ha.
    specialize (IH (10 * acc + PyInt.digit_value a) Hw).
    unfold PyInt.digit_value in *.
    rewrite length_cons, Nat2Z.inj_succ, Z.pow_succ_r by lia.
    assert (0 < 10 ^ Z.of_nat (length w)) by (apply Z.pow_pos_nonneg; lia).
    nia.
Qed.

Lemma value_bounds w :
  forallb digit w = true -> 0 <= value w < 10 ^ Z.of_nat (length w).
Proof. intros H. pose proof (digits_value_bounds w 0 H ltac:(lia)). unfold value. lia. Qed.

Lemma datetime_new_jan1 v :
  1 <= v <= 9999 -> datetime_new v 1 1 0 0 0 = Ok (mk_datetime v 1 1 0 0 0).
Proof.
  intros H. unfold datetime_new, in_range.
  replace (1 <=? v) with true by (symmetry; apply Z.leb_le; lia).
  replace (v <=? 9999) with true by (symmetry; apply Z.leb_le; lia).
  reflexivity.
Qed.

Lemma year_match_groups m :
  is_match pat_year m ->
  exists w, m_groups m = [Text.text w] /\ length w = 4%nat /\ forallb digit w = true.
Proof.
  intros H. destruct (is_match_group_specs pat_year m eq_refl H) as (ws & E & F).
  simpl in F. inversion F as [|spec w specs ws' Hfit F' E1 E2]; subst.
  inversion F'; subst. destruct Hfit as [Hd Hl].
  exists w. split; [exact E|]. split; [lia | exact Hd].
Qed.

(** January 1 of year [v] under [tag], if kept. *)
Definition year_only (tag : string) (keep : bool) (v : Z) : list candidate :=
  if keep then [(mk_datetime v 1 1 0 0 0, tag)] else [].

Lemma filename_year_body cy m w :
  m_groups m = [Text.text w] -> length w = 4%nat -> forallb digit w = true ->
  forall ds,
    filename_match cy "%Y" m ds
    = (Ok tt, ds ++ year_only "filename:YYYY (set to Jan 1st)"
                      (in_range 1900 (value w) 2100) (value w)).
Proof.
  intros Hg Hl Hd ds.
  assert (Hne : w <> []) by (destruct w; [discriminate | congruence]).
  unfold filename_match. cbn [String.eqb Ascii.eqb Bool.eqb is_in existsb orb andb].
  unfold try_except, bind, lift, Py.group1, Py.item. rewrite Hg. cbn [nth_error].
  rewrite (int_text_digits _ Hd Hne).
  unfold in_range at 1; destruct ((1900 <=? value w) && (value w <=? 2100)) eqn:E; cbn [when year_only].
  - apply andb_true_iff in E as [E1 E2]. apply Z.leb_le in E1, E2.
    unfold bind, lift. rewrite datetime_new_jan1 by lia. reflexivity.
  - unfold ret. now rewrite app_nil_r.
Qed.

Lemma path_year_body cy m w :
  m_groups m = [Text.text w] -> length w = 4%nat -> forallb digit w = true ->
  forall ds,
    path_match cy "%Y" m ds
    = (Ok tt, ds ++ year_only "path:YYYY (set to Jan 1st)"
                      (in_range 1970 (value w) 2100
                       && is_valid_date cy (mk_datetime (value w) 1 1 0 0 0)) (value w)).
Proof.
  intros Hg Hl Hd ds.
  assert (Hne : w <> []) by (destruct w; [discriminate | congruence]).
  unfold path_match. cbn [String.eqb Ascii.eqb Bool.eqb is_in existsb orb andb].
  unfold try_except, bind, lift, Py.group1, Py.item. rewrite Hg. cbn [nth_error].
  rewrite (int_text_digits _ Hd Hne).
  unfold in_range at 1; destruct ((1970 <=? value w) && (value w <=? 2100)) eqn:E; cbn [when year_only andb].
  - apply andb_true_iff in E as [E1 E2]. apply Z.leb_le in E1, E2.
    unfold bind, lift. rewrite datetime_new_jan1 by lia.
    destruct (is_valid_date cy _); cbn [when year_only]; [reflexivity|].
    unfold ret. now rewrite app_nil_r.
  - unfold ret. now rewrite app_nil_r.
Qed.

(** The path scanner's narrower window changes nothing once the sanity
    filter follows it: the filter rejects every year below 1970. *)
Lemma path_window_filtered cy v :
  in_range 1970 v 2100 && is_valid_date cy (mk_datetime v 1 1 0 0 0)
  = in_range 1900 v 2100 && is_valid_date cy (mk_datetime v 1 1 0 0 0).
Proof.
  unfold is_valid_date. cbn [year].
  destruct (v <? 1970) eqn:E; cbn [orb]; [now rewrite !andb_false_r|].
  apply Z.ltb_ge in E. unfold in_range.
  replace (1970 <=? v) with true by (symmetry; apply Z.leb_le; lia).
  replace (1900 <=? v) with true by (symmetry; apply Z.leb_le; lia).
  reflexivity.
Qed.

(** C6, on the code.  For every match of the bare-year pattern the group
    is a text of four digits.  The path scanner appends January 1 of
    that year exactly when the number is within 1970..2100 and the date
    passes the sanity filter, which is also exactly when it is within
    1900..2100 and the date passes the sanity filter.  The file-name
    scanner appends it exactly when the number is within 1900..2100 and
    does not call the sanity filter: for the file names [1950.jpg] and
    [IMG_2000.jpg] it yields a date the filter rejects, where the path
    scanner on the same text yields none.  The pattern takes the
    character on each side of the year, so of two years that share a
    separator, as in [2018_2019], only the first is matched. *)
Theorem bare_year_unfiltered_in_file_names (cy : Z) (text : string) :
  List.Forall
    (fun m =>
       exists w,
         m_groups m = [Text.text w] /\ length w = 4%nat /\ forallb digit w = true
         /\ PyInt.int (Text.text w) = Ok (value w)
         /\ (forall ds,
               filename_match cy "%Y" m ds
               = (Ok tt, ds ++ year_only "filename:YYYY (set to Jan 1st)"
                                 (in_range 1900 (value w) 2100) (value w)))
         /\ (forall ds,
               path_match cy "%Y" m ds
               = (Ok tt, ds ++ year_only "path:YYYY (set to Jan 1st)"
                                 (in_range 1970 (value w) 2100
                                  && is_valid_date cy (mk_datetime (value w) 1 1 0 0 0))
                                 (value w)))
         /\ (forall ds,
               path_match cy "%Y" m ds
               = (Ok tt, ds ++ year_only "path:YYYY (set to Jan 1st)"
                                 (in_range 1900 (value w) 2100
                                  && is_valid_date cy (mk_datetime (value w) 1 1 0 0 0))
                                 (value w))))
    (finditer pat_year text)
  /\ In (pat_year, "%Y") (date_patterns init)
  /\ (extract_filename_dates init 2026 "1950.jpg"
      = Ok [(mk_datetime 1950 1 1 0 0 0, "filename:YYYY (set to Jan 1st)")]
      /\ is_valid_date 2026 (mk_datetime 1950 1 1 0 0 0) = false
      /\ extract_path_dates init 2026 "1950.jpg" = Ok [])
  /\ (extract_filename_dates init 2026 "IMG_2000.jpg"
      = Ok [(mk_datetime 2000 1 1 0 0 0, "filename:YYYY (set to Jan 1st)")]
      /\ in_range 1970 2000 2100 = true
      /\ is_valid_date 2026 (mk_datetime 2000 1 1 0 0 0) = false
      /\ extract_path_dates init 2026 "IMG_2000.jpg" = Ok [])
  /\ (finditer pat_year "2018_2019" = [mk_rmatch 0 5 ["2018"]]
      /\ extract_filename_dates init 2026 "2018_2019.jpg"
         = Ok [(mk_datetime 2018 1 1 0 0 0, "filename:YYYY (set to Jan 1st)")]
      /\ extract_path_dates init 2026 "2018_2019"
         = Ok [(mk_datetime 2018 1 1 0 0 0, "path:YYYY (set to Jan 1st)")]).
Proof.
  split; [|split; [simpl; tauto | repeat split; vm_compute; reflexivity]].
  apply List.Forall_forall. intros m Hm. apply finditer_is_match in Hm.
  destruct (year_match_groups m Hm) as (w & Hg & Hl & Hd).
  exists w. repeat split; auto.
  - apply int_text_digits; [exact Hd | destruct w; [discriminate | congruence]].
  - now apply filename_year_body.
  - now apply path_year_body.
  - intros ds. rewrite <- path_window_filtered. now apply path_year_body.
Qed.

End Years.

(** ** What [strptime] accepts, and the shapes that depend on it *)

Module Shapes.
Import Regex RegexFacts Scan ScanFacts DateExtractor Safety Groups Years.
Import Strptime.

Lemma run_all_sound rs st st' :
  In st' (run_all rs st) ->
  exists ws, List.Forall2 lang rs ws /\ rest st = concat ws ++ rest st'.
Proof.
  revert st; induction rs as [|r rs IH]; intros st; simpl.
  - intros [<-|[]]. exists []. split; [constructor | reflexivity].
  - rewrite in_flat_map. intros (s1 & H1 & H2).
    destruct (run_sound _ _ _ H1) as (w & [Hr _] & Hw).
    destruct (IH _ H2) as (ws & F & E).
    exists (w :: ws). split; [now constructor|].
    simpl. now rewrite Hr, E, app_assoc.
Qed.

(** A text that is no concatenation of words of the directives' regular
    expressions is rejected. *)
Lemma strptime_rejects data format rs :
  compile (parse_format false (Text.chars format)) = Some rs ->
  (forall ws, List.Forall2 lang rs ws -> concat ws <> Text.chars data) ->
  strptime data format = Raise ValueError.
Proof.
  intros Hc Hno. unfold strptime. rewrite Hc.
  destruct (run_all rs _) as [|st l] eqn:E; [reflexivity|].
  destruct (rest st) eqn:Er; [|reflexivity].
  exfalso. destruct (run_all_sound rs (mk_mstate O (Text.chars data) []) st) as (ws & F & Hr).
  { rewrite E. now left. }
  simpl in Hr. rewrite Er, app_nil_r in Hr. now apply (Hno ws).
Qed.

(** The length of every word of [r], when they all have the same. *)
Fixpoint fixed_len (r : regex) : option nat :=
  match r with
  | Chr _ => Some 1%nat
  | Rep _ lo (Some hi) => if Nat.eqb lo hi then Some lo else None
  | Rep _ _ None => None
  | Grp r1 => fixed_len r1
  | Seq r1 r2 =>
      match fixed_len r1, fixed_len r2 with
      | Some a, Some b => Some (a + b)%nat
      | _, _ => None
      end
  | Alt r1 r2 =>
      match fixed_len r1, fixed_len r2 with
      | Some a, Some b => if Nat.eqb a b then Some a else None
      | _, _ => None
      end
  | Bol | Eol => Some 0%nat
  end.

Lemma lang_fixed_len r n w : fixed_len r = Some n -> lang r w -> length w = n.
Proof.
  revert n w; induction r as [p|p lo hi|r IH|r1 IH1 r2 IH2|r1 IH1 r2 IH2| |];
    intros n w; simpl.
  - intros [= <-] (a & -> & _). reflexivity.
  - destruct hi as [hi|]; [|discriminate].
    destruct (Nat.eqb_spec lo hi); [|discriminate]. intros [= <-] (_ & H1 & H2). lia.
  - apply IH.
  - destruct (fixed_len r1) as [a|]; [|discriminate].
    destruct (fixed_len r2) as [b|]; [|discriminate].
    intros [= <-] (w1 & w2 & -> & H1 & H2).
    rewrite length_app, (IH1 a w1), (IH2 b w2); auto.
  - destruct (fixed_len r1) as [a|]; [|discriminate].
    destruct (fixed_len r2) as [b|]; [|discriminate].
    destruct (Nat.eqb_spec a b); [|discriminate]. subst b.
    intros [= <-] [H|H]; auto.
  - intros [= <-] ->. reflexivity.
  - intros [= <-] ->. reflexivity.
Qed.

Lemma range_digit lo hi a :
  48 <= code lo -> code hi <= 57 -> range lo hi a = true -> digit a = true.
Proof.
  intros H1 H2. unfold range. rewrite andb_true_iff, !Z.leb_le, digit_code. lia.
Qed.

(** A word of the day directive is one character, or two of which the
    second is a digit. *)
Lemma lang_re_d w :
  lang re_d w -> (exists a, w = [a]) \/ (exists a b, w = [a; b] /\ digit b = true).
Proof.
  unfold re_d, one, rng, dig. simpl.
  intros [H|[H|[H|[H|H]]]];
    repeat match goal with
           | H : exists _, _ |- _ => destruct H
           | H : _ /\ _ |- _ => destruct H
           end; subst; simpl; eauto;
    right; do 2 eexists; (split; [reflexivity|]);
    first [assumption | eapply range_digit; [| |eassumption]; vm_compute; congruence].
Qed.

Lemma alpha_not_digit a : alpha a = true -> digit a = false.
Proof.
  unfold alpha, union, range.
  change (code "A") with 65. change (code "Z") with 90.
  change (code "a") with 97. change (code "z") with 122.
  intros H. destruct (digit a) eqn:E; [|reflexivity]. apply digit_code in E.
  apply orb_true_iff in H as [H|H]; apply andb_true_iff in H as [H1 H2];
    apply Z.leb_le in H1, H2; lia.
Qed.

Lemma forallb_hd {A} (p : A -> bool) a l : forallb p (a :: l) = true -> p a = true.
Proof. simpl. now intros [H _]%andb_true_iff. Qed.

(** [%d%b%y] rejects a day, a month abbreviation and a year of three
    digits or more written one after the other. *)
Lemma strptime_dby_rejects cd cm cy :
  forallb digit cd = true -> (1 <= length cd)%nat ->
  forallb alpha cm = true -> length cm = 3%nat ->
  (3 <= length cy)%nat ->
  strptime (Text.text cd +:+ Text.text cm +:+ Text.text cy) "%d%b%y"
  = Raise ValueError.
Proof.
  intros Hd Hld Hm Hlm Hly.
  apply (strptime_rejects _ _ [Grp re_d; Grp re_b; Grp re_y]); [reflexivity|].
  intros ws F. rewrite !chars_append, !chars_text.
  inversion F as [|r1 w1 rs1 ws1 L1 F1]; subst.
  inversion F1 as [|r2 w2 rs2 ws2 L2 F2]; subst.
  inversion F2 as [|r3 w3 rs3 ws3 L3 F3]; subst.
  inversion F3; subst. simpl in L1, L2, L3 |- *. rewrite app_nil_r.
  pose proof (lang_fixed_len re_b 3 w2 eq_refl L2) as E2.
  pose proof (lang_fixed_len re_y 2 w3 eq_refl L3) as E3.
  intros Heq. pose proof (f_equal (@length ascii) Heq) as Hlen.
  rewrite !length_app in Hlen.
  destruct (lang_re_d w1 L1) as [(a & ->)|(a & b & -> & Hb)]; simpl in Hlen; [lia|].
  destruct cd as [|d0 [|d1 cd]]; simpl in *; try lia.
  destruct cm as [|m0 cm]; simpl in *; [lia|].
  injection Heq as _ Hb0 _. subst b.
  apply forallb_hd in Hm. apply alpha_not_digit in Hm. congruence.
Qed.

Lemma lit_ci_dash a : lit_ci "-" a = true -> a = "-"%char.
Proof.
  destruct a as [[] [] [] [] [] [] [] []]; vm_compute; intros H;
    first [reflexivity | discriminate H].
Qed.

(** [%b-%d-%y] rejects month, day and a year of three digits or more
    joined by dashes. *)
Lemma strptime_bdy_rejects cd cm cy :
  forallb digit cd = true -> (1 <= length cd)%nat ->
  length cm = 3%nat -> (3 <= length cy)%nat ->
  strptime (Text.text cm +:+ "-" +:+ Text.text cd +:+ "-" +:+ Text.text cy) "%b-%d-%y"
  = Raise ValueError.
Proof.
  intros Hd Hld Hlm Hly.
  apply (strptime_rejects _ _
           [Grp re_b; Chr (lit_ci "-"); Grp re_d; Chr (lit_ci "-"); Grp re_y]);
    [reflexivity|].
  intros ws F. rewrite !chars_append, !chars_text.
  inversion F as [|r1 w1 rs1 ws1 L1 F1]; subst.
  inversion F1 as [|r2 w2 rs2 ws2 L2 F2]; subst.
  inversion F2 as [|r3 w3 rs3 ws3 L3 F3]; subst.
  inversion F3 as [|r4 w4 rs4 ws4 L4 F4]; subst.
  inversion F4 as [|r5 w5 rs5 ws5 L5 F5]; subst.
  inversion F5; subst. simpl in L1, L2, L3, L4, L5 |- *. rewrite app_nil_r.
  pose proof (lang_fixed_len re_b 3 w1 eq_refl L1) as E1.
  pose proof (lang_fixed_len re_y 2 w5 eq_refl L5) as E5.
  destruct L2 as (x2 & -> & _). destruct L4 as (x4 & -> & Hx4).
  intros Heq. pose proof (f_equal (@length ascii) Heq) as Hlen.
  rewrite !length_app in Hlen. simpl in Hlen. rewrite !length_app in Hlen. simpl in Hlen.
  destruct (lang_re_d w3 L3) as [(a & ->)|(a & b & -> & Hb)]; simpl in Hlen; [lia|].
  destruct cd as [|d0 [|d1 cd]]; simpl in *; try lia.
  destruct cm as [|m0 [|m1 [|m2 [|m3 cm]]]]; simpl in *; try lia.
  destruct w1 as [|u0 [|u1 [|u2 [|u3 w1]]]]; simpl in *; try lia.
  injection Heq as _ _ _ _ _ Hb0 _. subst b. discriminate Hb.
Qed.

Lemma forall2_three {A B} (R : A -> B -> Prop) a b c l :
  List.Forall2 R [a; b; c] l ->
  exists x y z, l = [x; y; z] /\ R a x /\ R b y /\ R c z.
Proof.
  intros F. inversion F as [|? x ? l1 Ha F1]; subst.
  inversion F1 as [|? y ? l2 Hb F2]; subst.
  inversion F2 as [|? z ? l3 Hc F3]; subst.
  inversion F3; subst. now exists x, y, z.
Qed.

Ltac three_groups pat m H w1 w2 w3 Hg F1 F2 F3 :=
  let ws := fresh "ws" in
  let F := fresh "F" in
  destruct (is_match_group_specs pat m eq_refl H) as (ws & Hg & F);
  apply forall2_three in F as (w1 & w2 & w3 & -> & F1 & F2 & F3);
  destruct F1 as [F1 ?], F2 as [F2 ?], F3 as [F3 ?].

Lemma d_mon_y_groups m :
  is_match pat_d_mon_y m ->
  exists d mon y,
    m_groups m = [Text.text d; Text.text mon; Text.text y]
    /\ (forallb digit d = true /\ (1 <= length d <= 2)%nat)
    /\ (forallb alpha mon = true /\ length mon = 3%nat)
    /\ (forallb digit y = true /\ (2 <= length y <= 4)%nat).
Proof.
  intros H. three_groups pat_d_mon_y m H w1 w2 w3 Hg F1 F2 F3.
  exists w1, w2, w3. repeat split; auto; lia.
Qed.

Lemma mon_d_y_groups m :
  is_match pat_mon_d_y m ->
  exists mon d y,
    m_groups m = [Text.text mon; Text.text d; Text.text y]
    /\ (forallb digit d = true /\ (1 <= length d <= 2)%nat)
    /\ (forallb alpha mon = true /\ length mon = 3%nat)
    /\ (forallb digit y = true /\ (2 <= length y <= 4)%nat).
Proof.
  intros H. three_groups pat_mon_d_y m H w1 w2 w3 Hg F1 F2 F3.
  exists w1, w2, w3. repeat split; auto; lia.
Qed.

Lemma y_mon_d_groups m :
  is_match pat_y_mon_d m ->
  exists y mon d,
    m_groups m = [Text.text y; Text.text mon; Text.text d]
    /\ (forallb digit d = true /\ (1 <= length d <= 2)%nat)
    /\ (forallb alpha mon = true /\ length mon = 3%nat)
    /\ (forallb digit y = true /\ (2 <= length y <= 4)%nat).
Proof.
  intros H. three_groups pat_y_mon_d m H w1 w2 w3 Hg F1 F2 F3.
  exists w1, w2, w3. repeat split; auto; lia.
Qed.

(** A match loop body that adds nothing and goes on. *)
Definition skipped (body : M unit) : Prop := forall ds, body ds = (Ok tt, ds).

Ltac run_body Hg :=
  intros ds; unfold filename_match, path_match;
  cbn [String.eqb Ascii.eqb Bool.eqb is_in existsb orb andb];
  unfold try_except, bind, lift; rewrite Hg; cbn [Py.unpack3 Py.unpack2].

Lemma d_mon_y_skipped cy m d mon y :
  m_groups m = [Text.text d; Text.text mon; Text.text y] ->
  strptime (Text.text d +:+ Text.text mon +:+ Text.text y) "%d%b%y" = Raise ValueError ->
  skipped (filename_match cy "%d%b%y" m) /\ skipped (path_match cy "%d%b%y" m).
Proof. intros Hg Hs. split; run_body Hg; rewrite Hs; reflexivity. Qed.

Lemma mon_d_y_skipped cy m d mon y :
  m_groups m = [Text.text mon; Text.text d; Text.text y] ->
  strptime (Text.text mon +:+ "-" +:+ Text.text d +:+ "-" +:+ Text.text y) "%b-%d-%y"
  = Raise ValueError ->
  skipped (filename_match cy "%b-%d-%y" m) /\ skipped (path_match cy "%b-%d-%y" m).
Proof. intros Hg Hs. split; run_body Hg; rewrite Hs; reflexivity. Qed.

Lemma y_mon_d_skipped cy m d mon y :
  m_groups m = [Text.text y; Text.text mon; Text.text d] ->
  strptime (Text.text mon +:+ "-" +:+ Text.text d +:+ "-" +:+ Text.text y) "%b-%d-%y"
  = Raise ValueError ->
  skipped (filename_match cy "%y-%b-%d" m) /\ skipped (path_match cy "%y-%b-%d" m).
Proof. intros Hg Hs. split; run_body Hg; rewrite Hs; reflexivity. Qed.

(** A word of the month directive starts with a digit. *)
Lemma lang_re_m_head w : lang re_m w -> exists a t, w = a :: t /\ digit a = true.
Proof.
  unfold re_m, one, rng. simpl.
  intros [H|[H|H]];
    repeat match goal with
           | H : exists _, _ |- _ => destruct H
           | H : _ /\ _ |- _ => destruct H
           end; subst; simpl; do 2 eexists; (split; [reflexivity|]);
    first [ eapply range_digit; [| |eassumption]; vm_compute; congruence
          | match goal with H : lit _ _ = true |- _ =>
              apply Ascii.eqb_eq in H; subst; reflexivity end ].
Qed.

(** [%Y%m%d] rejects year, month and day joined by dashes. *)
Lemma strptime_compact_rejects cy cm cd :
  length cy = 4%nat ->
  strptime (Text.text cy +:+ "-" +:+ Text.text cm +:+ "-" +:+ Text.text cd) "%Y%m%d"
  = Raise ValueError.
Proof.
  intros Hly.
  apply (strptime_rejects _ _ [Grp re_Y; Grp re_m; Grp re_d]); [reflexivity|].
  intros ws F. rewrite !chars_append, !chars_text.
  apply forall2_three in F as (w1 & w2 & w3 & -> & L1 & L2 & L3).
  simpl in L1, L2, L3 |- *. rewrite app_nil_r.
  pose proof (lang_fixed_len re_Y 4 w1 eq_refl L1) as E1.
  destruct (lang_re_m_head w2 L2) as (a & t & -> & Ha).
  intros Heq.
  destruct cy as [|y0 [|y1 [|y2 [|y3 [|y4 cy]]]]]; simpl in Hly; try lia.
  destruct w1 as [|u0 [|u1 [|u2 [|u3 [|u4 w1]]]]]; simpl in E1; try lia.
  simpl in Heq. injection Heq as _ _ _ _ Ha0 _. subst a. discriminate Ha.
Qed.

Lemma compact_groups m :
  is_match pat_compact m ->
  exists y mo d,
    m_groups m = [Text.text y; Text.text mo; Text.text d] /\ length y = 4%nat.
Proof.
  intros H. three_groups pat_compact m H w1 w2 w3 Hg F1 F2 F3.
  exists w1, w2, w3. split; [exact Hg | lia].
Qed.

Lemma compact_skipped cy m :
  is_match pat_compact m ->
  skipped (filename_match cy "%Y%m%d" m) /\ skipped (path_match cy "%Y%m%d" m).
Proof.
  intros H. destruct (compact_groups m H) as (y & mo & d & Hg & Hl).
  pose proof (strptime_compact_rejects y mo d Hl) as Hs.
  split; intros ds; unfold filename_match, path_match;
    cbn [String.eqb Ascii.eqb Bool.eqb is_in existsb orb andb];
    change (normal_format "%Y%m%d") with "%Y%m%d";
    unfold try_except, bind, lift, date_str; rewrite Hg;
    cbn [length Nat.eqb Py.join_dash]; rewrite Hs; reflexivity.
Qed.

Lemma ym_compact_groups m :
  is_match pat_ym_compact m ->
  exists y mo, m_groups m = [Text.text y; Text.text mo]
               /\ forallb digit y = true /\ length y = 4%nat.
Proof.
  intros H.
  destruct (is_match_group_specs pat_ym_compact m eq_refl H) as (ws & Hg & F).
  simpl in F. inversion F as [|? y ? l1 Hfit F1]; subst.
  inversion F1 as [|? mo ? l2 _ F2]; subst. inversion F2; subst.
  destruct Hfit as [Hy Hl]. exists y, mo. repeat split; auto. lia.
Qed.

Lemma ym_compact_skipped cy m :
  is_match pat_ym_compact m ->
  skipped (filename_match cy "%Y%m" m) /\ skipped (path_match cy "%Y%m" m).
Proof.
  intros H. destruct (ym_compact_groups m H) as (y & mo & Hg & Hd & Hl).
  assert (Hne : y <> []) by (destruct y; [discriminate | congruence]).
  assert (Htake : Py.take 4 (Text.text y) = Text.text y).
  { unfold Py.take. rewrite chars_text, <- Hl, firstn_all. reflexivity. }
  assert (Hdrop : Py.drop 4 (Text.text y) = "").
  { unfold Py.drop. rewrite chars_text, <- Hl, skipn_all. reflexivity. }
  split; intros ds; unfold filename_match, path_match;
    cbn [String.eqb Ascii.eqb Bool.eqb is_in existsb orb andb];
    unfold try_except, bind, lift, Py.group1, Py.item; rewrite Hg; cbn [nth_error];
    rewrite Htake, Hdrop, (int_text_digits _ Hd Hne); reflexivity.
Qed.

(** The ten digits. *)
Definition digit_chars : list ascii := Text.chars "0123456789".

Lemma digit_cases a : digit a = true -> In a digit_chars.
Proof.
  destruct a as [[] [] [] [] [] [] [] []]; vm_compute; intros H;
    first [discriminate H | tauto].
Qed.

Ltac each_digit a H :=
  apply digit_cases in H;
  unfold digit_chars in H; simpl in H;
  repeat (destruct H as [H|H]; [subst a|]); [..|destruct H].

(** A literal dash of a format. *)
Definition dash : regex := Chr (lit_ci "-").

Lemma run_day_dash p cs a t :
  In p [0; 2; 3]%nat -> forallb digit a = true -> (1 <= length a <= 2)%nat ->
  run (Seq (Grp re_d) dash) (mk_mstate p (a ++ "-"%char :: t) cs)
  = if in_range 1 (value a) 31
    then [mk_mstate (p + length a + 1) t (cs ++ [a])] else [].
Proof.
  intros Hp Hd Hl.
  destruct a as [|a0 [|a1 [|a2 a]]]; simpl in Hl; try lia.
  - simpl in Hd. apply andb_true_iff in Hd as [H0 _].
    simpl in Hp. destruct Hp as [<-|[<-|[<-|[]]]];
      each_digit a0 H0; vm_compute; reflexivity.
  - simpl in Hd. apply andb_true_iff in Hd as [H0 Hd].
    apply andb_true_iff in Hd as [H1 _].
    simpl in Hp. destruct Hp as [<-|[<-|[<-|[]]]];
      each_digit a0 H0; each_digit a1 H1; vm_compute; reflexivity.
Qed.

Lemma run_month_dash p cs a t :
  In p [0; 2; 3]%nat -> forallb digit a = true -> (1 <= length a <= 2)%nat ->
  run (Seq (Grp re_m) dash) (mk_mstate p (a ++ "-"%char :: t) cs)
  = if in_range 1 (value a) 12
    then [mk_mstate (p + length a + 1) t (cs ++ [a])] else [].
Proof.
  intros Hp Hd Hl.
  destruct a as [|a0 [|a1 [|a2 a]]]; simpl in Hl; try lia.
  - simpl in Hd. apply andb_true_iff in Hd as [H0 _].
    simpl in Hp. destruct Hp as [<-|[<-|[<-|[]]]];
      each_digit a0 H0; vm_compute; reflexivity.
  - simpl in Hd. apply andb_true_iff in Hd as [H0 Hd].
    apply andb_true_iff in Hd as [H1 _].
    simpl in Hp. destruct Hp as [<-|[<-|[<-|[]]]];
      each_digit a0 H0; each_digit a1 H1; vm_compute; reflexivity.
Qed.

Lemma run_chr_digit a s p cs :
  digit a = true ->
  run dig (mk_mstate p (a :: s) cs) = [mk_mstate (p + 1) s cs].
Proof. intros H. unfold dig. simpl. now rewrite H. Qed.

(** Four digits that end the text are the year. *)
Lemma run_year_end p cs y :
  forallb digit y = true -> length y = 4%nat ->
  run (Grp re_Y) (mk_mstate p y cs) = [mk_mstate (p + 4) [] (cs ++ [y])].
Proof.
  intros Hd Hl.
  destruct y as [|y0 [|y1 [|y2 [|y3 [|y4 y]]]]]; simpl in Hl; try lia.
  simpl in Hd. repeat (apply andb_true_iff in Hd as [? Hd]).
  unfold re_Y. cbn [run seq_of].
  rewrite run_chr_digit by assumption. cbn [flat_map app].
  rewrite run_chr_digit by assumption. cbn [flat_map app].
  rewrite run_chr_digit by assumption. cbn [flat_map app].
  rewrite run_chr_digit by assumption. cbn [flat_map app map].
  unfold close_group. cbn [pos rest caps].
  replace (p + 1 + 1 + 1 + 1 - p)%nat with 4%nat by lia.
  replace (p + 1 + 1 + 1 + 1)%nat with (p + 4)%nat by lia. reflexivity.
Qed.

Lemma flat_map_assoc {A B C} (f : A -> list B) (g : B -> list C) l :
  flat_map g (flat_map f l) = flat_map (fun x => flat_map g (f x)) l.
Proof.
  induction l as [|x l IH]; simpl; [reflexivity|].
  now rewrite flat_map_app, IH.
Qed.

Lemma run_all_pair r1 r2 rs st :
  run_all (r1 :: r2 :: rs) st = flat_map (run_all rs) (run (Seq r1 r2) st).
Proof. simpl. now rewrite flat_map_assoc. Qed.

Lemma run_all_last r st : run_all [r] st = run r st.
Proof.
  simpl. induction (run r st) as [|x l IH]; simpl; [reflexivity | now rewrite IH].
Qed.

Lemma days_in_month_le y m : days_in_month y m <= 31.
Proof.
  unfold days_in_month.
  destruct (m =? 2); [destruct (is_leap y); lia|].
  destruct (_ || _); lia.
Qed.

Lemma datetime_new_bad_day y m d H M S :
  in_range 1 d 31 = false -> datetime_new y m d H M S = Raise ValueError.
Proof.
  intros Hd. unfold datetime_new.
  assert (E : in_range 1 d (days_in_month y m) = false).
  { unfold in_range in *. pose proof (days_in_month_le y m).
    apply andb_false_iff in Hd as [Hd|Hd]; apply andb_false_iff;
      [left; exact Hd | right]. apply Z.leb_gt in Hd. apply Z.leb_gt. lia. }
  rewrite E. now rewrite !andb_false_r.
Qed.

Lemma datetime_new_bad_month y m d H M S :
  in_range 1 m 12 = false -> datetime_new y m d H M S = Raise ValueError.
Proof.
  intros Hm. unfold datetime_new. rewrite Hm. now rewrite !andb_false_r.
Qed.

(** A text of one or two digits. *)
Definition short_digits (a : list ascii) : Prop :=
  forallb digit a = true /\ (1 <= length a <= 2)%nat.

Lemma short_pos (p : nat) a :
  short_digits a -> p = O -> In (p + length a + 1)%nat [0; 2; 3]%nat.
Proof. intros [_ H] ->. simpl. lia. Qed.

Lemma short_nonempty a : short_digits a -> a <> [].
Proof. intros [_ H] ->. simpl in H. lia. Qed.

Lemma strptime_dmy a b y :
  short_digits a -> short_digits b ->
  forallb digit y = true -> length y = 4%nat ->
  strptime (Text.text a +:+ "-" +:+ Text.text b +:+ "-" +:+ Text.text y) "%d-%m-%Y"
  = datetime_new (value y) (value b) (value a) 0 0 0.
Proof.
  intros Ha Hb Hy Hly. unfold strptime.
  change (compile (parse_format false (Text.chars "%d-%m-%Y")))
    with (Some [Grp re_d; dash; Grp re_m; dash; Grp re_Y]).
  change (directives (parse_format false (Text.chars "%d-%m-%Y")))
    with ["d"; "m"; "Y"]%char.
  cbv iota beta.
  rewrite !chars_append, !chars_text. change (Text.chars "-") with ["-"%char].
  simpl app.
  rewrite run_all_pair, run_day_dash; [|simpl; tauto|apply Ha|apply Ha].
  destruct (in_range 1 (value a) 31) eqn:Ea;
    [|simpl; now rewrite datetime_new_bad_day].
  cbn [flat_map]. rewrite app_nil_r.
  rewrite run_all_pair, run_month_dash;
    [|apply short_pos; [exact Ha | reflexivity]|apply Hb|apply Hb].
  destruct (in_range 1 (value b) 12) eqn:Eb;
    [|simpl; now rewrite datetime_new_bad_month].
  cbn [flat_map]. rewrite app_nil_r.
  rewrite run_all_last, run_year_end by assumption.
  cbn [rest caps app convert_all].
  unfold convert. cbn [Ascii.eqb Bool.eqb].
  rewrite !int_chars_digits;
    try assumption; try apply Ha; try apply Hb;
    try (apply short_nonempty; assumption);
    try (destruct y; [discriminate | congruence]).
  reflexivity.
Qed.

Lemma strptime_mdy a b y :
  short_digits a -> short_digits b ->
  forallb digit y = true -> length y = 4%nat ->
  strptime (Text.text a +:+ "-" +:+ Text.text b +:+ "-" +:+ Text.text y) "%m-%d-%Y"
  = datetime_new (value y) (value a) (value b) 0 0 0.
Proof.
  intros Ha Hb Hy Hly. unfold strptime.
  change (compile (parse_format false (Text.chars "%m-%d-%Y")))
    with (Some [Grp re_m; dash; Grp re_d; dash; Grp re_Y]).
  change (directives (parse_format false (Text.chars "%m-%d-%Y")))
    with ["m"; "d"; "Y"]%char.
  cbv iota beta.
  rewrite !chars_append, !chars_text. change (Text.chars "-") with ["-"%char].
  simpl app.
  rewrite run_all_pair, run_month_dash; [|simpl; tauto|apply Ha|apply Ha].
  destruct (in_range 1 (value a) 12) eqn:Ea;
    [|simpl; now rewrite datetime_new_bad_month].
  cbn [flat_map]. rewrite app_nil_r.
  rewrite run_all_pair, run_day_dash;
    [|apply short_pos; [exact Ha | reflexivity]|apply Hb|apply Hb].
  destruct (in_range 1 (value b) 31) eqn:Eb;
    [|simpl; now rewrite datetime_new_bad_day].
  cbn [flat_map]. rewrite app_nil_r.
  rewrite run_all_last, run_year_end by assumption.
  cbn [rest caps app convert_all].
  unfold convert. cbn [Ascii.eqb Bool.eqb].
  rewrite !int_chars_digits;
    try assumption; try apply Ha; try apply Hb;
    try (apply short_nonempty; assumption);
    try (destruct y; [discriminate | congruence]).
  reflexivity.
Qed.

(** The candidate a successful construction gives, under a tag. *)
Definition tagged (r : result datetime) (tag : string) : list candidate :=
  match r with
  | Ok dt => [(dt, tag)]
  | Raise _ => []
  end.

Definition tagged_if (keep : datetime -> bool) (r : result datetime) (tag : string)
  : list candidate :=
  match r with
  | Ok dt => if keep dt then [(dt, tag)] else []
  | Raise _ => []
  end.

Lemma datetime_new_cases y m d H M S :
  (exists dt, datetime_new y m d H M S = Ok dt)
  \/ datetime_new y m d H M S = Raise ValueError.
Proof. unfold datetime_new. destruct (_ && _); eauto. Qed.

Lemma dmy_groups m :
  is_match pat_dmy m ->
  exists a b y,
    m_groups m = [Text.text a; Text.text b; Text.text y]
    /\ short_digits a /\ short_digits b
    /\ forallb digit y = true /\ length y = 4%nat.
Proof.
  intros H. three_groups pat_dmy m H w1 w2 w3 Hg F1 F2 F3.
  exists w1, w2, w3. unfold short_digits. repeat split; auto; lia.
Qed.

Lemma is_in_two x a b : is_in x [a; b] = true -> x = a \/ x = b.
Proof.
  unfold is_in; simpl. rewrite orb_false_r, orb_true_iff, !String.eqb_eq. tauto.
Qed.

Lemma ambiguous_filename_body cy fmt m a b y :
  is_in fmt ["%d-%m-%Y"; "%m-%d-%Y"] = true ->
  m_groups m = [Text.text a; Text.text b; Text.text y] ->
  short_digits a -> short_digits b -> forallb digit y = true -> length y = 4%nat ->
  forall ds,
    filename_match cy fmt m ds
    = (Ok tt,
       ds ++ tagged (datetime_new (value y) (value b) (value a) 0 0 0) "filename:DD-MM-YYYY"
          ++ tagged (datetime_new (value y) (value a) (value b) 0 0 0) "filename:MM-DD-YYYY").
Proof.
  intros Hf Hg Ha Hb Hy Hl ds.
  assert (E : filename_match cy fmt m = filename_match cy "%d-%m-%Y" m).
  { apply is_in_two in Hf as [->| ->]; reflexivity. }
  rewrite E. unfold filename_match.
  cbn [String.eqb Ascii.eqb Bool.eqb is_in existsb orb andb].
  unfold try_except, bind, lift, dashed3, Py.item. rewrite Hg. cbn [nth_error rbind].
  rewrite (strptime_dmy a b y Ha Hb Hy Hl), (strptime_mdy a b y Ha Hb Hy Hl).
  destruct (datetime_new_cases (value y) (value b) (value a) 0 0 0) as [[d1 ->]| ->];
    destruct (datetime_new_cases (value y) (value a) (value b) 0 0 0) as [[d2 ->]| ->];
    cbn [tagged]; unfold append, pass, continue, ret;
    rewrite ?app_nil_r, <- ?app_assoc; reflexivity.
Qed.

Lemma ambiguous_path_body cy fmt m a b y :
  is_in fmt ["%d-%m-%Y"; "%m-%d-%Y"] = true ->
  m_groups m = [Text.text a; Text.text b; Text.text y] ->
  short_digits a -> short_digits b -> forallb digit y = true -> length y = 4%nat ->
  forall ds,
    path_match cy fmt m ds
    = (Ok tt,
       ds ++ tagged_if (is_valid_date cy)
               (datetime_new (value y) (value b) (value a) 0 0 0) "path:DD-MM-YYYY"
          ++ tagged_if (is_valid_date cy)
               (datetime_new (value y) (value a) (value b) 0 0 0) "path:MM-DD-YYYY").
Proof.
  intros Hf Hg Ha Hb Hy Hl ds.
  assert (E : path_match cy fmt m = path_match cy "%d-%m-%Y" m).
  { apply is_in_two in Hf as [->| ->]; reflexivity. }
  rewrite E. unfold path_match.
  cbn [String.eqb Ascii.eqb Bool.eqb is_in existsb orb andb].
  unfold try_except, bind, lift, dashed3, Py.item. rewrite Hg. cbn [nth_error rbind].
  rewrite (strptime_dmy a b y Ha Hb Hy Hl), (strptime_mdy a b y Ha Hb Hy Hl).
  destruct (datetime_new_cases (value y) (value b) (value a) 0 0 0) as [[d1 ->]| ->];
    destruct (datetime_new_cases (value y) (value a) (value b) 0 0 0) as [[d2 ->]| ->];
    cbn [tagged_if];
    repeat match goal with
           | |- context [is_valid_date cy ?d] => destruct (is_valid_date cy d)
           end;
    cbn [when]; unfold append, pass, continue, ret;
    rewrite ?app_nil_r, <- ?app_assoc; reflexivity.
Qed.

(** In every match of a month-abbreviation pattern the year group has
    two to four digits, and with three or four the match adds no
    candidate, in the file-name scanner and in the path scanner:
    construction parses the year under [%y], which takes two digits, and
    the rest of the text is left over. *)
Theorem long_year_month_names_skipped (cy : Z) (text : string) :
  List.Forall
    (fun m =>
       exists d mon y,
         m_groups m = [Text.text d; Text.text mon; Text.text y]
         /\ (2 <= length y <= 4)%nat
         /\ ((3 <= length y)%nat ->
             skipped (filename_match cy "%d%b%y" m)
             /\ skipped (path_match cy "%d%b%y" m)))
    (finditer pat_d_mon_y text)
  /\ List.Forall
    (fun m =>
       exists mon d y,
         m_groups m = [Text.text mon; Text.text d; Text.text y]
         /\ (2 <= length y <= 4)%nat
         /\ ((3 <= length y)%nat ->
             skipped (filename_match cy "%b-%d-%y" m)
             /\ skipped (path_match cy "%b-%d-%y" m)))
    (finditer pat_mon_d_y text)
  /\ List.Forall
    (fun m =>
       exists y mon d,
         m_groups m = [Text.text y; Text.text mon; Text.text d]
         /\ (2 <= length y <= 4)%nat
         /\ ((3 <= length y)%nat ->
             skipped (filename_match cy "%y-%b-%d" m)
             /\ skipped (path_match cy "%y-%b-%d" m)))
    (finditer pat_y_mon_d text).
Proof.
  repeat split; apply List.Forall_forall; intros m Hm; apply finditer_is_match in Hm.
  - destruct (d_mon_y_groups m Hm) as (d & mon & y & Hg & [Hd Hld] & [Hmo Hlm] & [Hy Hly]).
    exists d, mon, y. repeat split; try lia; try exact Hg;
      intros H3; apply (d_mon_y_skipped cy m d mon y Hg);
      apply strptime_dby_rejects; auto; lia.
  - destruct (mon_d_y_groups m Hm) as (mon & d & y & Hg & [Hd Hld] & [Hmo Hlm] & [Hy Hly]).
    exists mon, d, y. repeat split; try lia; try exact Hg;
      intros H3; apply (mon_d_y_skipped cy m d mon y Hg);
      apply strptime_bdy_rejects; auto; lia.
  - destruct (y_mon_d_groups m Hm) as (y & mon & d & Hg & [Hd Hld] & [Hmo Hlm] & [Hy Hly]).
    exists y, mon, d. repeat split; try lia; try exact Hg;
      intros H3; apply (y_mon_d_skipped cy m d mon y Hg);
      apply strptime_bdy_rejects; auto; lia.
Qed.

(** No match of the two compact patterns ever adds a candidate.  For
    [YYYYMMDD] the groups are joined with dashes and then parsed under
    [%Y%m%d], which has none; for [YYYYMM] the month is taken from the
    text after the fourth character of the first group, which has four
    characters, so [int] is given the empty text. *)
Theorem compact_shapes_yield_nothing (cy : Z) (text : string) :
  List.Forall
    (fun m => skipped (filename_match cy "%Y%m%d" m)
              /\ skipped (path_match cy "%Y%m%d" m))
    (finditer pat_compact text)
  /\ List.Forall
    (fun m => skipped (filename_match cy "%Y%m" m)
              /\ skipped (path_match cy "%Y%m" m))
    (finditer pat_ym_compact text)
  /\ In (pat_compact, "%Y%m%d") (date_patterns init)
  /\ In (pat_ym_compact, "%Y%m") (date_patterns init).
Proof.
  split; [|split; [|split; simpl; tauto]];
    apply List.Forall_forall; intros m Hm; apply finditer_is_match in Hm.
  - now apply compact_skipped.
  - now apply ym_compact_skipped.
Qed.

(** For a match of the day/month-order pattern, under either of its two
    catalogue entries, the file-name scanner appends the day-month-year
    reading when it is a calendar date and then the month-day-year
    reading when it is one, each under its own tag; the path scanner
    does the same and keeps only the readings that pass the sanity
    filter. *)
Theorem day_month_order_readings (cy : Z) (text : string) :
  List.Forall
    (fun fmt =>
       In (pat_dmy, fmt) (date_patterns init)
       /\ List.Forall
         (fun m =>
            exists a b y,
              m_groups m = [Text.text a; Text.text b; Text.text y]
              /\ short_digits a /\ short_digits b
              /\ (forallb digit y = true /\ length y = 4%nat)
              /\ (forall ds,
                    filename_match cy fmt m ds
                    = (Ok tt,
                       ds ++ tagged (datetime_new (value y) (value b) (value a) 0 0 0)
                                    "filename:DD-MM-YYYY"
                          ++ tagged (datetime_new (value y) (value a) (value b) 0 0 0)
                                    "filename:MM-DD-YYYY"))
              /\ (forall ds,
                    path_match cy fmt m ds
                    = (Ok tt,
                       ds ++ tagged_if (is_valid_date cy)
                               (datetime_new (value y) (value b) (value a) 0 0 0)
                               "path:DD-MM-YYYY"
                          ++ tagged_if (is_valid_date cy)
                               (datetime_new (value y) (value a) (value b) 0 0 0)
                               "path:MM-DD-YYYY")))
         (finditer pat_dmy text))
    ["%d-%m-%Y"; "%m-%d-%Y"].
Proof.
  apply List.Forall_forall. intros fmt Hfmt.
  assert (Hin : is_in fmt ["%d-%m-%Y"; "%m-%d-%Y"] = true).
  { simpl in Hfmt. destruct Hfmt as [<-|[<-|[]]]; reflexivity. }
  split; [simpl in Hfmt |- *; destruct Hfmt as [<-|[<-|[]]]; tauto|].
  apply List.Forall_forall. intros m Hm. apply finditer_is_match in Hm.
  destruct (dmy_groups m Hm) as (a & b & y & Hg & Ha & Hb & Hy & Hl).
  exists a, b, y. repeat split; try apply Ha; try apply Hb; auto.
  - now apply ambiguous_filename_body.
  - now apply ambiguous_path_body.
Qed.

End Shapes.

(** ** The scanners and the resolution, end to end *)

Module EndToEnd.
Import Regex RegexFacts Scan ScanFacts Json DateExtractor Safety Groups Years Shapes Resolver.
Import Strptime.

(** What one metadata field contributes. *)
Definition field_dates (cy : Z) (exif_data : gmap string json) (field : string)
  : list candidate :=
  match exif_data !! field with
  | Some (JString value) =>
      if String.eqb value "" then []
      else tagged_if (is_valid_date cy)
             (strptime value "%Y:%m:%d %H:%M:%S") ("EXIF:" +:+ field)
  | _ => []
  end.

Lemma exif_field_emits cy (exif_data : gmap string json) field :
  unreadable exif_data field = false ->
  emits (exif_field cy exif_data field) (field_dates cy exif_data field).
Proof.
  intros U ds. unfold unreadable in U. unfold exif_field, field_dates.
  destruct (exif_data !! field) as [value|]; [|unfold pass, ret; now rewrite app_nil_r].
  destruct (truthy value) eqn:T.
  2: { destruct value; try (unfold pass, ret; now rewrite app_nil_r).
       cbn [truthy] in T. apply negb_false_iff in T. rewrite T.
       unfold pass, ret. now rewrite app_nil_r. }
  destruct value as [| | | |value| |]; try discriminate U.
  cbn [truthy] in T. apply negb_true_iff in T. rewrite T.
  unfold try_except, bind, lift. cbn [strptime_value].
  pose proof (rquiet_strptime value "%Y:%m:%d %H:%M:%S") as Hq.
  destruct (strptime value "%Y:%m:%d %H:%M:%S") as [dt|e]; cbn [tagged_if].
  - destruct (is_valid_date cy dt); [reflexivity|].
    unfold pass, ret. now rewrite app_nil_r.
  - rewrite (Hq e eq_refl). unfold continue, ret. now rewrite app_nil_r.
Qed.

Lemma extract_exif_dates_fields cy (exif_data : gmap string json) :
  readable (Some exif_data) = true ->
  extract_exif_dates init cy (Some exif_data)
  = Ok (concat (map (field_dates cy exif_data) (exif_date_fields init))).
Proof.
  intros R. unfold readable in R. apply negb_true_iff in R.
  unfold extract_exif_dates. apply emits_collect, emits_for_each.
  assert (H : forall field, In field (exif_date_fields init) ->
                            unreadable exif_data field = false).
  { intros field Hin. destruct (unreadable exif_data field) eqn:U; [|reflexivity].
    rewrite <- R. symmetry. apply existsb_exists. now exists field. }
  clear R. induction (exif_date_fields init) as [|f fs IH]; simpl; constructor.
  - apply exif_field_emits, H. now left.
  - apply IH. intros; apply H; now right.
Qed.

(** The shapes a tag of the file-name or path scanner can name. *)
Definition shape_names : list string :=
  [ "YYYY-MM-DD HH:MM:SS"; "YYYY-MM-DD HH:MM"; "DD-MMM-YY"; "%b-%d-%y"; "%y-%b-%d";
    "YYYY-MM (set to 1st of month)"; "YYYYMM (set to 1st of month)";
    "YYYY (set to Jan 1st)"; "DD-MM-YYYY"; "MM-DD-YYYY";
    "%Y-%m-%d"; "%Y%m%d"; "%d-%m-%y"; "%y-%m-%d" ].

(** The tags of a scanner, given its source prefix. *)
Definition tags_of (source : string) : list string :=
  map (fun shape => source +:+ shape) shape_names.

(** A candidate whose tag is one of [tags]. *)
Definition tag_among (tags : list string) (c : candidate) : Prop :=
  is_in (snd c) tags = true.

Ltac tag_step :=
  match goal with
  | |- writes _ (bind _ _) => apply writes_bind; [|intros ?]
  | |- writes _ (lift _) => apply writes_lift
  | |- writes _ (when _ _) => apply writes_when; intros ?
  | |- writes _ (append _) => apply writes_append; reflexivity
  | |- writes _ (try_except _ _) => apply writes_try_except
  | |- writes _ pass => apply writes_ret
  | |- writes _ continue => apply writes_ret
  | |- writes _ (ret _) => apply writes_ret
  | |- writes _ (let '(_, _) := ?p in _) => destruct p
  | |- writes _ (if _ then _ else _) => apply writes_if; intros ?
  end.

Lemma filename_match_tags cy pattern fmt m :
  In (pattern, fmt) (date_patterns init) ->
  writes (tag_among (tags_of "filename:")) (filename_match cy fmt m).
Proof.
  simpl. intros H.
  repeat (destruct H as [H|H];
          [injection H as <- <-; unfold filename_match;
           cbn [String.eqb Ascii.eqb Bool.eqb is_in existsb orb andb];
           repeat tag_step|]).
  destruct H.
Qed.

Lemma path_match_tags cy pattern fmt m :
  In (pattern, fmt) (date_patterns init) ->
  writes (tag_among (tags_of "path:")) (path_match cy fmt m).
Proof.
  simpl. intros H.
  repeat (destruct H as [H|H];
          [injection H as <- <-; unfold path_match;
           cbn [String.eqb Ascii.eqb Bool.eqb is_in existsb orb andb];
           repeat tag_step|]).
  destruct H.
Qed.

Lemma filename_scan_invariant (P : candidate -> Prop) cy file_path :
  (forall pattern fmt m,
      In (pattern, fmt) (date_patterns init) -> writes P (filename_match cy fmt m)) ->
  exists ds, extract_filename_dates init cy file_path = Ok ds /\ List.Forall P ds.
Proof.
  intros HP. unfold extract_filename_dates.
  match goal with |- exists ds, collect ?loop = _ /\ _ =>
    destruct (safe_writes_emits P loop) as (out & He & Hf) end.
  - apply safe_for_each. intros entry Hin.
    apply (scan_entry_safe filename_match); [apply filename_match_safe | exact Hin].
  - apply writes_for_each. intros [pattern fmt] Hin.
    apply writes_for_each. intros m _. now apply (HP pattern).
  - exists out. split; [now apply emits_collect | exact Hf].
Qed.

Lemma path_scan_invariant (P : candidate -> Prop) cy file_path :
  (forall pattern fmt m,
      In (pattern, fmt) (date_patterns init) -> writes P (path_match cy fmt m)) ->
  exists ds, extract_path_dates init cy file_path = Ok ds /\ List.Forall P ds.
Proof.
  intros HP. unfold extract_path_dates.
  match goal with |- exists ds, collect ?loop = _ /\ _ =>
    destruct (safe_writes_emits P loop) as (out & He & Hf) end.
  - apply safe_for_each. intros part _. apply safe_for_each. intros entry Hin.
    apply (scan_entry_safe path_match); [apply path_match_safe | exact Hin].
  - apply writes_for_each. intros part _.
    apply writes_for_each. intros [pattern fmt] Hin.
    apply writes_for_each. intros m _. now apply (HP pattern).
  - exists out. split; [now apply emits_collect | exact Hf].
Qed.

Lemma is_in_In x l : is_in x l = true -> In x l.
Proof.
  unfold is_in. rewrite existsb_exists. intros (y & Hy & E).
  apply String.eqb_eq in E. now subst.
Qed.

Lemma tag_score_bound tags lo hi c :
  forallb (fun t => in_range lo (get_date_precision_score t) hi) tags = true ->
  tag_among tags c -> lo <= score c <= hi.
Proof.
  intros Hall Hc. apply is_in_In in Hc.
  rewrite forallb_forall in Hall. specialize (Hall _ Hc).
  unfold in_range in Hall. apply andb_true_iff in Hall as [H1 H2].
  apply Z.leb_le in H1, H2. unfold score. lia.
Qed.

Lemma filename_scores cy file_path :
  exists ds, extract_filename_dates init cy file_path = Ok ds
             /\ List.Forall (fun c => tag_among (tags_of "filename:") c
                                       /\ 20 <= score c <= 70) ds.
Proof.
  destruct (filename_scan_invariant (tag_among (tags_of "filename:")) cy file_path)
    as (ds & E & F); [intros; eapply filename_match_tags; eauto|].
  exists ds. split; [exact E|].
  eapply List.Forall_impl; [|exact F]. intros c Hc. split; [exact Hc|].
  now apply (tag_score_bound (tags_of "filename:")).
Qed.

Lemma path_scores cy file_path :
  exists ds, extract_path_dates init cy file_path = Ok ds
             /\ List.Forall (fun c => tag_among (tags_of "path:") c
                                       /\ 10 <= score c <= 45) ds.
Proof.
  destruct (path_scan_invariant (tag_among (tags_of "path:")) cy file_path)
    as (ds & E & F); [intros; eapply path_match_tags; eauto|].
  exists ds. split; [exact E|].
  eapply List.Forall_impl; [|exact F]. intros c Hc. split; [exact Hc|].
  now apply (tag_score_bound (tags_of "path:")).
Qed.

(** The tags of the metadata scanner. *)
Definition exif_tags : list string :=
  map (fun field => "EXIF:" +:+ field) (exif_date_fields init).

Lemma field_dates_tag cy (exif_data : gmap string json) field c :
  In c (field_dates cy exif_data field) ->
  snd c = "EXIF:" +:+ field
  /\ is_valid_date cy (fst c) = true
  /\ exists value, exif_data !! field = Some (JString value)
                   /\ strptime value "%Y:%m:%d %H:%M:%S" = Ok (fst c).
Proof.
  unfold field_dates. destruct (exif_data !! field) as [[| | | |value| |]|] eqn:Hv;
    try easy.
  destruct (String.eqb value ""); [easy|].
  destruct (strptime value "%Y:%m:%d %H:%M:%S") as [dt|e] eqn:Hs; [|easy].
  simpl. destruct (is_valid_date cy dt) eqn:E; [|easy].
  intros [<-|[]]. simpl. repeat split; auto. now exists value.
Qed.

Lemma exif_scores cy exif e :
  extract_exif_dates init cy exif = Ok e ->
  List.Forall (fun c => tag_among exif_tags c /\ 75 <= score c <= 100) e.
Proof.
  intros He. destruct exif as [exif_data|]; [|injection He as <-; constructor].
  destruct (readable (Some exif_data)) eqn:R;
    [|rewrite (extract_exif_dates_raises cy _ R) in He; discriminate He].
  rewrite (extract_exif_dates_fields cy exif_data R) in He.
  assert (E : e = concat (map (field_dates cy exif_data) (exif_date_fields init)))
    by congruence.
  rewrite E. clear He E.
  apply List.Forall_forall. intros c Hc.
  apply in_concat in Hc as (out & Hout & Hc).
  apply in_map_iff in Hout as (field & <- & Hfield).
  apply field_dates_tag in Hc as (Htag & _).
  assert (Ht : tag_among exif_tags c).
  { unfold tag_among. rewrite Htag. simpl in Hfield.
    repeat (destruct Hfield as [<-|Hfield]; [reflexivity|]). destruct Hfield. }
  split; [exact Ht | now apply (tag_score_bound exif_tags)].
Qed.

(** What [resolve] returns for a list that is not empty. *)
Lemma resolve_best (c : candidate) (l : list candidate) :
  exists b rep,
    resolve (c :: l) = Ok (mk_resolution (Some b) rep)
    /\ In b (c :: l) /\ In c rep
    /\ (forall x, In x rep -> In x (c :: l))
    /\ (forall x, In x rep -> x = b \/ strictly_before b x).
Proof.
  assert (Hsorted : StronglySorted strictly_before (sort (dedup_loop (c :: l) [] []))).
  { apply sorted_strict; [apply sort_sorted|].
    eapply permutation_NoDup_fst; [apply sort_perm | apply dedup_loop_NoDup]. }
  assert (Hperm := sort_perm (dedup_loop (c :: l) [] [])).
  assert (Hsub : forall x, In x (dedup_loop (c :: l) [] []) -> In x (c :: l)).
  { intros x Hx. apply dedup_loop_first_seen in Hx as (l1 & l2 & E & _).
    rewrite E. apply in_or_app. right. now left. }
  unfold resolve. rewrite dedup_loop_cons in *.
  destruct (sort_nonempty c (fresh l [date_key (fst c)])) as (b & rep & E).
  rewrite E in *. exists b, (b :: rep).
  assert (Hin : forall x, In x (b :: rep) -> In x (c :: l)).
  { intros x Hx. apply Hsub. eapply Permutation_in; [exact Hperm | exact Hx]. }
  repeat split; auto.
  - apply Hin. now left.
  - eapply Permutation_in; [symmetry; exact Hperm | now left].
  - intros x [<-|Hx]; [now left | right].
    apply StronglySorted_inv in Hsorted as [_ Hall].
    rewrite List.Forall_forall in Hall. now apply Hall.
Qed.

Lemma strictly_before_score a b : strictly_before a b -> score b <= score a.
Proof. unfold strictly_before, score. intros [H|[H _]]; lia. Qed.

Lemma get_best_date_unfold cy exif file_path e f p :
  extract_exif_dates init cy exif = Ok e ->
  extract_filename_dates init cy file_path = Ok f ->
  extract_path_dates init cy file_path = Ok p ->
  get_best_date init cy exif file_path = resolve (e ++ f ++ p).
Proof. intros He Hf Hp. unfold get_best_date. now rewrite He, Hf, Hp. Qed.

(** The scores of the three scanners lie in three ranges that do not
    meet. *)
Lemma metadata_first cy exif file_path e f p :
  extract_exif_dates init cy exif = Ok e ->
  extract_filename_dates init cy file_path = Ok f ->
  extract_path_dates init cy file_path = Ok p ->
  exists r,
    get_best_date init cy exif file_path = Ok r
    /\ List.Forall (fun c => 75 <= score c <= 100) e
    /\ List.Forall (fun c => 20 <= score c <= 70) f
    /\ List.Forall (fun c => 10 <= score c <= 45) p
    /\ (e <> [] -> exists b, best r = Some b /\ In b e).
Proof.
  intros He Hf Hp. pose proof (exif_scores cy exif e He) as Fe.
  destruct (filename_scores cy file_path) as (f' & Hf' & Ff).
  destruct (path_scores cy file_path) as (p' & Hp' & Fp).
  assert (f' = f) as -> by congruence. assert (p' = p) as -> by congruence.
  assert (Fe' : List.Forall (fun c => 75 <= score c <= 100) e)
    by (eapply List.Forall_impl; [|exact Fe]; now intros c [_ H]).
  assert (Ff' : List.Forall (fun c => 20 <= score c <= 70) f)
    by (eapply List.Forall_impl; [|exact Ff]; now intros c [_ H]).
  assert (Fp' : List.Forall (fun c => 10 <= score c <= 45) p)
    by (eapply List.Forall_impl; [|exact Fp]; now intros c [_ H]).
  rewrite List.Forall_forall in Fe', Ff', Fp'.
  destruct e as [|c e'].
  - destruct (resolve_ok (f ++ p)) as [r Hr].
    exists r. rewrite (get_best_date_unfold _ _ _ [] f p He Hf Hp).
    repeat split; auto; try (apply List.Forall_forall; auto). congruence.
  - destruct (resolve_best c (e' ++ f ++ p)) as (b & rep & Hr & Hb & Hc & _ & Hmax).
    exists (mk_resolution (Some b) rep).
    rewrite (get_best_date_unfold _ _ _ (c :: e') f p He Hf Hp).
    repeat split; auto; try (apply List.Forall_forall; auto).
    intros _. exists b. split; [reflexivity|].
    assert (Hs : 75 <= score b).
    { destruct (Hmax c Hc) as [->|H]; [apply Fe'; now left|].
      apply strictly_before_score in H.
      pose proof (Fe' c ltac:(now left)). lia. }
    change (In b ((c :: e') ++ f ++ p)) in Hb.
    apply in_app_or in Hb as [Hb|Hb]; [exact Hb | exfalso].
    apply in_app_or in Hb as [Hb|Hb]; [apply Ff' in Hb | apply Fp' in Hb]; lia.
Qed.

(** Whenever the metadata scanner finds a date, the winner is one of
    the metadata dates: they score 75 or more, file-name dates 70 or
    less and path dates 45 or less, and coming first they are never
    dropped in favour of a later duplicate.  The metadata scanner
    returns for all readable metadata, and so for all metadata whose
    values are texts; for the rest it raises, and so does
    [get_best_date]. *)
Theorem metadata_date_wins (cy : Z) (exif : exif_output) (file_path : string) :
  (if readable exif
   then
     exists e f p r,
       extract_exif_dates init cy exif = Ok e
       /\ extract_filename_dates init cy file_path = Ok f
       /\ extract_path_dates init cy file_path = Ok p
       /\ get_best_date init cy exif file_path = Ok r
       /\ List.Forall (fun c => 75 <= score c <= 100) e
       /\ List.Forall (fun c => 20 <= score c <= 70) f
       /\ List.Forall (fun c => 10 <= score c <= 45) p
       /\ (e <> [] -> exists b, best r = Some b /\ In b e)
   else
     extract_exif_dates init cy exif = Raise TypeError
     /\ get_best_date init cy exif file_path = Raise TypeError)
  /\ (forall text_exif, exif = texts text_exif -> readable exif = true).
Proof.
  split; [|intros text_exif ->; apply texts_readable].
  destruct (readable exif) eqn:R.
  - destruct (extract_exif_dates_ok cy exif R) as (e & He).
    destruct (extract_filename_dates_ok cy file_path) as (f & Hf).
    destruct (extract_path_dates_ok cy file_path) as (p & Hp).
    destruct (metadata_first cy exif file_path e f p He Hf Hp) as (r & H).
    exists e, f, p, r. tauto.
  - split; [now apply extract_exif_dates_raises | now apply get_best_date_raises].
Qed.

Lemma resolve_found (all_dates : list candidate) :
  exists r,
    resolve all_dates = Ok r
    /\ (best r = None <-> all_dates = [])
    /\ (forall b, best r = Some b -> In b all_dates /\ head (report r) = Some b)
    /\ List.NoDup (map fst (report r))
    /\ (forall dt, In dt (map fst (report r)) <-> In dt (map fst all_dates)).
Proof.
  destruct all_dates as [|c l].
  - exists (mk_resolution None []). simpl. repeat split; auto; try easy; constructor.
  - assert (Hperm := sort_perm (dedup_loop (c :: l) [] [])).
    assert (Hnd := dedup_loop_NoDup (c :: l)).
    unfold resolve. rewrite dedup_loop_cons in *.
    destruct (sort_nonempty c (fresh l [date_key (fst c)])) as (b & rep & E).
    rewrite E in *. exists (mk_resolution (Some b) (b :: rep)). cbn [best report].
    assert (Hsub : forall x, In x (b :: rep) -> In x (c :: l)).
    { intros x Hx. apply (Permutation_in _ Hperm) in Hx.
      rewrite <- dedup_loop_cons in Hx.
      apply dedup_loop_first_seen in Hx as (l1 & l2 & E' & _).
      rewrite E'. apply in_or_app. right. now left. }
    split; [reflexivity|]. split; [split; discriminate|].
    split; [intros b' [= <-]; split; [apply Hsub; now left | reflexivity]|].
    split; [eapply permutation_NoDup_fst; [exact Hperm | exact Hnd]|].
    intros dt. split; intros Hdt; apply in_map_iff in Hdt as (x & <- & Hx).
    + apply in_map. now apply Hsub.
    + destruct (fresh_covers (c :: l) [] x Hx) as [[]|(x' & Hx' & Ex)].
      rewrite <- Ex. apply in_map.
      apply (Permutation_in _ (Permutation_sym Hperm)).
      rewrite <- dedup_loop_cons, dedup_loop_fresh. exact Hx'.
Qed.

(** [get_best_date] finds nothing exactly when the three scanners found
    nothing; otherwise its winner is one of their candidates, heads the
    report, and the report holds every instant found exactly once.
    This for all readable metadata, and so for all metadata whose values
    are texts; for the rest the metadata scanner raises, and so does
    [get_best_date]. *)
Theorem best_date_is_a_found_date (cy : Z) (exif : exif_output) (file_path : string) :
  (if readable exif
   then
     exists e f p r,
       extract_exif_dates init cy exif = Ok e
       /\ extract_filename_dates init cy file_path = Ok f
       /\ extract_path_dates init cy file_path = Ok p
       /\ get_best_date init cy exif file_path = Ok r
       /\ (best r = None <-> e ++ f ++ p = [])
       /\ (forall b, best r = Some b -> In b (e ++ f ++ p) /\ head (report r) = Some b)
       /\ List.NoDup (map fst (report r))
       /\ (forall dt, In dt (map fst (report r)) <-> In dt (map fst (e ++ f ++ p)))
   else
     extract_exif_dates init cy exif = Raise TypeError
     /\ get_best_date init cy exif file_path = Raise TypeError)
  /\ (forall text_exif, exif = texts text_exif -> readable exif = true).
Proof.
  split; [|intros text_exif ->; apply texts_readable].
  destruct (readable exif) eqn:R.
  - destruct (extract_exif_dates_ok cy exif R) as (e & He).
    destruct (extract_filename_dates_ok cy file_path) as (f & Hf).
    destruct (extract_path_dates_ok cy file_path) as (p & Hp).
    destruct (resolve_found (e ++ f ++ p)) as (r & Hr & H).
    exists e, f, p, r. rewrite (get_best_date_unfold _ _ _ e f p He Hf Hp).
    tauto.
  - split; [now apply extract_exif_dates_raises | now apply get_best_date_raises].
Qed.

(** The metadata scanner reads the six fields in their order of
    preference and yields at most one candidate for each: the field must
    be present, a text that is not empty and is a full timestamp, and
    pass the sanity filter; the candidate is the parsed instant tagged
    [EXIF:] and the field name.  Without metadata it yields nothing.
    This for all readable metadata, and so for all metadata whose values
    are texts; for the rest it raises [TypeError]. *)
Theorem metadata_scanner_by_field (cy : Z) (exif_data : gmap string json) :
  extract_exif_dates init cy None = Ok []
  /\ extract_exif_dates init cy (Some exif_data)
     = (if readable (Some exif_data)
        then Ok (concat (map (field_dates cy exif_data)
                             ["DateTimeOriginal"; "CreateDate"; "DateTime";
                              "DateTimeDigitized"; "ModifyDate"; "FileModifyDate"]))
        else Raise TypeError)
  /\ (forall text_data : gmap string string,
        exif_data = JString <$> text_data -> readable (Some exif_data) = true)
  /\ (forall field,
        (length (field_dates cy exif_data field) <= 1)%nat
        /\ (exif_data !! field = None -> field_dates cy exif_data field = [])
        /\ (forall value,
              exif_data !! field = Some value -> truthy value = false ->
              field_dates cy exif_data field = [])
        /\ (forall c,
              In c (field_dates cy exif_data field) ->
              snd c = "EXIF:" +:+ field
              /\ is_valid_date cy (fst c) = true
              /\ exists value,
                  exif_data !! field = Some (JString value)
                  /\ strptime value "%Y:%m:%d %H:%M:%S" = Ok (fst c))).
Proof.
  split; [reflexivity|]. split.
  { destruct (readable (Some exif_data)) eqn:R;
      [now apply extract_exif_dates_fields | now apply extract_exif_dates_raises]. }
  split; [intros text_data ->; apply (texts_readable (Some text_data))|].
  intros field. split; [|split; [|split]].
  - unfold field_dates. destruct (exif_data !! field) as [[| | | |value| |]|];
      try (simpl; lia).
    destruct (String.eqb value ""); [simpl; lia|].
    destruct (strptime value _) as [dt|]; [|simpl; lia].
    simpl. destruct (is_valid_date cy dt); simpl; lia.
  - intros H. unfold field_dates. now rewrite H.
  - intros value H T. unfold field_dates. rewrite H.
    destruct value; try reflexivity. cbn [truthy] in T.
    apply negb_false_iff in T. now rewrite T.
  - apply field_dates_tag.
Qed.

End EndToEnd.

(** ** Written dates are read back *)

Module WriteBack.
Import Regex RegexFacts Scan ScanFacts Json DateExtractor Cli Safety Groups Years Shapes.
Import Resolver EndToEnd.
Import Strptime.

Definition z_range (lo : Z) (n : nat) : list Z :=
  map (fun k => lo + Z.of_nat k) (seq 0 n).

Lemma z_range_cases (P : Z -> Prop) lo n :
  List.Forall P (z_range lo n) -> forall x, lo <= x < lo + Z.of_nat n -> P x.
Proof.
  intros H x Hx. rewrite List.Forall_forall in H. apply H.
  unfold z_range. apply in_map_iff. exists (Z.to_nat (x - lo)).
  split; [lia | apply in_seq; lia].
Qed.

Ltac each_value k lo n :=
  pattern k; apply (z_range_cases _ lo n); [|lia];
  unfold z_range; cbn [seq map]; repeat (constructor; [vm_compute; try reflexivity|]);
  try constructor.

Lemma digit_char_value k : 0 <= k <= 9 -> PyInt.digit_value (digit_char k) = k.
Proof. intros Hk. each_value k 0 10%nat. Qed.

Lemma digit_char_digit k : 0 <= k <= 9 -> digit (digit_char k) = true.
Proof. intros Hk. each_value k 0 10%nat. Qed.

Lemma pad2_digits n : 0 <= n <= 99 -> forallb digit (pad2 n) = true.
Proof.
  intros H. unfold pad2. cbn [forallb].
  rewrite !digit_char_digit; [reflexivity| |];
    Z.div_mod_to_equations; lia.
Qed.

Lemma pad2_value n : 0 <= n <= 99 -> value (pad2 n) = n.
Proof.
  intros H. unfold value, pad2. cbn [PyInt.digits_value].
  rewrite !digit_char_value by (Z.div_mod_to_equations; lia).
  Z.div_mod_to_equations; lia.
Qed.

Lemma pad4_digits n : 0 <= n <= 9999 -> forallb digit (pad4 n) = true.
Proof.
  intros H. unfold pad4. cbn [forallb].
  rewrite !digit_char_digit; [reflexivity| | | |];
    Z.div_mod_to_equations; lia.
Qed.

Lemma pad4_value n : 0 <= n <= 9999 -> value (pad4 n) = n.
Proof.
  intros H. unfold value, pad4. cbn [PyInt.digits_value].
  rewrite !digit_char_value by (Z.div_mod_to_equations; lia).
  Z.div_mod_to_equations; lia.
Qed.

(** A year of four digits needs no padding. *)
Lemma year_digits_pad4 n : 1000 <= n -> year_digits n = pad4 n.
Proof.
  intros H. unfold year_digits.
  destruct (Z.ltb_spec n 10); [lia|]. destruct (Z.ltb_spec n 100); [lia|].
  destruct (Z.ltb_spec n 1000); [lia | reflexivity].
Qed.

Definition colon : regex := Chr (lit_ci ":").
Definition blanks : regex := Rep space 1 None.

Ltac each_value' k lo n :=
  pattern k; apply (z_range_cases _ lo n); [|lia];
  unfold z_range; cbn [seq map];
  repeat (constructor; [intros; vm_compute; reflexivity|]); constructor.

Lemma run_year_colon y t cs :
  forallb digit y = true -> length y = 4%nat ->
  run (Seq (Grp re_Y) colon) (mk_mstate 0 (y ++ ":"%char :: t) cs)
  = [mk_mstate 5 t (cs ++ [y])].
Proof.
  intros Hd Hl.
  destruct y as [|y0 [|y1 [|y2 [|y3 [|y4 y]]]]]; simpl in Hl; try lia.
  simpl in Hd. repeat (apply andb_true_iff in Hd as [? Hd]).
  unfold re_Y. cbn [run seq_of app].
  rewrite run_chr_digit by assumption. cbn [flat_map app].
  rewrite run_chr_digit by assumption. cbn [flat_map app].
  rewrite run_chr_digit by assumption. cbn [flat_map app].
  rewrite run_chr_digit by assumption. cbn [flat_map app map].
  reflexivity.
Qed.

Lemma run_month_colon n :
  1 <= n <= 12 ->
  forall t cs,
    run (Seq (Grp re_m) colon) (mk_mstate 5 (pad2 n ++ ":"%char :: t) cs)
    = [mk_mstate 8 t (cs ++ [pad2 n])].
Proof. intros H. each_value' n 1 12%nat. Qed.

Lemma run_day_blank n :
  1 <= n <= 31 ->
  forall a t cs,
    digit a = true ->
    run (Seq (Grp re_d) blanks) (mk_mstate 8 (pad2 n ++ " "%char :: a :: t) cs)
    = [mk_mstate 11 (a :: t) (cs ++ [pad2 n])].
Proof.
  intros H. pattern n. apply (z_range_cases _ 1 31%nat); [|lia].
  unfold z_range; cbn [seq map].
  repeat (constructor;
          [intros a t cs Ha; each_digit a Ha; vm_compute; reflexivity|]).
  constructor.
Qed.

Lemma run_hour_colon n :
  0 <= n <= 23 ->
  forall t cs,
    run (Seq (Grp re_H) colon) (mk_mstate 11 (pad2 n ++ ":"%char :: t) cs)
    = [mk_mstate 14 t (cs ++ [pad2 n])].
Proof. intros H. each_value' n 0 24%nat. Qed.

Lemma run_minute_colon n :
  0 <= n <= 59 ->
  forall t cs,
    run (Seq (Grp re_M) colon) (mk_mstate 14 (pad2 n ++ ":"%char :: t) cs)
    = [mk_mstate 17 t (cs ++ [pad2 n])].
Proof. intros H. each_value' n 0 60%nat. Qed.

Lemma run_second_end n :
  0 <= n <= 59 ->
  forall cs,
    head (run (Grp re_S) (mk_mstate 17 (pad2 n) cs))
    = Some (mk_mstate 19 [] (cs ++ [pad2 n])).
Proof. intros H. each_value' n 0 60%nat. Qed.

(** A [datetime] as the constructor makes them: every field in range. *)
Definition well_formed (dt : datetime) : Prop :=
  datetime_new (year dt) (month dt) (day dt) (hour dt) (minute dt) (second dt) = Ok dt.

Lemma well_formed_ranges dt :
  well_formed dt ->
  1 <= year dt <= 9999 /\ 1 <= month dt <= 12 /\ 1 <= day dt <= 31
  /\ 0 <= hour dt <= 23 /\ 0 <= minute dt <= 59 /\ 0 <= second dt <= 59.
Proof.
  unfold well_formed, datetime_new, in_range.
  destruct (_ && _) eqn:E; [|discriminate]. intros _.
  repeat (apply andb_true_iff in E as [E ?]).
  pose proof (days_in_month_le (year dt) (month dt)).
  repeat match goal with
         | H : (_ <=? _) = true |- _ => apply Z.leb_le in H
         end. lia.
Qed.

Lemma datetime_new_ok y m d H M S dt :
  datetime_new y m d H M S = Ok dt -> dt = mk_datetime y m d H M S /\ well_formed dt.
Proof.
  unfold well_formed. intros E. pose proof E as E'. unfold datetime_new in E'.
  destruct (_ && _); [|discriminate]. injection E' as <-. split; [reflexivity | exact E].
Qed.

Lemma run_day_blank_hour n h t cs :
  1 <= n <= 31 -> 0 <= h <= 23 ->
  run (Seq (Grp re_d) blanks) (mk_mstate 8 (pad2 n ++ " "%char :: pad2 h ++ t) cs)
  = [mk_mstate 11 (pad2 h ++ t) (cs ++ [pad2 n])].
Proof.
  intros Hn Hh. unfold pad2 at 2 4. cbn [app].
  apply run_day_blank; [exact Hn|].
  apply digit_char_digit. Z.div_mod_to_equations; lia.
Qed.

Lemma pad2_nonempty n : pad2 n <> [].
Proof. discriminate. Qed.

Lemma pad4_nonempty n : pad4 n <> [].
Proof. discriminate. Qed.

(** What [strftime] writes, [strptime] reads back. *)
Lemma exif_date_str_round_trip dt :
  well_formed dt -> 1000 <= year dt ->
  strptime (exif_date_str dt) "%Y:%m:%d %H:%M:%S" = Ok dt.
Proof.
  intros Hwf Hy. pose proof (well_formed_ranges dt Hwf) as (Ry & Rm & Rd & RH & RM & RS).
  unfold strptime.
  change (compile (parse_format false (Text.chars "%Y:%m:%d %H:%M:%S")))
    with (Some [Grp re_Y; colon; Grp re_m; colon; Grp re_d; blanks;
                Grp re_H; colon; Grp re_M; colon; Grp re_S]).
  change (directives (parse_format false (Text.chars "%Y:%m:%d %H:%M:%S")))
    with ["Y"; "m"; "d"; "H"; "M"; "S"]%char.
  cbv iota beta. unfold exif_date_str. rewrite chars_text, (year_digits_pad4 _ Hy).
  rewrite run_all_pair, run_year_colon;
    [|apply pad4_digits; lia|reflexivity].
  cbn [flat_map]. rewrite app_nil_r.
  rewrite run_all_pair, run_month_colon by lia.
  cbn [flat_map]. rewrite app_nil_r.
  rewrite run_all_pair, run_day_blank_hour by lia.
  cbn [flat_map]. rewrite app_nil_r.
  rewrite run_all_pair, run_hour_colon by lia.
  cbn [flat_map]. rewrite app_nil_r.
  rewrite run_all_pair, run_minute_colon by lia.
  cbn [flat_map]. rewrite app_nil_r.
  rewrite run_all_last.
  pose proof (run_second_end (second dt) RS
                ([] ++ [pad4 (year dt)] ++ [pad2 (month dt)] ++ [pad2 (day dt)]
                    ++ [pad2 (hour dt)] ++ [pad2 (minute dt)])) as Hs.
  cbn [app] in Hs |- *.
  destruct (run (Grp re_S) _) as [|st more]; [discriminate Hs|].
  injection Hs as ->. cbn [rest caps convert_all].
  unfold convert. cbn [Ascii.eqb Bool.eqb].
  rewrite !int_chars_digits;
    try apply pad2_nonempty; try apply pad4_nonempty;
    try (apply pad2_digits; lia); try (apply pad4_digits; lia).
  cbn [rbind default_year f_year f_month f_day f_hour f_minute f_second].
  rewrite pad4_value, !pad2_value by lia. exact Hwf.
Qed.

Lemma strptime_empty : strptime "" "%Y:%m:%d %H:%M:%S" = Raise ValueError.
Proof. vm_compute. reflexivity. Qed.

Lemma field_dates_parsed cy (exif_data : gmap string json) field value dt :
  exif_data !! field = Some (JString value) ->
  strptime value "%Y:%m:%d %H:%M:%S" = Ok dt ->
  is_valid_date cy dt = true ->
  field_dates cy exif_data field = [(dt, "EXIF:" +:+ field)].
Proof.
  intros Hv Hs Hd. unfold field_dates. rewrite Hv.
  destruct (String.eqb_spec value "") as [->|_].
  - rewrite strptime_empty in Hs. discriminate.
  - rewrite Hs. simpl. now rewrite Hd.
Qed.

(** A [DateTimeOriginal] that is a full timestamp and passes the sanity
    filter is the winner, whatever the other fields, the file name and
    the path say. *)
Lemma original_date_best cy (exif_data : gmap string json) file_path value dt :
  readable (Some exif_data) = true ->
  exif_data !! "DateTimeOriginal" = Some (JString value) ->
  strptime value "%Y:%m:%d %H:%M:%S" = Ok dt ->
  is_valid_date cy dt = true ->
  exists rep,
    get_best_date init cy (Some exif_data) file_path
    = Ok (mk_resolution (Some (dt, "EXIF:DateTimeOriginal")) rep).
Proof.
  intros R Hv Hs Hd.
  pose proof (extract_exif_dates_fields cy exif_data R) as He.
  cbn [exif_date_fields init map concat] in He.
  rewrite (field_dates_parsed cy exif_data _ value dt Hv Hs Hd) in He.
  cbn [app] in He.
  change ("EXIF:" +:+ "DateTimeOriginal") with "EXIF:DateTimeOriginal" in He.
  set (c := (dt, "EXIF:DateTimeOriginal")) in *.
  match type of He with _ = Ok (c :: ?l) => set (e' := l) in * end.
  destruct (filename_scores cy file_path) as (f & Hf & Ff).
  destruct (path_scores cy file_path) as (p & Hp & Fp).
  rewrite List.Forall_forall in Ff, Fp.
  rewrite (get_best_date_unfold _ _ _ _ f p He Hf Hp).
  destruct (resolve_best c (e' ++ f ++ p)) as (b & rep & Hr & Hb & Hc & _ & Hmax).
  exists rep. enough (b = c) as <- by exact Hr.
  destruct (Hmax c Hc) as [->|Hlt]; [reflexivity | exfalso].
  assert (Hb100 : 100 <= score b).
  { apply strictly_before_score in Hlt. change (score c) with 100 in Hlt. lia. }
  destruct Hb as [<-|Hb].
  { destruct Hlt as [H|[_ H]]; [lia | now rewrite dt_ltb_irrefl in H]. }
  apply in_app_or in Hb as [Hb|Hb].
  - (* another metadata field: its tag scores less than 100 *)
    subst e'.
    repeat (apply in_app_or in Hb as [Hb|Hb];
            [apply field_dates_tag in Hb as (Htag & _);
             unfold score in Hb100; rewrite Htag in Hb100;
             vm_compute in Hb100; now apply Hb100|]).
    destruct Hb.
  - apply in_app_or in Hb as [Hb|Hb]; [apply Ff in Hb | apply Fp in Hb];
      destruct Hb as [_ Hb]; lia.
Qed.

Lemma sane_year cy dt : is_valid_date cy dt = true -> 1970 <= year dt.
Proof.
  unfold is_valid_date. destruct (year dt <? 1970) eqn:E; [discriminate|].
  intros _. now apply Z.ltb_ge in E.
Qed.

Lemma resolve_some l c rep :
  resolve l = Ok (mk_resolution (Some c) rep) -> In c l.
Proof.
  destruct l as [|x l]; [discriminate|].
  destruct (resolve_best x l) as (b & rep' & Hr & Hb & _).
  rewrite Hr. now intros [= <- _].
Qed.

(** The winner carries the tag of [DateTimeOriginal] exactly when that
    field is present, holds a full timestamp and passes the sanity
    filter, in metadata that is readable, as all metadata is whose
    values are texts; the winner is then the instant of the field,
    whatever the other fields, the file name and the path say. *)
Theorem original_date_wins (cy : Z) (exif_data : gmap string json)
  (file_path : string) (dt : datetime) :
  ((exists rep,
       get_best_date init cy (Some exif_data) file_path
       = Ok (mk_resolution (Some (dt, "EXIF:DateTimeOriginal")) rep))
   <-> (readable (Some exif_data) = true
        /\ exists value,
            exif_data !! "DateTimeOriginal" = Some (JString value)
            /\ strptime value "%Y:%m:%d %H:%M:%S" = Ok dt
            /\ is_valid_date cy dt = true))
  /\ (forall text_data : gmap string string,
        exif_data = JString <$> text_data -> readable (Some exif_data) = true).
Proof.
  split; [|intros text_data ->; apply (texts_readable (Some text_data))].
  split.
  - intros (rep & Hg).
    destruct (readable (Some exif_data)) eqn:R;
      [|rewrite (get_best_date_raises cy _ file_path R) in Hg; discriminate Hg].
    split; [reflexivity|].
    pose proof (extract_exif_dates_fields cy exif_data R) as He.
    destruct (filename_scores cy file_path) as (f & Hf & Ff).
    destruct (path_scores cy file_path) as (p & Hp & Fp).
    rewrite List.Forall_forall in Ff, Fp.
    rewrite (get_best_date_unfold _ _ _ _ f p He Hf Hp) in Hg.
    apply resolve_some in Hg.
    apply in_app_or in Hg as [Hg|Hg].
    + apply in_concat in Hg as (out & Hout & Hg).
      apply in_map_iff in Hout as (field & <- & Hfield).
      apply field_dates_tag in Hg as (Htag & Hv & value & Hl & Hs).
      simpl in Htag, Hv, Hs.
      simpl in Hfield.
      repeat (destruct Hfield as [<-|Hfield]; [first [discriminate Htag | eauto]|]).
      destruct Hfield.
    + exfalso. apply in_app_or in Hg as [Hg|Hg]; [apply Ff in Hg | apply Fp in Hg];
        destruct Hg as [_ Hg]; change (score (dt, "EXIF:DateTimeOriginal")) with 100 in Hg; lia.
  - intros (R & value & Hv & Hs & Hd). eapply original_date_best; eauto.
Qed.

(** A file whose dates [set_file_dates] has written: when exiftool
    reports the three tags as they were written, the metadata scanner
    reads the written instant back from each of them, and
    [get_best_date] returns it, from [DateTimeOriginal].  This in
    metadata that is readable, as all metadata is whose values are
    texts; in the rest both raise. *)
Theorem written_date_is_read_back (cy : Z) (dt : datetime)
  (exif_data : gmap string json) (file_path : string) :
  well_formed dt ->
  is_valid_date cy dt = true ->
  (forall tag value,
      In (tag, value) (written_tags dt) -> exif_data !! tag = Some (JString value)) ->
  (if readable (Some exif_data)
   then
     (exists others,
         extract_exif_dates init cy (Some exif_data)
         = Ok ((dt, "EXIF:DateTimeOriginal") :: (dt, "EXIF:CreateDate")
                 :: (dt, "EXIF:DateTime") :: others))
     /\ exists rep,
         get_best_date init cy (Some exif_data) file_path
         = Ok (mk_resolution (Some (dt, "EXIF:DateTimeOriginal")) rep)
   else
     extract_exif_dates init cy (Some exif_data) = Raise TypeError
     /\ get_best_date init cy (Some exif_data) file_path = Raise TypeError)
  /\ (forall text_data : gmap string string,
        exif_data = JString <$> text_data -> readable (Some exif_data) = true).
Proof.
  intros Hwf Hd Hw.
  split; [|intros text_data ->; apply (texts_readable (Some text_data))].
  destruct (readable (Some exif_data)) eqn:R;
    [|split; [now apply extract_exif_dates_raises | now apply get_best_date_raises]].
  assert (Hs : strptime (exif_date_str dt) "%Y:%m:%d %H:%M:%S" = Ok dt).
  { apply exif_date_str_round_trip; [exact Hwf|]. apply sane_year in Hd. lia. }
  assert (H1 : exif_data !! "DateTimeOriginal" = Some (JString (exif_date_str dt)))
    by (apply Hw; simpl; tauto).
  assert (H2 : exif_data !! "CreateDate" = Some (JString (exif_date_str dt)))
    by (apply Hw; simpl; tauto).
  assert (H3 : exif_data !! "DateTime" = Some (JString (exif_date_str dt)))
    by (apply Hw; simpl; tauto).
  split.
  - rewrite (extract_exif_dates_fields _ _ R). cbn [exif_date_fields init map concat].
    rewrite (field_dates_parsed cy exif_data _ _ dt H1 Hs Hd).
    rewrite (field_dates_parsed cy exif_data _ _ dt H2 Hs Hd).
    rewrite (field_dates_parsed cy exif_data _ _ dt H3 Hs Hd).
    eexists. reflexivity.
  - eapply original_date_best; eauto.
Qed.

Definition fixed_date : datetime := mk_datetime 2019 5 2 10 30 0.

Definition fixed_exif : gmap string json :=
  <["DateTimeOriginal" := JString "2019:05:02 10:30:00"]>
    (<["CreateDate" := JString "2019:05:02 10:30:00"]>
       (<["DateTime" := JString "2019:05:02 10:30:00"]>
          (<["ISO" := JInt 100]> ∅))).

Lemma written_date_is_read_back_witness :
  (exists others,
      extract_exif_dates init 2026 (Some fixed_exif)
      = Ok ((fixed_date, "EXIF:DateTimeOriginal") :: (fixed_date, "EXIF:CreateDate")
              :: (fixed_date, "EXIF:DateTime") :: others))
  /\ exists rep,
      get_best_date init 2026 (Some fixed_exif) "/photos/2001/IMG_0001.jpg"
      = Ok (mk_resolution (Some (fixed_date, "EXIF:DateTimeOriginal")) rep).
Proof.
  assert (H : forall tag value,
             In (tag, value) (written_tags fixed_date) ->
             fixed_exif !! tag = Some (JString value)).
  { intros tag value H. simpl in H.
    destruct H as [[= <- <-]|[[= <- <-]|[[= <- <-]|[]]]]; reflexivity. }
  exact (proj1 (written_date_is_read_back 2026 fixed_date fixed_exif
                  "/photos/2001/IMG_0001.jpg" eq_refl eq_refl H)).
Defined.

End WriteBack.

(** ** Manual dates, and what [process_file] writes *)

Module Manual.
Import Regex RegexFacts Scan ScanFacts Json DateExtractor Cli Safety Groups Years Shapes.
Import Resolver EndToEnd WriteBack.
Import Strptime.

(** ** Bounds on the length of a match *)

Fixpoint max_len (r : regex) : option nat :=
  match r with
  | Chr _ => Some 1%nat
  | Rep _ _ hi => hi
  | Grp r1 => max_len r1
  | Seq r1 r2 =>
      match max_len r1, max_len r2 with
      | Some a, Some b => Some (a + b)%nat
      | _, _ => None
      end
  | Alt r1 r2 =>
      match max_len r1, max_len r2 with
      | Some a, Some b => Some (Nat.max a b)
      | _, _ => None
      end
  | Bol | Eol => Some 0%nat
  end.

Fixpoint min_len (r : regex) : nat :=
  match r with
  | Chr _ => 1%nat
  | Rep _ lo _ => lo
  | Grp r1 => min_len r1
  | Seq r1 r2 => (min_len r1 + min_len r2)%nat
  | Alt r1 r2 => Nat.min (min_len r1) (min_len r2)
  | Bol | Eol => 0%nat
  end.

Lemma lang_max_len r n w : max_len r = Some n -> lang r w -> (length w <= n)%nat.
Proof.
  revert n w; induction r as [p|p lo hi|r IH|r1 IH1 r2 IH2|r1 IH1 r2 IH2| |];
    intros n w; simpl.
  - intros [= <-] (a & -> & _). simpl. lia.
  - intros -> (_ & _ & H). exact H.
  - apply IH.
  - destruct (max_len r1) as [a|]; [|discriminate].
    destruct (max_len r2) as [b|]; [|discriminate].
    intros [= <-] (w1 & w2 & -> & H1 & H2).
    rewrite length_app. pose proof (IH1 a w1 eq_refl H1). pose proof (IH2 b w2 eq_refl H2). lia.
  - destruct (max_len r1) as [a|]; [|discriminate].
    destruct (max_len r2) as [b|]; [|discriminate].
    intros [= <-] [H|H]; [pose proof (IH1 a w eq_refl H) | pose proof (IH2 b w eq_refl H)]; lia.
  - intros [= <-] ->. simpl. lia.
  - intros [= <-] ->. simpl. lia.
Qed.

Lemma lang_min_len r w : lang r w -> (min_len r <= length w)%nat.
Proof.
  revert w; induction r as [p|p lo hi|r IH|r1 IH1 r2 IH2|r1 IH1 r2 IH2| |];
    intros w; simpl.
  - intros (a & -> & _). simpl. lia.
  - intros (_ & H & _). exact H.
  - apply IH.
  - intros (w1 & w2 & -> & H1 & H2). rewrite length_app.
    pose proof (IH1 w1 H1). pose proof (IH2 w2 H2). lia.
  - intros [H|H]; [pose proof (IH1 w H) | pose proof (IH2 w H)]; lia.
  - intros ->. simpl. lia.
  - intros ->. simpl. lia.
Qed.

Fixpoint max_total (rs : list regex) : option nat :=
  match rs with
  | [] => Some 0%nat
  | r :: rs' =>
      match max_len r, max_total rs' with
      | Some a, Some b => Some (a + b)%nat
      | _, _ => None
      end
  end.

Fixpoint min_total (rs : list regex) : nat :=
  match rs with
  | [] => 0%nat
  | r :: rs' => (min_len r + min_total rs')%nat
  end.

Lemma words_max_total rs ws n :
  List.Forall2 lang rs ws -> max_total rs = Some n -> (length (concat ws) <= n)%nat.
Proof.
  intros F; revert n; induction F as [|r w rs ws L F IH]; intros n; simpl.
  - intros [= <-]. lia.
  - destruct (max_len r) as [a|] eqn:E; [|discriminate].
    destruct (max_total rs) as [b|]; [|discriminate].
    intros [= <-]. rewrite length_app.
    pose proof (lang_max_len r a w E L). pose proof (IH b eq_refl). lia.
Qed.

Lemma words_min_total rs ws :
  List.Forall2 lang rs ws -> (min_total rs <= length (concat ws))%nat.
Proof.
  induction 1 as [|r w rs ws L F IH]; simpl; [lia|].
  rewrite length_app. pose proof (lang_min_len r w L). lia.
Qed.

(** A text longer than the format can take is rejected, and so is one
    shorter than the format needs. *)
Lemma strptime_too_long data format rs n :
  compile (parse_format false (Text.chars format)) = Some rs ->
  max_total rs = Some n -> (n < length (Text.chars data))%nat ->
  strptime data format = Raise ValueError.
Proof.
  intros Hc Hm Hl. apply (strptime_rejects _ _ rs Hc). intros ws F E.
  pose proof (words_max_total rs ws n F Hm). rewrite E in *. lia.
Qed.

Lemma strptime_too_short data format rs :
  compile (parse_format false (Text.chars format)) = Some rs ->
  (length (Text.chars data) < min_total rs)%nat ->
  strptime data format = Raise ValueError.
Proof.
  intros Hc Hl. apply (strptime_rejects _ _ rs Hc). intros ws F E.
  pose proof (words_min_total rs ws F). rewrite E in *. lia.
Qed.

Lemma lang_re_Y w : lang re_Y w -> forallb digit w = true /\ length w = 4%nat.
Proof.
  unfold re_Y, dig. simpl.
  intros (w1 & w2 & -> & (a & -> & Ha) & w3 & w4 & -> & (b & -> & Hb)
          & w5 & w6 & -> & (c & -> & Hc) & d & -> & Hd).
  simpl. now rewrite Ha, Hb, Hc, Hd.
Qed.

(** A format that starts with [%Y] rejects a text that does not start
    with four digits. *)
Lemma strptime_year_first_rejects data format rs :
  compile (parse_format false (Text.chars format)) = Some (Grp re_Y :: rs) ->
  forallb digit (firstn 4 (Text.chars data)) = false ->
  strptime data format = Raise ValueError.
Proof.
  intros Hc Hd. apply (strptime_rejects _ _ _ Hc). intros ws F E.
  inversion F as [|r1 w1 rs1 ws1 L1 F1]; subst.
  apply lang_re_Y in L1 as [H1 H2].
  rewrite <- E in Hd. simpl in Hd.
  rewrite firstn_app, H2, Nat.sub_diag, firstn_O, app_nil_r in Hd.
  rewrite firstn_all2 in Hd by lia. congruence.
Qed.

(** A format that starts with [%Y] and a literal rejects a text whose
    fifth character is not that literal. *)
Lemma strptime_year_lit_rejects data format c rs y x t :
  compile (parse_format false (Text.chars format))
  = Some (Grp re_Y :: Chr (lit_ci c) :: rs) ->
  Text.chars data = y ++ x :: t -> length y = 4%nat -> lit_ci c x = false ->
  strptime data format = Raise ValueError.
Proof.
  intros Hc Hd Hl Hx. apply (strptime_rejects _ _ _ Hc). intros ws F E.
  inversion F as [|r1 w1 rs1 ws1 L1 F1]; subst.
  inversion F1 as [|r2 w2 rs2 ws2 L2 F2]; subst.
  apply lang_re_Y in L1 as [_ H1]. destruct L2 as (a & -> & Ha).
  simpl in E. rewrite Hd in E.
  apply app_inj_1 in E as [_ E]; [|lia]. congruence.
Qed.

Lemma exif_date_str_chars dt :
  1000 <= year dt ->
  Text.chars (exif_date_str dt)
  = pad4 (year dt) ++ ":"%char :: pad2 (month dt) ++ ":"%char :: pad2 (day dt)
      ++ " "%char :: pad2 (hour dt) ++ ":"%char :: pad2 (minute dt)
      ++ ":"%char :: pad2 (second dt).
Proof.
  intros Hy. unfold exif_date_str. now rewrite chars_text, (year_digits_pad4 _ Hy).
Qed.

Lemma exif_date_str_given dt : given (Some (exif_date_str dt)) = true.
Proof.
  unfold given, exif_date_str, year_digits.
  destruct (year dt <? 10); [reflexivity|].
  destruct (year dt <? 100); [reflexivity|].
  destruct (year dt <? 1000); reflexivity.
Qed.

(** The timestamp format is the last of the seven, and the six before
    it reject a timestamp. *)
Lemma parse_manual_timestamp dt :
  well_formed dt -> 1000 <= year dt ->
  parse_manual (exif_date_str dt) date_formats = Ok (Some dt).
Proof.
  intros Hwf Hy. unfold date_formats. cbn [parse_manual].
  assert (Hlen : length (Text.chars (exif_date_str dt)) = 19%nat)
    by (now rewrite exif_date_str_chars).
  pose proof (exif_date_str_chars dt Hy) as Hc.
  rewrite (strptime_too_long _ "%Y-%m-%d" _ 10 eq_refl eq_refl) by (rewrite Hlen; lia).
  rewrite (strptime_too_long _ "%Y:%m:%d" _ 10 eq_refl eq_refl) by (rewrite Hlen; lia).
  rewrite (strptime_too_long _ "%d-%m-%Y" _ 10 eq_refl eq_refl) by (rewrite Hlen; lia).
  rewrite (strptime_too_long _ "%m-%d-%Y" _ 10 eq_refl eq_refl) by (rewrite Hlen; lia).
  rewrite (strptime_too_long _ "%Y%m%d" _ 8 eq_refl eq_refl) by (rewrite Hlen; lia).
  rewrite (strptime_year_lit_rejects _ "%Y-%m-%d %H:%M:%S" "-" _ (pad4 (year dt)) ":"%char _
             eq_refl Hc eq_refl eq_refl).
  now rewrite exif_date_str_round_trip.
Qed.

Lemma datetime_new_raises y m d H M S e :
  datetime_new y m d H M S = Raise e -> e = ValueError.
Proof. unfold datetime_new. destruct (_ && _); congruence. Qed.

(** The text [a-b-y] of a day, a month and a year. *)
Definition dashed (a b y : list ascii) : string :=
  Text.text a +:+ "-" +:+ Text.text b +:+ "-" +:+ Text.text y.

Lemma dashed_chars a b y :
  Text.chars (dashed a b y) = a ++ "-"%char :: b ++ "-"%char :: y.
Proof.
  unfold dashed. rewrite !chars_append, !chars_text. reflexivity.
Qed.

Lemma dashed_no_year a b y :
  short_digits a -> forallb digit (firstn 4 (Text.chars (dashed a b y))) = false.
Proof.
  intros [_ Hl]. rewrite dashed_chars.
  destruct a as [|a0 [|a1 [|a2 a]]]; simpl in Hl; try lia; simpl;
    change (digit "-"%char) with false; now rewrite ?andb_false_r.
Qed.

(** The first reading of [a-b-y] that is a calendar date, day first. *)
Definition day_first (a b y : list ascii) : option datetime :=
  match datetime_new (value y) (value b) (value a) 0 0 0 with
  | Ok dt => Some dt
  | Raise _ =>
      match datetime_new (value y) (value a) (value b) 0 0 0 with
      | Ok dt => Some dt
      | Raise _ => None
      end
  end.

Lemma parse_manual_day_first a b y :
  short_digits a -> short_digits b ->
  forallb digit y = true -> length y = 4%nat ->
  parse_manual (dashed a b y) date_formats = Ok (day_first a b y).
Proof.
  intros Ha Hb Hy Hl. unfold date_formats, day_first. cbn [parse_manual].
  pose proof (dashed_no_year a b y Ha) as Hn.
  rewrite (strptime_year_first_rejects _ "%Y-%m-%d" _ eq_refl Hn).
  rewrite (strptime_year_first_rejects _ "%Y:%m:%d" _ eq_refl Hn).
  unfold dashed at 1. rewrite (strptime_dmy a b y Ha Hb Hy Hl).
  destruct (datetime_new (value y) (value b) (value a) 0 0 0) as [dt|e] eqn:E1;
    [reflexivity|].
  apply datetime_new_raises in E1 as ->.
  unfold dashed at 1. rewrite (strptime_mdy a b y Ha Hb Hy Hl).
  destruct (datetime_new (value y) (value a) (value b) 0 0 0) as [dt|e] eqn:E2;
    [reflexivity|].
  apply datetime_new_raises in E2 as ->.
  rewrite (strptime_year_first_rejects _ "%Y%m%d" _ eq_refl Hn).
  rewrite (strptime_year_first_rejects _ "%Y-%m-%d %H:%M:%S" _ eq_refl Hn).
  rewrite (strptime_year_first_rejects _ "%Y:%m:%d %H:%M:%S" _ eq_refl Hn).
  reflexivity.
Qed.

Lemma dashed_given a b y : given (Some (dashed a b y)) = true.
Proof.
  unfold dashed, given. destruct a as [|a0 a]; simpl; reflexivity.
Qed.

(** A platform for the examples: UTC, and every action succeeds. *)
Definition utc : platform :=
  mk_platform (fun _ => 0) (fun _ => true) (fun _ _ => true).

Lemma target_date_manual cy exif file_path text :
  given (Some text) = true ->
  target_date cy exif file_path (Some text)
  = match parse_manual text date_formats with
    | Ok (Some dt) => Ok (Some dt)
    | _ => Ok None
    end.
Proof.
  intros G. unfold target_date. rewrite G.
  change (default "" (Some text)) with text.
  destruct (parse_manual text date_formats) as [[dt|]|e]; reflexivity.
Qed.

Lemma process_file_target os cy exif file_path manual_date target :
  target_date cy exif file_path manual_date = Ok target ->
  process_file os cy true exif file_path manual_date = set_file_dates os file_path target.
Proof.
  intros H. unfold process_file. cbn [negb]. rewrite H. now destruct target.
Qed.

(** A manual date [a-b-y] of one or two digits, one or two digits and
    four digits is read day first: the date [process_file] hands to
    [set_file_dates] is the day-month-year reading when it is a calendar
    date, else the month-day-year reading when that is one, and else
    there is none and nothing is done; the metadata, the file name and
    the path are not consulted. *)
Theorem manual_date_is_read_day_first (os : platform) (cy : Z) (exif : exif_output)
  (file_path : string) (a b y : list ascii) :
  short_digits a -> short_digits b ->
  forallb digit y = true -> length y = 4%nat ->
  target_date cy exif file_path (Some (dashed a b y)) = Ok (day_first a b y)
  /\ process_file os cy true exif file_path (Some (dashed a b y))
     = set_file_dates os file_path (day_first a b y).
Proof.
  intros Ha Hb Hy Hl.
  assert (H : target_date cy exif file_path (Some (dashed a b y)) = Ok (day_first a b y)).
  { rewrite (target_date_manual _ _ _ _ (dashed_given a b y)).
    rewrite (parse_manual_day_first a b y Ha Hb Hy Hl).
    now destruct (day_first a b y). }
  split; [exact H | now apply process_file_target].
Qed.

Lemma manual_date_is_read_day_first_witness :
  process_file utc 2026 true None "/photos/IMG_0001.jpg" (Some "3-4-2023")
  = (Ok true,
     [Exiftool ["exiftool"; "-overwrite_original_in_place";
                "-DateTimeOriginal=2023:04:03 00:00:00";
                "-CreateDate=2023:04:03 00:00:00";
                "-DateTime=2023:04:03 00:00:00"; "/photos/IMG_0001.jpg"];
      Utime "/photos/IMG_0001.jpg" 1680480000])
  /\ process_file utc 2026 true None "/photos/IMG_0001.jpg" (Some "3-14-2023")
     = set_file_dates utc "/photos/IMG_0001.jpg" (Some (mk_datetime 2023 3 14 0 0 0))
  /\ process_file utc 2026 true None "/photos/IMG_0001.jpg" (Some "1-1-0001")
     = (Raise ValueError,
        [Exiftool ["exiftool"; "-overwrite_original_in_place";
                   "-DateTimeOriginal=1:01:01 00:00:00";
                   "-CreateDate=1:01:01 00:00:00";
                   "-DateTime=1:01:01 00:00:00"; "/photos/IMG_0001.jpg"]]).
Proof.
  assert (S1 : short_digits (Text.chars "3")) by (split; simpl; first [reflexivity | lia]).
  assert (S2 : short_digits (Text.chars "4")) by (split; simpl; first [reflexivity | lia]).
  assert (S3 : short_digits (Text.chars "14")) by (split; simpl; first [reflexivity | lia]).
  assert (S4 : short_digits (Text.chars "1")) by (split; simpl; first [reflexivity | lia]).
  split; [|split].
  - exact (proj2 (manual_date_is_read_day_first utc 2026 None "/photos/IMG_0001.jpg"
                    (Text.chars "3") (Text.chars "4") (Text.chars "2023")
                    S1 S2 eq_refl eq_refl)).
  - exact (proj2 (manual_date_is_read_day_first utc 2026 None "/photos/IMG_0001.jpg"
                    (Text.chars "3") (Text.chars "14") (Text.chars "2023")
                    S1 S3 eq_refl eq_refl)).
  - exact (proj2 (manual_date_is_read_day_first utc 2026 None "/photos/IMG_0001.jpg"
                    (Text.chars "1") (Text.chars "1") (Text.chars "0001")
                    S4 S4 eq_refl eq_refl)).
Defined.

(** The first thing [set_file_dates] does with a date is to run
    exiftool with the three tags set to the text of the date. *)
Lemma set_file_dates_command os file_path dt :
  exists r rest,
    set_file_dates os file_path (Some dt)
    = (r, Exiftool ["exiftool"; "-overwrite_original_in_place";
                    "-DateTimeOriginal=" +:+ exif_date_str dt;
                    "-CreateDate=" +:+ exif_date_str dt;
                    "-DateTime=" +:+ exif_date_str dt; file_path] :: rest).
Proof.
  unfold set_file_dates.
  change (exiftool_command file_path dt)
    with ["exiftool"; "-overwrite_original_in_place";
          "-DateTimeOriginal=" +:+ exif_date_str dt;
          "-CreateDate=" +:+ exif_date_str dt;
          "-DateTime=" +:+ exif_date_str dt; file_path].
  destruct (exiftool_writes os _); [|now eexists _, _].
  destruct (Timestamp.timestamp _ _); now eexists _, _.
Qed.

(** A manual date in the timestamp format that [set_file_dates] writes
    is accepted by the last of the seven formats after the six before it
    have rejected it, and [process_file] hands that very instant to
    [set_file_dates], which has exiftool write it. *)
Theorem manual_timestamp_is_kept (os : platform) (cy : Z) (exif : exif_output)
  (file_path : string) (dt : datetime) :
  well_formed dt -> 1000 <= year dt ->
  target_date cy exif file_path (Some (exif_date_str dt)) = Ok (Some dt)
  /\ process_file os cy true exif file_path (Some (exif_date_str dt))
     = set_file_dates os file_path (Some dt)
  /\ exists r rest,
      process_file os cy true exif file_path (Some (exif_date_str dt))
      = (r, Exiftool ["exiftool"; "-overwrite_original_in_place";
                      "-DateTimeOriginal=" +:+ exif_date_str dt;
                      "-CreateDate=" +:+ exif_date_str dt;
                      "-DateTime=" +:+ exif_date_str dt; file_path] :: rest).
Proof.
  intros Hwf Hy.
  assert (H : target_date cy exif file_path (Some (exif_date_str dt)) = Ok (Some dt)).
  { rewrite (target_date_manual _ _ _ _ (exif_date_str_given dt)).
    now rewrite (parse_manual_timestamp dt Hwf Hy). }
  split; [exact H|]. rewrite (process_file_target os _ _ _ _ _ H).
  split; [reflexivity | apply set_file_dates_command].
Qed.

Lemma manual_timestamp_is_kept_witness :
  process_file utc 2026 true None "/photos/IMG_0001.jpg" (Some "2019:05:02 10:30:00")
  = (Ok true,
     [Exiftool ["exiftool"; "-overwrite_original_in_place";
                "-DateTimeOriginal=2019:05:02 10:30:00";
                "-CreateDate=2019:05:02 10:30:00";
                "-DateTime=2019:05:02 10:30:00"; "/photos/IMG_0001.jpg"];
      Utime "/photos/IMG_0001.jpg" 1556793000]).
Proof.
  assert (Hy : 1000 <= year fixed_date) by (simpl; lia).
  exact (proj1 (proj2 (manual_timestamp_is_kept utc 2026 None "/photos/IMG_0001.jpg"
                         fixed_date eq_refl Hy))).
Defined.

(** A date written [YYYY-MM-DD], as the usage text asks for. *)
Definition iso_date (y m d : Z) : string :=
  Text.text (pad4 y ++ "-"%char :: pad2 m ++ "-"%char :: pad2 d).

Lemma iso_date_chars y m d :
  Text.chars (iso_date y m d) = pad4 y ++ "-"%char :: pad2 m ++ "-"%char :: pad2 d.
Proof. apply chars_text. Qed.

Lemma run_year_dash y t cs :
  forallb digit y = true -> length y = 4%nat ->
  run (Seq (Grp re_Y) dash) (mk_mstate 0 (y ++ "-"%char :: t) cs)
  = [mk_mstate 5 t (cs ++ [y])].
Proof.
  intros Hd Hl.
  destruct y as [|y0 [|y1 [|y2 [|y3 [|y4 y]]]]]; simpl in Hl; try lia.
  simpl in Hd. repeat (apply andb_true_iff in Hd as [? Hd]).
  unfold re_Y. cbn [run seq_of app].
  rewrite run_chr_digit by assumption. cbn [flat_map app].
  rewrite run_chr_digit by assumption. cbn [flat_map app].
  rewrite run_chr_digit by assumption. cbn [flat_map app].
  rewrite run_chr_digit by assumption. cbn [flat_map app map].
  reflexivity.
Qed.

Lemma run_month_dash_padded n :
  1 <= n <= 12 ->
  forall t cs,
    run (Seq (Grp re_m) dash) (mk_mstate 5 (pad2 n ++ "-"%char :: t) cs)
    = [mk_mstate 8 t (cs ++ [pad2 n])].
Proof. intros H. each_value' n 1 12%nat. Qed.

Lemma run_day_end n :
  1 <= n <= 31 ->
  forall cs,
    head (run (Grp re_d) (mk_mstate 8 (pad2 n) cs))
    = Some (mk_mstate 10 [] (cs ++ [pad2 n])).
Proof. intros H. each_value' n 1 31%nat. Qed.

Lemma strptime_iso_date y m d :
  0 <= y <= 9999 -> 1 <= m <= 12 -> 1 <= d <= 31 ->
  strptime (iso_date y m d) "%Y-%m-%d" = datetime_new y m d 0 0 0.
Proof.
  intros Hy Hm Hd. unfold strptime.
  change (compile (parse_format false (Text.chars "%Y-%m-%d")))
    with (Some [Grp re_Y; dash; Grp re_m; dash; Grp re_d]).
  change (directives (parse_format false (Text.chars "%Y-%m-%d")))
    with ["Y"; "m"; "d"]%char.
  cbv iota beta. rewrite iso_date_chars.
  rewrite run_all_pair, run_year_dash; [|apply pad4_digits; lia|reflexivity].
  cbn [flat_map]. rewrite app_nil_r.
  rewrite run_all_pair, run_month_dash_padded by lia.
  cbn [flat_map]. rewrite app_nil_r.
  rewrite run_all_last.
  pose proof (run_day_end d Hd ([] ++ [pad4 y] ++ [pad2 m])) as Hs.
  cbn [app] in Hs |- *.
  destruct (run (Grp re_d) _) as [|st more]; [discriminate Hs|].
  injection Hs as ->. cbn [rest caps convert_all].
  unfold convert. cbn [Ascii.eqb Bool.eqb].
  rewrite !int_chars_digits;
    try apply pad2_nonempty; try apply pad4_nonempty;
    try (apply pad2_digits; lia); try (apply pad4_digits; lia).
  cbn [rbind default_year f_year f_month f_day f_hour f_minute f_second].
  now rewrite pad4_value, !pad2_value by lia.
Qed.

(** A format that starts with a day or a month and a dash rejects a
    text whose second and third characters are digits. *)
Lemma strptime_short_first_rejects data format r rs x0 x1 x2 t :
  compile (parse_format false (Text.chars format)) = Some (Grp r :: dash :: rs) ->
  max_len r = Some 2%nat -> min_len r = 1%nat ->
  Text.chars data = x0 :: x1 :: x2 :: t -> digit x1 = true -> digit x2 = true ->
  strptime data format = Raise ValueError.
Proof.
  intros Hc Hmax Hmin Hd H1 H2. apply (strptime_rejects _ _ _ Hc). intros ws F E.
  inversion F as [|r1 w1 rs1 ws1 L1 F1]; subst.
  inversion F1 as [|r2 w2 rs2 ws2 L2 F2]; subst.
  simpl in L1. pose proof (lang_max_len r 2 w1 Hmax L1) as Hu.
  pose proof (lang_min_len r w1 L1) as Hlo. rewrite Hmin in Hlo.
  destruct L2 as (a & -> & Ha). apply lit_ci_dash in Ha. subst a.
  rewrite Hd in E.
  destruct w1 as [|c0 [|c1 [|c2 w1]]]; simpl in Hu, Hlo, E; try lia;
    injection E; intros; subst; discriminate.
Qed.

Lemma pad4_cons n :
  exists x0 x1 x2 x3,
    pad4 n = [x0; x1; x2; x3] /\ (0 <= n <= 9999 -> digit x1 = true /\ digit x2 = true).
Proof.
  do 4 eexists. split; [reflexivity|]. intros H.
  split; apply digit_char_digit; Z.div_mod_to_equations; lia.
Qed.

Lemma parse_manual_iso_date y m d :
  0 <= y <= 9999 -> 1 <= m <= 12 -> 1 <= d <= 31 ->
  parse_manual (iso_date y m d) date_formats
  = Ok match datetime_new y m d 0 0 0 with
       | Ok dt => Some dt
       | Raise _ => None
       end.
Proof.
  intros Hy Hm Hd. unfold date_formats. cbn [parse_manual].
  rewrite (strptime_iso_date y m d Hy Hm Hd).
  destruct (datetime_new y m d 0 0 0) as [dt|e] eqn:E; [reflexivity|].
  apply datetime_new_raises in E as ->.
  pose proof (iso_date_chars y m d) as Hc.
  assert (Hlen : length (Text.chars (iso_date y m d)) = 10%nat) by (now rewrite Hc).
  rewrite (strptime_year_lit_rejects _ "%Y:%m:%d" ":" _ (pad4 y) "-"%char _
             eq_refl Hc eq_refl eq_refl).
  destruct (pad4_cons y) as (x0 & x1 & x2 & x3 & Hp & Hdig).
  destruct (Hdig Hy) as [H1 H2]. pose proof Hc as Hc'. rewrite Hp in Hc. cbn [app] in Hc.
  rewrite (strptime_short_first_rejects _ "%d-%m-%Y" re_d _ _ _ _ _
             eq_refl eq_refl eq_refl Hc H1 H2).
  rewrite (strptime_short_first_rejects _ "%m-%d-%Y" re_m _ _ _ _ _
             eq_refl eq_refl eq_refl Hc H1 H2).
  rewrite (strptime_too_long _ "%Y%m%d" _ 8 eq_refl eq_refl) by (rewrite Hlen; lia).
  rewrite (strptime_too_short _ "%Y-%m-%d %H:%M:%S" _ eq_refl)
    by (rewrite Hlen; simpl; lia).
  rewrite (strptime_year_lit_rejects _ "%Y:%m:%d %H:%M:%S" ":" _ (pad4 y) "-"%char _
             eq_refl Hc' eq_refl eq_refl).
  reflexivity.
Qed.

(** A manual date written [YYYY-MM-DD] is taken at midnight of that day
    when it is a calendar date; when it is not (30 February), none of
    the other six formats reads it differently and nothing is done. *)
Theorem manual_iso_date_is_midnight (os : platform) (cy : Z) (exif : exif_output)
  (file_path : string) (y m d : Z) :
  0 <= y <= 9999 -> 1 <= m <= 12 -> 1 <= d <= 31 ->
  let midnight :=
    match datetime_new y m d 0 0 0 with
    | Ok dt => Some dt
    | Raise _ => None
    end in
  target_date cy exif file_path (Some (iso_date y m d)) = Ok midnight
  /\ process_file os cy true exif file_path (Some (iso_date y m d))
     = set_file_dates os file_path midnight.
Proof.
  intros Hy Hm Hd midnight.
  assert (H : target_date cy exif file_path (Some (iso_date y m d)) = Ok midnight).
  { rewrite (target_date_manual _ _ _ (iso_date y m d) eq_refl).
    rewrite (parse_manual_iso_date y m d Hy Hm Hd). subst midnight.
    now destruct (datetime_new y m d 0 0 0). }
  split; [exact H | now apply process_file_target].
Qed.

Lemma manual_iso_date_is_midnight_witness :
  process_file utc 2026 true None "/photos/IMG_0001.jpg" (Some "2023-02-28")
  = (Ok true,
     [Exiftool ["exiftool"; "-overwrite_original_in_place";
                "-DateTimeOriginal=2023:02:28 00:00:00";
                "-CreateDate=2023:02:28 00:00:00";
                "-DateTime=2023:02:28 00:00:00"; "/photos/IMG_0001.jpg"];
      Utime "/photos/IMG_0001.jpg" 1677542400])
  /\ process_file utc 2026 true None "/photos/IMG_0001.jpg" (Some "2023-02-30")
     = (Ok false, [])
  /\ process_file utc 2026 true None "/photos/IMG_0001.jpg" (Some "0999-01-01")
     = (Ok true,
        [Exiftool ["exiftool"; "-overwrite_original_in_place";
                   "-DateTimeOriginal=999:01:01 00:00:00";
                   "-CreateDate=999:01:01 00:00:00";
                   "-DateTime=999:01:01 00:00:00"; "/photos/IMG_0001.jpg"];
         Utime "/photos/IMG_0001.jpg" (-30641760000)]).
Proof.
  split; [|split].
  - exact (proj2 (manual_iso_date_is_midnight utc 2026 None "/photos/IMG_0001.jpg"
                    2023 2 28 ltac:(lia) ltac:(lia) ltac:(lia))).
  - exact (proj2 (manual_iso_date_is_midnight utc 2026 None "/photos/IMG_0001.jpg"
                    2023 2 30 ltac:(lia) ltac:(lia) ltac:(lia))).
  - exact (proj2 (manual_iso_date_is_midnight utc 2026 None "/photos/IMG_0001.jpg"
                    999 1 1 ltac:(lia) ltac:(lia) ltac:(lia))).
Defined.

(** [dt] is what the first format of [formats] that parses [text]
    gives. *)
Definition first_parse (text : string) (formats : list string) (dt : datetime) : Prop :=
  exists pre fmt post,
    formats = pre ++ fmt :: post
    /\ List.Forall (fun f => strptime text f = Raise ValueError) pre
    /\ strptime text fmt = Ok dt.

Lemma parse_manual_some text formats dt :
  parse_manual text formats = Ok (Some dt) -> first_parse text formats dt.
Proof.
  induction formats as [|fmt formats IH]; simpl; [discriminate|].
  destruct (strptime text fmt) as [d|[]] eqn:E.
  - intros [= ->]. exists [], fmt, formats. repeat split; auto.
  - intros H. destruct (IH H) as (pre & f & post & -> & Hpre & Hf).
    exists (fmt :: pre), f, post. repeat split; auto.
  - discriminate.
  - discriminate.
Qed.

(** The date [get_best_date] would give: one of the candidates of the
    three scanners, returned as the winner. *)
Definition detected (cy : Z) (exif : exif_output) (file_path : string) (dt : datetime)
  : Prop :=
  exists source e f p rep,
    extract_exif_dates init cy exif = Ok e
    /\ extract_filename_dates init cy file_path = Ok f
    /\ extract_path_dates init cy file_path = Ok p
    /\ In (dt, source) (e ++ f ++ p)
    /\ get_best_date init cy exif file_path = Ok (mk_resolution (Some (dt, source)) rep).

(** What [process_file] does.  It does nothing when the file does not
    exist.  It raises before doing anything only when no manual date is
    given and the metadata is unreadable, with [TypeError].  With a
    date settled it does what [set_file_dates] does with that date,
    which is, when a manual date is given, the result of the first of
    the seven formats that parses it, the scanners not being consulted,
    and else the winner of [get_best_date], one of the candidates the
    three scanners found.  [set_file_dates] runs exiftool first, and
    raises only after exiftool has written, when the date has no
    timestamp. *)
Theorem process_file_outcomes (os : platform) (cy : Z) (file_exists : bool)
  (exif : exif_output) (file_path : string) (manual_date : option string) :
  (file_exists = false ->
   process_file os cy file_exists exif file_path manual_date = (Ok false, []))
  /\ (file_exists = true ->
      match target_date cy exif file_path manual_date with
      | Raise e =>
          e = TypeError /\ given manual_date = false /\ readable exif = false
          /\ process_file os cy file_exists exif file_path manual_date
             = (Raise TypeError, [])
      | Ok None =>
          process_file os cy file_exists exif file_path manual_date = (Ok false, [])
      | Ok (Some dt) =>
          process_file os cy file_exists exif file_path manual_date
          = set_file_dates os file_path (Some dt)
          /\ if given manual_date
             then exists text, manual_date = Some text /\ first_parse text date_formats dt
             else readable exif = true /\ detected cy exif file_path dt
      end)
  /\ (forall dt,
        exists r rest,
          set_file_dates os file_path (Some dt)
          = (r, Exiftool (exiftool_command file_path dt) :: rest)
          /\ (forall e, r = Raise e ->
                rest = []
                /\ exiftool_writes os (exiftool_command file_path dt) = true
                /\ Timestamp.timestamp (utc_offset os) dt = Raise e)).
Proof.
  split; [|split].
  - intros ->. reflexivity.
  - intros ->. unfold process_file. cbn [negb].
    unfold target_date. destruct (given manual_date) eqn:G.
    + destruct manual_date as [text|]; [|discriminate G].
      change (default "" (Some text)) with text.
      destruct (parse_manual text date_formats) as [[dt|]|e] eqn:E; try reflexivity.
      split; [reflexivity|].
      exists text. split; [reflexivity | now apply parse_manual_some].
    + destruct (readable exif) eqn:R.
      * destruct (extract_exif_dates_ok cy exif R) as [e He].
        destruct (extract_filename_dates_ok cy file_path) as [f Hf].
        destruct (extract_path_dates_ok cy file_path) as [p Hp].
        pose proof (get_best_date_unfold cy exif file_path e f p He Hf Hp) as Hg.
        destruct (resolve_ok (e ++ f ++ p)) as [[[[dt source]|] rep] Hr];
          rewrite Hr in Hg; rewrite Hg; cbn [rbind best]; [|reflexivity].
        split; [reflexivity|]. split; [reflexivity|].
        exists source, e, f, p, rep. repeat split; auto.
        now apply resolve_some in Hr.
      * rewrite (get_best_date_raises cy exif file_path R). cbn [rbind].
        repeat split; reflexivity.
  - intros dt. unfold set_file_dates.
    destruct (exiftool_writes os _) eqn:W.
    + destruct (Timestamp.timestamp _ _) as [t|e] eqn:T.
      * eexists _, _. split; [reflexivity | discriminate].
      * eexists _, _. split; [reflexivity|]. intros e' [= <-]. now repeat split.
    + eexists _, _. split; [reflexivity | discriminate].
Qed.

(** ** Dates without a timestamp *)

Lemma local_fixed (off : Z -> Z) (c u : Z) :
  (forall v, off v = c) ->
  Timestamp.local off u
  = if (Timestamp.first_second <=? u + c) && (u + c <? Timestamp.end_second)
    then Ok (u + c) else Raise ValueError.
Proof. intros H. unfold Timestamp.local. now rewrite H. Qed.

Lemma utc_to_seconds_year_one dt :
  well_formed dt -> year dt = 1 -> month dt = 1 -> day dt = 1 ->
  86400 <= Timestamp.utc_to_seconds dt < 2 * 86400.
Proof.
  intros Hwf Hy Hm Hd. unfold Timestamp.utc_to_seconds. rewrite Hy, Hm, Hd.
  change (Timestamp.ymd_to_ord 1 1 1) with 1.
  pose proof (well_formed_ranges dt Hwf). lia.
Qed.

Lemma timestamp_year_one (off : Z -> Z) (c : Z) (dt : datetime) :
  (forall v, off v = c) ->
  well_formed dt -> year dt = 1 -> month dt = 1 -> day dt = 1 ->
  Timestamp.timestamp off dt = Raise ValueError.
Proof.
  intros Hoff Hwf Hy Hm Hd.
  pose proof (utc_to_seconds_year_one dt Hwf Hy Hm Hd) as Ht.
  unfold Timestamp.timestamp, Timestamp.local_to_seconds.
  set (t := Timestamp.utc_to_seconds dt) in *.
  rewrite (local_fixed off c t Hoff).
  destruct ((Timestamp.first_second <=? t + c) && (t + c <? Timestamp.end_second));
    [|reflexivity].
  cbn [rbind]. replace (t + c - t) with c by lia.
  rewrite (local_fixed off c (t - c) Hoff).
  replace (t - c + c) with t by lia.
  assert (Hin : (Timestamp.first_second <=? t) && (t <? Timestamp.end_second) = true).
  { apply andb_true_iff. split; [apply Z.leb_le | apply Z.ltb_lt];
      unfold Timestamp.first_second, Timestamp.end_second; lia. }
  rewrite Hin. cbn [rbind]. rewrite Z.eqb_refl.
  rewrite (local_fixed off c (t - c - Timestamp.max_fold_seconds) Hoff).
  assert (Hout : (Timestamp.first_second <=? t - c - Timestamp.max_fold_seconds + c) = false).
  { apply Z.leb_gt. unfold Timestamp.first_second, Timestamp.max_fold_seconds. lia. }
  rewrite Hout. reflexivity.
Qed.

(** In a zone at a fixed offset from UTC, a date on 1 January of year 1
    has no timestamp: [timestamp()] raises [ValueError], which
    [set_file_dates] does not catch.  When exiftool has written the
    date, [set_file_dates] therefore raises after that write and before
    any [os.utime]; the manual date [0001-01-01] is such a date, and
    [process_file] raises with it. *)
Theorem year_one_date_raises (os : platform) (c : Z) (cy : Z) (exif : exif_output)
  (file_path : string) (dt : datetime) :
  (forall u, utc_offset os u = c) ->
  well_formed dt -> year dt = 1 -> month dt = 1 -> day dt = 1 ->
  Timestamp.timestamp (utc_offset os) dt = Raise ValueError
  /\ set_file_dates os file_path (Some dt)
     = (if exiftool_writes os (exiftool_command file_path dt)
        then Raise ValueError else Ok false,
        [Exiftool (exiftool_command file_path dt)])
  /\ process_file os cy true exif file_path (Some "0001-01-01")
     = (if exiftool_writes os (exiftool_command file_path (mk_datetime 1 1 1 0 0 0))
        then Raise ValueError else Ok false,
        [Exiftool ["exiftool"; "-overwrite_original_in_place";
                   "-DateTimeOriginal=1:01:01 00:00:00";
                   "-CreateDate=1:01:01 00:00:00";
                   "-DateTime=1:01:01 00:00:00"; file_path]]).
Proof.
  intros Hoff Hwf Hy Hm Hd.
  assert (T : forall d, well_formed d -> year d = 1 -> month d = 1 -> day d = 1 ->
              set_file_dates os file_path (Some d)
              = (if exiftool_writes os (exiftool_command file_path d)
                 then Raise ValueError else Ok false,
                 [Exiftool (exiftool_command file_path d)])).
  { intros d Hw H1 H2 H3. unfold set_file_dates.
    rewrite (timestamp_year_one _ c d Hoff Hw H1 H2 H3).
    now destruct (exiftool_writes os _). }
  split; [now apply (timestamp_year_one _ c)|].
  split; [now apply T|].
  assert (H : target_date cy exif file_path (Some "0001-01-01")
              = Ok (Some (mk_datetime 1 1 1 0 0 0))) by (vm_compute; reflexivity).
  rewrite (process_file_target os _ _ _ _ _ H).
  now rewrite (T (mk_datetime 1 1 1 0 0 0)).
Qed.

Lemma year_one_date_raises_witness :
  set_file_dates utc "/photos/IMG_0001.jpg" (Some (mk_datetime 1 1 1 12 30 0))
  = (Raise ValueError,
     [Exiftool ["exiftool"; "-overwrite_original_in_place";
                "-DateTimeOriginal=1:01:01 12:30:00";
                "-CreateDate=1:01:01 12:30:00";
                "-DateTime=1:01:01 12:30:00"; "/photos/IMG_0001.jpg"]]).
Proof.
  exact (proj1 (proj2 (year_one_date_raises utc 0 2026 None "/photos/IMG_0001.jpg"
                         (mk_datetime 1 1 1 12 30 0)
                         (fun _ => eq_refl) eq_refl eq_refl eq_refl eq_refl))).
Defined.

End Manual.

(** ** What each date shape is read as *)

Module Readings.
Import Regex RegexFacts Scan ScanFacts DateExtractor Cli Safety Groups Years Shapes.
Import Resolver EndToEnd WriteBack Manual.
Import Strptime.

(** The year a two-digit year stands for under [%y]. *)
Definition century (v : Z) : Z := if v <=? 68 then v + 2000 else v + 1900.

Lemma run_month_dash_mid cs a t :
  forallb digit a = true -> (1 <= length a <= 2)%nat ->
  run (Seq (Grp re_m) dash) (mk_mstate 5 (a ++ "-"%char :: t) cs)
  = if in_range 1 (value a) 12
    then [mk_mstate (5 + length a + 1) t (cs ++ [a])] else [].
Proof.
  intros Hd Hl.
  destruct a as [|a0 [|a1 [|a2 a]]]; simpl in Hl; try lia.
  - simpl in Hd. apply andb_true_iff in Hd as [H0 _].
    each_digit a0 H0; vm_compute; reflexivity.
  - simpl in Hd. apply andb_true_iff in Hd as [H0 Hd].
    apply andb_true_iff in Hd as [H1 _].
    each_digit a0 H0; each_digit a1 H1; vm_compute; reflexivity.
Qed.

(** The day that ends the text: the first way to match takes all of it
    exactly when it is a day of 1 to 31. *)
Definition day_last (p : nat) (a : list ascii) (cs : list (list ascii)) : Prop :=
  match run (Grp re_d) (mk_mstate p a cs) with
  | st :: _ =>
      if in_range 1 (value a) 31
      then st = mk_mstate (p + length a) [] (cs ++ [a])
      else rest st <> []
  | [] => in_range 1 (value a) 31 = false
  end.

Lemma run_day_last p cs a :
  In p [5; 6; 7; 8]%nat -> forallb digit a = true -> (1 <= length a <= 2)%nat ->
  day_last p a cs.
Proof.
  intros Hp Hd Hl. unfold day_last.
  destruct a as [|a0 [|a1 [|a2 a]]]; simpl in Hl; try lia.
  - simpl in Hd. apply andb_true_iff in Hd as [H0 _].
    simpl in Hp. destruct Hp as [<-|[<-|[<-|[<-|[]]]]];
      each_digit a0 H0; vm_compute; first [reflexivity | discriminate].
  - simpl in Hd. apply andb_true_iff in Hd as [H0 Hd].
    apply andb_true_iff in Hd as [H1 _].
    simpl in Hp. destruct Hp as [<-|[<-|[<-|[<-|[]]]]];
      each_digit a0 H0; each_digit a1 H1; vm_compute;
      first [reflexivity | discriminate].
Qed.

Lemma run_year2_dash y t cs :
  forallb digit y = true -> length y = 2%nat ->
  run (Seq (Grp re_y) dash) (mk_mstate 0 (y ++ "-"%char :: t) cs)
  = [mk_mstate 3 t (cs ++ [y])].
Proof.
  intros Hd Hl.
  destruct y as [|y0 [|y1 [|y2 y]]]; simpl in Hl; try lia.
  simpl in Hd. repeat (apply andb_true_iff in Hd as [? Hd]).
  unfold re_y. cbn [run app].
  rewrite run_chr_digit by assumption. cbn [flat_map app].
  rewrite run_chr_digit by assumption. cbn [flat_map app map].
  reflexivity.
Qed.

Lemma run_year2_end p cs y :
  forallb digit y = true -> length y = 2%nat ->
  run (Grp re_y) (mk_mstate p y cs) = [mk_mstate (p + 2) [] (cs ++ [y])].
Proof.
  intros Hd Hl.
  destruct y as [|y0 [|y1 [|y2 y]]]; simpl in Hl; try lia.
  simpl in Hd. repeat (apply andb_true_iff in Hd as [? Hd]).
  unfold re_y. cbn [run].
  rewrite run_chr_digit by assumption. cbn [flat_map app].
  rewrite run_chr_digit by assumption. cbn [flat_map app map].
  unfold close_group. cbn [pos rest caps].
  replace (p + 1 + 1 - p)%nat with 2%nat by lia.
  replace (p + 1 + 1)%nat with (p + 2)%nat by lia. reflexivity.
Qed.

Lemma four_nonempty (y : list ascii) n : length y = S n -> y <> [].
Proof. now destruct y. Qed.

(** What is left of [strptime] once the day that ends the text is
    reached. *)
Lemma strptime_finish p a cs (k : list (list ascii) -> result datetime) :
  day_last p a cs ->
  (in_range 1 (value a) 31 = false -> k (cs ++ [a]) = Raise ValueError) ->
  match run (Grp re_d) (mk_mstate p a cs) with
  | [] => Raise ValueError
  | st :: _ =>
      match rest st with
      | _ :: _ => Raise ValueError
      | [] => k (caps st)
      end
  end = k (cs ++ [a]).
Proof.
  unfold day_last. intros Hd Hk.
  destruct (run (Grp re_d) _) as [|st more].
  - now rewrite Hk.
  - destruct (in_range 1 (value a) 31).
    + subst st. reflexivity.
    + destruct (rest st); [congruence | now rewrite Hk].
Qed.

Lemma strptime_ymd y m d :
  forallb digit y = true -> length y = 4%nat ->
  short_digits m -> short_digits d ->
  strptime (Text.text y +:+ "-" +:+ Text.text m +:+ "-" +:+ Text.text d) "%Y-%m-%d"
  = datetime_new (value y) (value m) (value d) 0 0 0.
Proof.
  intros Hy Hly Hm Hd. unfold strptime.
  change (compile (parse_format false (Text.chars "%Y-%m-%d")))
    with (Some [Grp re_Y; dash; Grp re_m; dash; Grp re_d]).
  change (directives (parse_format false (Text.chars "%Y-%m-%d")))
    with ["Y"; "m"; "d"]%char.
  cbv iota beta.
  rewrite !chars_append, !chars_text. change (Text.chars "-") with ["-"%char].
  simpl app.
  rewrite run_all_pair.
  rewrite run_year_dash by assumption.
  cbn [flat_map app]. rewrite app_nil_r.
  rewrite run_all_pair, run_month_dash_mid; [|apply Hm|apply Hm].
  destruct (in_range 1 (value m) 12) eqn:Em;
    [|simpl; now rewrite datetime_new_bad_month].
  cbn [flat_map]. rewrite app_nil_r. rewrite run_all_last.
  cbn [app].
  rewrite (strptime_finish _ d [y; m]
             (fun cs => let? f := convert_all ["Y"; "m"; "d"]%char cs found0 in
                        datetime_new (default_year f) (f_month f) (f_day f)
                          (f_hour f) (f_minute f) (f_second f))).
  - cbn [app convert_all]. unfold convert. cbn [Ascii.eqb Bool.eqb].
    rewrite !int_chars_digits;
      try assumption; try apply Hm; try apply Hd;
      try (apply short_nonempty; assumption);
      try (eapply four_nonempty; eassumption).
    reflexivity.
  - apply run_day_last; [|apply Hd|apply Hd].
    destruct Hm as [_ Hm]. simpl. lia.
  - intros Hbad. cbn [app convert_all]. unfold convert. cbn [Ascii.eqb Bool.eqb].
    rewrite !int_chars_digits;
      try assumption; try apply Hm; try apply Hd;
      try (apply short_nonempty; assumption);
      try (eapply four_nonempty; eassumption).
    cbn [rbind default_year f_year f_month f_day f_hour f_minute f_second].
    now apply datetime_new_bad_day.
Qed.

Ltac convert_digits Ha Hb :=
  cbn [app convert_all]; unfold convert; cbn [Ascii.eqb Bool.eqb];
  rewrite !int_chars_digits;
  try assumption; try apply Ha; try apply Hb;
  try (apply short_nonempty; assumption);
  try (eapply four_nonempty; eassumption).

Lemma strptime_dmy2 a b y :
  short_digits a -> short_digits b ->
  forallb digit y = true -> length y = 2%nat ->
  strptime (Text.text a +:+ "-" +:+ Text.text b +:+ "-" +:+ Text.text y) "%d-%m-%y"
  = datetime_new (century (value y)) (value b) (value a) 0 0 0.
Proof.
  intros Ha Hb Hy Hly. unfold strptime.
  change (compile (parse_format false (Text.chars "%d-%m-%y")))
    with (Some [Grp re_d; dash; Grp re_m; dash; Grp re_y]).
  change (directives (parse_format false (Text.chars "%d-%m-%y")))
    with ["d"; "m"; "y"]%char.
  cbv iota beta.
  rewrite !chars_append, !chars_text. change (Text.chars "-") with ["-"%char].
  simpl app.
  rewrite run_all_pair, run_day_dash; [|simpl; tauto|apply Ha|apply Ha].
  destruct (in_range 1 (value a) 31) eqn:Ea;
    [|simpl; now rewrite datetime_new_bad_day].
  cbn [flat_map]. rewrite app_nil_r.
  rewrite run_all_pair, run_month_dash;
    [|apply short_pos; [exact Ha | reflexivity]|apply Hb|apply Hb].
  destruct (in_range 1 (value b) 12) eqn:Eb;
    [|simpl; now rewrite datetime_new_bad_month].
  cbn [flat_map]. rewrite app_nil_r.
  rewrite run_all_last, run_year2_end by assumption.
  cbn [rest caps]. convert_digits Ha Hb. reflexivity.
Qed.

Lemma strptime_ymd2 y m d :
  forallb digit y = true -> length y = 2%nat ->
  short_digits m -> short_digits d ->
  strptime (Text.text y +:+ "-" +:+ Text.text m +:+ "-" +:+ Text.text d) "%y-%m-%d"
  = datetime_new (century (value y)) (value m) (value d) 0 0 0.
Proof.
  intros Hy Hly Hm Hd. unfold strptime.
  change (compile (parse_format false (Text.chars "%y-%m-%d")))
    with (Some [Grp re_y; dash; Grp re_m; dash; Grp re_d]).
  change (directives (parse_format false (Text.chars "%y-%m-%d")))
    with ["y"; "m"; "d"]%char.
  cbv iota beta.
  rewrite !chars_append, !chars_text. change (Text.chars "-") with ["-"%char].
  simpl app.
  rewrite run_all_pair, run_year2_dash by assumption.
  cbn [flat_map app]. rewrite app_nil_r.
  rewrite run_all_pair, run_month_dash; [|simpl; tauto|apply Hm|apply Hm].
  destruct (in_range 1 (value m) 12) eqn:Em;
    [|simpl; now rewrite datetime_new_bad_month].
  cbn [flat_map]. rewrite app_nil_r. rewrite run_all_last.
  rewrite (strptime_finish _ d [y; m]
             (fun cs => let? f := convert_all ["y"; "m"; "d"]%char cs found0 in
                        datetime_new (default_year f) (f_month f) (f_day f)
                          (f_hour f) (f_minute f) (f_second f))).
  - convert_digits Hm Hd. reflexivity.
  - apply run_day_last; [|apply Hd|apply Hd].
    destruct Hm as [_ Hm]. simpl. lia.
  - intros Hbad. convert_digits Hm Hd.
    cbn [rbind default_year f_year f_month f_day f_hour f_minute f_second].
    now apply datetime_new_bad_day.
Qed.

Definition plain_formats : list string := ["%Y-%m-%d"; "%d-%m-%y"; "%y-%m-%d"].

Lemma is_in_three x a b c : is_in x [a; b; c] = true -> x = a \/ x = b \/ x = c.
Proof.
  unfold is_in; simpl. rewrite orb_false_r, !orb_true_iff, !String.eqb_eq. tauto.
Qed.

Lemma plain_filename_body cy fmt m a b c y mo d :
  is_in fmt plain_formats = true ->
  m_groups m = [Text.text a; Text.text b; Text.text c] ->
  strptime (Text.text a +:+ "-" +:+ Text.text b +:+ "-" +:+ Text.text c) fmt
  = datetime_new y mo d 0 0 0 ->
  forall ds,
    filename_match cy fmt m ds
    = (Ok tt, ds ++ tagged (datetime_new y mo d 0 0 0) ("filename:" +:+ fmt)).
Proof.
  intros Hf Hg Hs ds.
  apply is_in_three in Hf as [->|[->| ->]];
    unfold filename_match;
    cbn [String.eqb Ascii.eqb Bool.eqb is_in existsb orb andb];
    unfold try_except, bind, lift, date_str; rewrite Hg;
    cbn [length Nat.eqb Py.join_dash rbind];
    match goal with
    | |- context [normal_format ?f] => change (normal_format f) with f
    end;
    rewrite Hs;
    destruct (datetime_new_cases y mo d 0 0 0) as [[dt ->]| ->]; cbn [tagged];
    unfold append, continue, ret; rewrite ?app_nil_r; reflexivity.
Qed.

Lemma plain_path_body cy fmt m a b c y mo d :
  is_in fmt plain_formats = true ->
  m_groups m = [Text.text a; Text.text b; Text.text c] ->
  strptime (Text.text a +:+ "-" +:+ Text.text b +:+ "-" +:+ Text.text c) fmt
  = datetime_new y mo d 0 0 0 ->
  forall ds,
    path_match cy fmt m ds
    = (Ok tt,
       ds ++ tagged_if (is_valid_date cy) (datetime_new y mo d 0 0 0) ("path:" +:+ fmt)).
Proof.
  intros Hf Hg Hs ds.
  apply is_in_three in Hf as [->|[->| ->]];
    unfold path_match;
    cbn [String.eqb Ascii.eqb Bool.eqb is_in existsb orb andb];
    unfold try_except, bind, lift, date_str; rewrite Hg;
    cbn [length Nat.eqb Py.join_dash rbind];
    match goal with
    | |- context [normal_format ?f] => change (normal_format f) with f
    end;
    rewrite Hs;
    destruct (datetime_new_cases y mo d 0 0 0) as [[dt ->]| ->]; cbn [tagged_if];
    try destruct (is_valid_date cy dt); cbn [when];
    unfold append, pass, continue, ret; rewrite ?app_nil_r; reflexivity.
Qed.

Lemma ymd_groups m :
  is_match pat_ymd m ->
  exists y mo d,
    m_groups m = [Text.text y; Text.text mo; Text.text d]
    /\ (forallb digit y = true /\ length y = 4%nat)
    /\ short_digits mo /\ short_digits d.
Proof.
  intros H. three_groups pat_ymd m H w1 w2 w3 Hg F1 F2 F3.
  exists w1, w2, w3. unfold short_digits. repeat split; auto; lia.
Qed.

Lemma dmy2_groups m :
  is_match pat_dmy2 m ->
  exists a b y,
    m_groups m = [Text.text a; Text.text b; Text.text y]
    /\ short_digits a /\ short_digits b
    /\ (forallb digit y = true /\ length y = 2%nat).
Proof.
  intros H. three_groups pat_dmy2 m H w1 w2 w3 Hg F1 F2 F3.
  exists w1, w2, w3. unfold short_digits. repeat split; auto; lia.
Qed.

Lemma ymd2_groups m :
  is_match pat_ymd2 m ->
  exists y mo d,
    m_groups m = [Text.text y; Text.text mo; Text.text d]
    /\ (forallb digit y = true /\ length y = 2%nat)
    /\ short_digits mo /\ short_digits d.
Proof.
  intros H. three_groups pat_ymd2 m H w1 w2 w3 Hg F1 F2 F3.
  exists w1, w2, w3. unfold short_digits. repeat split; auto; lia.
Qed.

(** The candidates the body of a scanner's loop appends for a match,
    without raising. *)
Definition appends (body : M unit) (new : list candidate) : Prop :=
  forall ds, body ds = (Ok tt, ds ++ new).

(** The three plain date shapes.  A match of [YYYY-MM-DD] is read as
    that year, month and day; a match of the two-digit-year shapes takes
    the year in 2000-2068 for 00-68 and in 1969-1999 for 69-99.  The
    file-name scanner appends the date whenever it is a calendar date,
    the path scanner only when it also passes the sanity filter; in both
    the tag is the catalogue's format. *)
Theorem plain_shape_readings (cy : Z) (text : string) :
  List.Forall
    (fun m =>
       exists y mo d,
         m_groups m = [Text.text y; Text.text mo; Text.text d]
         /\ (forallb digit y = true /\ length y = 4%nat)
         /\ short_digits mo /\ short_digits d
         /\ appends (filename_match cy "%Y-%m-%d" m)
              (tagged
                 (datetime_new (value y) (value mo) (value d) 0 0 0)
                 "filename:%Y-%m-%d")
         /\ appends (path_match cy "%Y-%m-%d" m)
              (tagged_if (is_valid_date cy)
                 (datetime_new (value y) (value mo) (value d) 0 0 0)
                 "path:%Y-%m-%d"))
    (finditer pat_ymd text)
  /\ List.Forall
    (fun m =>
       exists a b y,
         m_groups m = [Text.text a; Text.text b; Text.text y]
         /\ short_digits a /\ short_digits b
         /\ (forallb digit y = true /\ length y = 2%nat)
         /\ appends (filename_match cy "%d-%m-%y" m)
              (tagged
                 (datetime_new (century (value y)) (value b) (value a) 0 0 0)
                 "filename:%d-%m-%y")
         /\ appends (path_match cy "%d-%m-%y" m)
              (tagged_if (is_valid_date cy)
                 (datetime_new (century (value y)) (value b) (value a) 0 0 0)
                 "path:%d-%m-%y"))
    (finditer pat_dmy2 text)
  /\ List.Forall
    (fun m =>
       exists y mo d,
         m_groups m = [Text.text y; Text.text mo; Text.text d]
         /\ (forallb digit y = true /\ length y = 2%nat)
         /\ short_digits mo /\ short_digits d
         /\ appends (filename_match cy "%y-%m-%d" m)
              (tagged
                 (datetime_new (century (value y)) (value mo) (value d) 0 0 0)
                 "filename:%y-%m-%d")
         /\ appends (path_match cy "%y-%m-%d" m)
              (tagged_if (is_valid_date cy)
                 (datetime_new (century (value y)) (value mo) (value d) 0 0 0)
                 "path:%y-%m-%d"))
    (finditer pat_ymd2 text)
  /\ In (pat_ymd, "%Y-%m-%d") (date_patterns init)
  /\ In (pat_dmy2, "%d-%m-%y") (date_patterns init)
  /\ In (pat_ymd2, "%y-%m-%d") (date_patterns init).
Proof.
  split; [|split; [|split; [|simpl; tauto]]];
    apply List.Forall_forall; intros m Hm; apply finditer_is_match in Hm.
  - destruct (ymd_groups m Hm) as (y & mo & d & Hg & [Hy Hl] & Hmo & Hd).
    exists y, mo, d. repeat split; try apply Hmo; try apply Hd; auto; intros ds;
      [apply (plain_filename_body cy _ m y mo d) | apply (plain_path_body cy _ m y mo d)];
      auto using strptime_ymd.
  - destruct (dmy2_groups m Hm) as (a & b & y & Hg & Ha & Hb & [Hy Hl]).
    exists a, b, y. repeat split; try apply Ha; try apply Hb; auto; intros ds;
      [apply (plain_filename_body cy _ m a b y) | apply (plain_path_body cy _ m a b y)];
      auto using strptime_dmy2.
  - destruct (ymd2_groups m Hm) as (y & mo & d & Hg & [Hy Hl] & Hmo & Hd).
    exists y, mo, d. repeat split; try apply Hmo; try apply Hd; auto; intros ds;
      [apply (plain_filename_body cy _ m y mo d) | apply (plain_path_body cy _ m y mo d)];
      auto using strptime_ymd2.
Qed.

(** A group of one or two digits, or of four. *)
Lemma fits_short w : fits (digit, 1%nat, 2%nat) w -> short_digits w.
Proof. intros [H1 H2]. split; [exact H1 | lia]. Qed.

Lemma fits_year w : fits (digit, 4%nat, 4%nat) w -> forallb digit w = true /\ length w = 4%nat.
Proof. intros [H1 H2]. split; [exact H1 | lia]. Qed.

Lemma int_short w : short_digits w -> PyInt.int (Text.text w) = Ok (value w).
Proof.
  intros H. apply int_text_digits; [apply H | now apply short_nonempty].
Qed.

Lemma int_year w :
  forallb digit w = true /\ length w = 4%nat -> PyInt.int (Text.text w) = Ok (value w).
Proof.
  intros [H1 H2]. apply int_text_digits; [exact H1 | eapply four_nonempty; eassumption].
Qed.

Lemma ym_groups m :
  is_match pat_ym m ->
  exists y mo,
    m_groups m = [Text.text y; Text.text mo]
    /\ (forallb digit y = true /\ length y = 4%nat) /\ short_digits mo.
Proof.
  intros H. destruct (is_match_group_specs pat_ym m eq_refl H) as (ws & Hg & F).
  inversion F as [|? y ? l1 Fy F1]; subst.
  inversion F1 as [|? mo ? l2 Fm F2]; subst. inversion F2; subst.
  exists y, mo. split; [exact Hg|]. split; [now apply fits_year | now apply fits_short].
Qed.

(** The groups of a match of a date with a time: year, month, day, hour
    and minute, and then the groups of [more]. *)
Definition timed_groups (m : rmatch) (more : list (list ascii))
  (y mo d H M : list ascii) : Prop :=
  m_groups m = map Text.text ([y; mo; d; H; M] ++ more)
  /\ (forallb digit y = true /\ length y = 4%nat)
  /\ short_digits mo /\ short_digits d /\ short_digits H /\ short_digits M.

Lemma datetime_m_groups m :
  is_match pat_datetime_m m ->
  exists y mo d H M, timed_groups m [] y mo d H M.
Proof.
  intros Hm. destruct (is_match_group_specs pat_datetime_m m eq_refl Hm) as (ws & Hg & F).
  inversion F as [|? y ? l1 Fy F1]; subst.
  inversion F1 as [|? mo ? l2 Fmo F2]; subst.
  inversion F2 as [|? d ? l3 Fd F3]; subst.
  inversion F3 as [|? H ? l4 FH F4]; subst.
  inversion F4 as [|? M ? l5 FM F5]; subst. inversion F5; subst.
  exists y, mo, d, H, M. unfold timed_groups.
  split; [exact Hg|]. auto using fits_year, fits_short.
Qed.

Lemma datetime_s_groups m :
  is_match pat_datetime_s m ->
  exists y mo d H M S, timed_groups m [S] y mo d H M /\ short_digits S.
Proof.
  intros Hm. destruct (is_match_group_specs pat_datetime_s m eq_refl Hm) as (ws & Hg & F).
  inversion F as [|? y ? l1 Fy F1]; subst.
  inversion F1 as [|? mo ? l2 Fmo F2]; subst.
  inversion F2 as [|? d ? l3 Fd F3]; subst.
  inversion F3 as [|? H ? l4 FH F4]; subst.
  inversion F4 as [|? M ? l5 FM F5]; subst.
  inversion F5 as [|? S ? l6 FS F6]; subst. inversion F6; subst.
  exists y, mo, d, H, M, S. unfold timed_groups.
  split; [|now apply fits_short]. split; [exact Hg|]. auto using fits_year, fits_short.
Qed.

Lemma datetime_of_parts_timed m more y mo d H M :
  timed_groups m more y mo d H M ->
  datetime_of_parts (m_groups m) false
  = datetime_new (value y) (value mo) (value d) (value H) (value M) 0
  /\ forall S, more = [S] -> short_digits S ->
       datetime_of_parts (m_groups m) true
       = datetime_new (value y) (value mo) (value d) (value H) (value M) (value S).
Proof.
  intros (Hg & Hy & Hmo & Hd & HH & HM). rewrite Hg.
  unfold datetime_of_parts, int_item, Py.item. cbn [map app nth_error rbind].
  rewrite (int_year y Hy), (int_short mo Hmo), (int_short d Hd),
    (int_short H HH), (int_short M HM). cbn [rbind].
  split; [reflexivity|]. intros S -> HS. cbn [map nth_error rbind].
  now rewrite (int_short S HS).
Qed.

Ltac keep_or_drop cy :=
  let dt := fresh "dt" in
  match goal with
  | |- context [datetime_new ?y ?m ?d ?H ?M ?S] =>
      destruct (datetime_new_cases y m d H M S) as [[dt ->]| ->]
  end;
  cbn [tagged_if rbind];
  repeat match goal with
         | |- context [is_valid_date cy ?x] => destruct (is_valid_date cy x)
         end;
  cbn [when]; unfold append, pass, continue, ret; rewrite ?app_nil_r; reflexivity.

(** The shapes whose date is built with the constructor: the date with
    a time to the second or to the minute, and the year with a month set
    to the first of the month.  The groups are digit texts, the date is
    the constructor applied to the numbers they spell, and both scanners
    keep it only when it is a calendar date, with a time of day that
    exists, and passes the sanity filter. *)
Theorem constructed_shape_readings (cy : Z) (text : string) :
  List.Forall
    (fun m =>
       exists y mo d H M S,
         timed_groups m [S] y mo d H M /\ short_digits S
         /\ appends (filename_match cy "%Y-%m-%d-%H-%M-%S" m)
              (tagged_if (is_valid_date cy)
                 (datetime_new (value y) (value mo) (value d) (value H) (value M) (value S))
                 "filename:YYYY-MM-DD HH:MM:SS")
         /\ appends (path_match cy "%Y-%m-%d-%H-%M-%S" m)
              (tagged_if (is_valid_date cy)
                 (datetime_new (value y) (value mo) (value d) (value H) (value M) (value S))
                 "path:YYYY-MM-DD HH:MM:SS"))
    (finditer pat_datetime_s text)
  /\ List.Forall
    (fun m =>
       exists y mo d H M,
         timed_groups m [] y mo d H M
         /\ appends (filename_match cy "%Y-%m-%d-%H-%M" m)
              (tagged_if (is_valid_date cy)
                 (datetime_new (value y) (value mo) (value d) (value H) (value M) 0)
                 "filename:YYYY-MM-DD HH:MM")
         /\ appends (path_match cy "%Y-%m-%d-%H-%M" m)
              (tagged_if (is_valid_date cy)
                 (datetime_new (value y) (value mo) (value d) (value H) (value M) 0)
                 "path:YYYY-MM-DD HH:MM"))
    (finditer pat_datetime_m text)
  /\ List.Forall
    (fun m =>
       exists y mo,
         m_groups m = [Text.text y; Text.text mo]
         /\ (forallb digit y = true /\ length y = 4%nat) /\ short_digits mo
         /\ appends (filename_match cy "%Y-%m" m)
              (tagged_if (is_valid_date cy)
                 (datetime_new (value y) (value mo) 1 0 0 0)
                 "filename:YYYY-MM (set to 1st of month)")
         /\ appends (path_match cy "%Y-%m" m)
              (tagged_if (is_valid_date cy)
                 (datetime_new (value y) (value mo) 1 0 0 0)
                 "path:YYYY-MM (set to 1st of month)"))
    (finditer pat_ym text)
  /\ In (pat_datetime_s, "%Y-%m-%d-%H-%M-%S") (date_patterns init)
  /\ In (pat_datetime_m, "%Y-%m-%d-%H-%M") (date_patterns init)
  /\ In (pat_ym, "%Y-%m") (date_patterns init).
Proof.
  split; [|split; [|split; [|simpl; tauto]]];
    apply List.Forall_forall; intros m Hm; apply finditer_is_match in Hm.
  - destruct (datetime_s_groups m Hm) as (y & mo & d & H & M & S & Hg & HS).
    destruct (datetime_of_parts_timed m [S] y mo d H M Hg) as [_ Hp].
    specialize (Hp S eq_refl HS).
    exists y, mo, d, H, M, S. split; [exact Hg|]. split; [exact HS|].
    split; intros ds; unfold filename_match, path_match;
      cbn [String.eqb Ascii.eqb Bool.eqb is_in existsb orb andb];
      unfold try_except, bind, lift; rewrite Hp; keep_or_drop cy.
  - destruct (datetime_m_groups m Hm) as (y & mo & d & H & M & Hg).
    destruct (datetime_of_parts_timed m [] y mo d H M Hg) as [Hp _].
    exists y, mo, d, H, M. split; [exact Hg|].
    split; intros ds; unfold filename_match, path_match;
      cbn [String.eqb Ascii.eqb Bool.eqb is_in existsb orb andb];
      unfold try_except, bind, lift; rewrite Hp; keep_or_drop cy.
  - destruct (ym_groups m Hm) as (y & mo & Hg & Hy & Hmo).
    exists y, mo. split; [exact Hg|]. split; [exact Hy|]. split; [exact Hmo|].
    split; intros ds; unfold filename_match, path_match;
      cbn [String.eqb Ascii.eqb Bool.eqb is_in existsb orb andb];
      unfold try_except, bind, lift; rewrite Hg; cbn [Py.unpack2 rbind];
      unfold first_of_month; rewrite (int_year y Hy), (int_short mo Hmo);
      cbn [rbind]; keep_or_drop cy.
Qed.

End Readings.

(** ** Month names *)

Module MonthNames.
Import Regex RegexFacts Scan ScanFacts DateExtractor Cli Safety Groups Years Shapes.
Import Resolver EndToEnd WriteBack Manual Readings.
Import Strptime.

(** The number of the month an abbreviation names, in any case. *)
Definition month_number (mon : list ascii) : result Z :=
  index_of (lower_text mon) month_abbr 1.

Lemma run_alt_of r rs st :
  run (alt_of r rs) st = flat_map (fun r' => run r' st) (r :: rs).
Proof.
  revert r; induction rs as [|r' rs IH]; intros r; simpl.
  - now rewrite app_nil_r.
  - now rewrite IH.
Qed.

Lemma flat_map_ext_on {A B} (f g : A -> list B) l :
  (forall x, In x l -> f x = g x) -> flat_map f l = flat_map g l.
Proof.
  induction l as [|a l IH]; simpl; intros H; [reflexivity|].
  rewrite (H a), IH; auto.
Qed.

(** A word of three letters against a text of three characters or
    more. *)
Lemma run_word3 c0 c1 c2 p m0 m1 m2 t cs :
  run (word_ci c0 [c1; c2]) (mk_mstate p (m0 :: m1 :: m2 :: t) cs)
  = if lit_ci c0 m0 && lit_ci c1 m1 && lit_ci c2 m2
    then [mk_mstate (p + 1 + 1 + 1) t cs] else [].
Proof.
  cbn [word_ci run rest].
  destruct (lit_ci c0 m0); [|reflexivity]. cbn [flat_map advance rest skipn pos caps].
  destruct (lit_ci c1 m1); [|reflexivity]. cbn [flat_map advance rest skipn pos caps app].
  destruct (lit_ci c2 m2); reflexivity.
Qed.

Lemma word_is_text s m0 m1 m2 :
  In s month_abbr ->
  match Text.chars s with
  | [c0; c1; c2] =>
      word_of s = word_ci c0 [c1; c2]
      /\ lit_ci c0 m0 && lit_ci c1 m1 && lit_ci c2 m2
         = String.eqb (lower_text [m0; m1; m2]) s
  | _ => False
  end.
Proof.
  intros Hs. unfold month_abbr in Hs. simpl in Hs.
  unfold lower_text. cbn [map Text.text string_of_list_ascii].
  unfold lit_ci.
  generalize (lower m0) (lower m1) (lower m2). intros l0 l1 l2.
  repeat (destruct Hs as [<-|Hs];
          [split; [reflexivity|];
           cbn [Text.chars list_ascii_of_string String.eqb];
           match goal with
           | |- Ascii.eqb l0 ?a && Ascii.eqb l1 ?b && Ascii.eqb l2 ?c = _ =>
               change a with (lower a); change b with (lower b); change c with (lower c)
           | _ => idtac
           end;
           destruct (Ascii.eqb l0 _), (Ascii.eqb l1 _), (Ascii.eqb l2 _); reflexivity|]).
  destruct Hs.
Qed.

Lemma index_of_found w l i :
  List.NoDup l ->
  forall (A : Type) (x : A),
    flat_map (fun s => if String.eqb w s then [x] else []) l
    = match index_of w l i with Ok _ => [x] | Raise _ => [] end.
Proof.
  intros Hnd A x. revert i; induction Hnd as [|a l Ha Hnd IH]; intros i; simpl.
  - reflexivity.
  - destruct (String.eqb_spec w a) as [->|Hne].
    + simpl. f_equal. clear IH Hnd.
      induction l as [|b l IHl]; simpl; [reflexivity|].
      destruct (String.eqb_spec a b) as [->|_]; [exfalso; apply Ha; now left|].
      apply IHl. intros H. apply Ha. now right.
    + apply IH.
Qed.

Lemma month_abbr_NoDup : List.NoDup month_abbr.
Proof.
  unfold month_abbr.
  repeat (constructor; [simpl; intuition discriminate|]). constructor.
Qed.

(** The month directive against three characters. *)
Lemma run_month_name p m0 m1 m2 t cs :
  run (Grp re_b) (mk_mstate p (m0 :: m1 :: m2 :: t) cs)
  = match month_number [m0; m1; m2] with
    | Ok _ => [mk_mstate (p + 3) t (cs ++ [[m0; m1; m2]])]
    | Raise _ => []
    end.
Proof.
  cbn [run]. unfold re_b. rewrite run_alt_of.
  change (word_of "jan" :: map word_of (tl month_abbr)) with (map word_of month_abbr).
  rewrite flat_map_concat_map, map_map, <- flat_map_concat_map.
  rewrite (flat_map_ext_on _
             (fun s => if String.eqb (lower_text [m0; m1; m2]) s
                       then [mk_mstate (p + 1 + 1 + 1) t cs] else [])).
  - rewrite (index_of_found _ _ 1 month_abbr_NoDup). fold (month_number [m0; m1; m2]).
    destruct (month_number [m0; m1; m2]); [|reflexivity].
    cbn [map]. unfold close_group. cbn [pos rest caps].
    replace (p + 1 + 1 + 1 - p)%nat with 3%nat by lia.
    replace (p + 1 + 1 + 1)%nat with (p + 3)%nat by lia. reflexivity.
  - intros s Hs. pose proof (word_is_text s m0 m1 m2 Hs) as H.
    destruct (Text.chars s) as [|c0 [|c1 [|c2 [|c3 r]]]]; try contradiction.
    destruct H as [-> <-]. apply run_word3.
Qed.

Lemma flat_map_none {A B} (f : A -> list B) l :
  (forall x, In x l -> f x = []) -> flat_map f l = [].
Proof.
  induction l as [|a l IH]; simpl; intros H; [reflexivity|].
  rewrite (H a), IH; auto.
Qed.

(** The month directive against a text that starts with a digit. *)
Lemma run_month_digit st c s :
  rest st = c :: s -> digit c = true -> run (Grp re_b) st = [].
Proof.
  intros Hr Hc. cbn [run]. unfold re_b. rewrite run_alt_of.
  change (word_of "jan" :: map word_of (tl month_abbr)) with (map word_of month_abbr).
  assert (E : flat_map (fun r' => run r' st) (map word_of month_abbr) = []).
  { apply flat_map_none. intros r Hr'. apply in_map_iff in Hr' as (w & <- & Hw).
    unfold month_abbr in Hw. simpl in Hw. each_digit c Hc;
      repeat (destruct Hw as [<-|Hw]; [cbn; rewrite Hr; reflexivity|]); destruct Hw. }
  now rewrite E.
Qed.

(** States that stand before a digit. *)
Definition before_digit (st : mstate) : Prop :=
  exists c s, rest st = c :: s /\ digit c = true.

Lemma run_chr p n a s cs :
  run (Chr p) (mk_mstate n (a :: s) cs)
  = if p a then [mk_mstate (n + 1) s cs] else [].
Proof. reflexivity. Qed.

Lemma run_chr2 p q n a b s cs :
  run (Seq (Chr p) (Chr q)) (mk_mstate n (a :: b :: s) cs)
  = if p a then (if q b then [mk_mstate (n + 1 + 1) s cs] else []) else [].
Proof.
  cbn [run rest]. destruct (p a); [|reflexivity].
  cbn [flat_map advance rest skipn pos caps]. destruct (q b); reflexivity.
Qed.

Lemma not_digit_range lo hi x :
  48 <= code lo -> code hi <= 57 -> digit x = false -> range lo hi x = false.
Proof.
  intros H1 H2 Hx. destruct (range lo hi x) eqn:E; [|reflexivity].
  apply (range_digit lo hi x H1 H2) in E. congruence.
Qed.

(** The day directive at the start of a text, before a character that
    is no digit: the first way to match takes all the digits when they
    are a day of 1 to 31; the other ways stop before a digit. *)
Lemma run_day_letter d x t cs :
  short_digits d -> digit x = false ->
  exists junk,
    run (Grp re_d) (mk_mstate 0 (d ++ x :: t) cs)
    = (if in_range 1 (value d) 31
       then [mk_mstate (length d) (x :: t) (cs ++ [d])] else []) ++ junk
    /\ List.Forall before_digit junk.
Proof.
  intros [Hd Hl] Hx. unfold before_digit.
  destruct d as [|d0 [|d1 [|d2 d]]]; simpl in Hl; try lia.
  - simpl in Hd. apply andb_true_iff in Hd as [H0 _].
    exists []. split; [|constructor]. rewrite app_nil_r.
    cbn [run app]. unfold re_d, one, rng, dig. rewrite run_alt_of.
    cbn [flat_map]. rewrite !run_chr2, run_chr, Hx.
    rewrite !(not_digit_range _ _ x) by (vm_compute; congruence || assumption).
    each_digit d0 H0; vm_compute; reflexivity.
  - simpl in Hd. apply andb_true_iff in Hd as [H0 Hd].
    apply andb_true_iff in Hd as [H1 _].
    exists (if range "1" "9" d0
            then [mk_mstate 1 (d1 :: x :: t) (cs ++ [[d0]])] else []).
    split.
    + clear Hx. each_digit d0 H0; each_digit d1 H1; vm_compute; reflexivity.
    + destruct (range "1" "9" d0); constructor; [|constructor].
      exists d1, (x :: t). split; [reflexivity | exact H1].
Qed.

Lemma run_day_dash_after_month cs a t :
  forallb digit a = true -> (1 <= length a <= 2)%nat ->
  run (Seq (Grp re_d) dash) (mk_mstate 4 (a ++ "-"%char :: t) cs)
  = if in_range 1 (value a) 31
    then [mk_mstate (4 + length a + 1) t (cs ++ [a])] else [].
Proof.
  intros Hd Hl.
  destruct a as [|a0 [|a1 [|a2 a]]]; simpl in Hl; try lia.
  - simpl in Hd. apply andb_true_iff in Hd as [H0 _].
    each_digit a0 H0; vm_compute; reflexivity.
  - simpl in Hd. apply andb_true_iff in Hd as [H0 Hd].
    apply andb_true_iff in Hd as [H1 _].
    each_digit a0 H0; each_digit a1 H1; vm_compute; reflexivity.
Qed.

Lemma index_of_raises w l i e : index_of w l i = Raise e -> e = ValueError.
Proof.
  revert i; induction l as [|x l IH]; intros i; simpl; [congruence|].
  destruct (String.eqb w x); [discriminate | apply IH].
Qed.

(** The date a day, a month abbreviation and a two-digit year spell. *)
Definition month_date (d mon y : list ascii) : result datetime :=
  let? k := month_number mon in
  datetime_new (century (value y)) k (value d) 0 0 0.

Lemma month_date_cases d mon y :
  (exists dt, month_date d mon y = Ok dt) \/ month_date d mon y = Raise ValueError.
Proof.
  unfold month_date. destruct (month_number mon) as [k|e] eqn:E; cbn [rbind].
  - apply datetime_new_cases.
  - right. apply index_of_raises in E. now subst.
Qed.

Lemma junk_no_month rs junk :
  List.Forall before_digit junk ->
  flat_map (run_all (Grp re_b :: rs)) junk = [].
Proof.
  intros F. apply flat_map_none. intros st Hst.
  rewrite List.Forall_forall in F. destruct (F st Hst) as (c & s & Hr & Hc).
  cbn [run_all]. now rewrite (run_month_digit st c s Hr Hc).
Qed.

Lemma strptime_dby d m0 m1 m2 y :
  short_digits d -> alpha m0 = true ->
  forallb digit y = true -> length y = 2%nat ->
  strptime (Text.text d +:+ Text.text [m0; m1; m2] +:+ Text.text y) "%d%b%y"
  = month_date d [m0; m1; m2] y.
Proof.
  intros Hd Hm Hy Hly. unfold strptime, month_date.
  change (compile (parse_format false (Text.chars "%d%b%y")))
    with (Some [Grp re_d; Grp re_b; Grp re_y]).
  change (directives (parse_format false (Text.chars "%d%b%y")))
    with ["d"; "b"; "y"]%char.
  cbv iota beta.
  rewrite !chars_append, !chars_text. cbn [app].
  change (run_all [Grp re_d; Grp re_b; Grp re_y] ?st)
    with (flat_map (run_all [Grp re_b; Grp re_y]) (run (Grp re_d) st)).
  destruct (run_day_letter d m0 (m1 :: m2 :: y) [] Hd (alpha_not_digit m0 Hm))
    as (junk & -> & Hj).
  rewrite flat_map_app, (junk_no_month _ junk Hj), app_nil_r.
  destruct (in_range 1 (value d) 31) eqn:Ed.
  - cbn [flat_map app]. rewrite app_nil_r.
    change (run_all [Grp re_b; Grp re_y] ?st)
      with (flat_map (run_all [Grp re_y]) (run (Grp re_b) st)).
    rewrite run_month_name.
    destruct (month_number [m0; m1; m2]) as [k|e] eqn:Ek; cbn [rbind].
    + cbn [flat_map]. rewrite app_nil_r, run_all_last, run_year2_end by assumption.
      cbn [rest caps app convert_all]. unfold convert. cbn [Ascii.eqb Bool.eqb].
      fold (month_number [m0; m1; m2]). rewrite Ek.
      rewrite !int_chars_digits;
        try assumption; try apply Hd;
        try (apply short_nonempty; assumption);
        try (destruct y; [discriminate | congruence]).
      reflexivity.
    + apply index_of_raises in Ek. now subst.
  - cbn [flat_map].
    destruct (month_number [m0; m1; m2]) as [k|e] eqn:Ek; cbn [rbind].
    + now rewrite datetime_new_bad_day.
    + apply index_of_raises in Ek. now subst.
Qed.

Lemma strptime_bdy d m0 m1 m2 y :
  short_digits d ->
  forallb digit y = true -> length y = 2%nat ->
  strptime (Text.text [m0; m1; m2] +:+ "-" +:+ Text.text d +:+ "-" +:+ Text.text y)
           "%b-%d-%y"
  = month_date d [m0; m1; m2] y.
Proof.
  intros Hd Hy Hly. unfold strptime, month_date.
  change (compile (parse_format false (Text.chars "%b-%d-%y")))
    with (Some [Grp re_b; dash; Grp re_d; dash; Grp re_y]).
  change (directives (parse_format false (Text.chars "%b-%d-%y")))
    with ["b"; "d"; "y"]%char.
  cbv iota beta.
  rewrite !chars_append, !chars_text. change (Text.chars "-") with ["-"%char].
  cbn [app].
  rewrite run_all_pair.
  change (run (Seq (Grp re_b) dash) ?st) with (flat_map (run dash) (run (Grp re_b) st)).
  rewrite run_month_name.
  destruct (month_number [m0; m1; m2]) as [k|e] eqn:Ek; cbn [rbind];
    [|apply index_of_raises in Ek; now subst].
  cbn [flat_map app]. rewrite app_nil_r.
  change (run dash (mk_mstate (0 + 3) ("-"%char :: ?s) ?cs)) with [mk_mstate 4 s cs].
  cbn [flat_map]. rewrite app_nil_r.
  rewrite run_all_pair, run_day_dash_after_month; [|apply Hd|apply Hd].
  destruct (in_range 1 (value d) 31) eqn:Ed;
    [|simpl; now rewrite datetime_new_bad_day].
  cbn [flat_map]. rewrite app_nil_r.
  rewrite run_all_last, run_year2_end by assumption.
  cbn [rest caps app convert_all]. unfold convert. cbn [Ascii.eqb Bool.eqb].
  fold (month_number [m0; m1; m2]). rewrite Ek.
  rewrite !int_chars_digits;
    try assumption; try apply Hd;
    try (apply short_nonempty; assumption);
    try (destruct y; [discriminate | congruence]).
  reflexivity.
Qed.

Ltac month_body cy Hg Hs d mon y :=
  intros ds; unfold filename_match, path_match;
  cbn [String.eqb Ascii.eqb Bool.eqb is_in existsb orb andb];
  unfold try_except, bind, lift; rewrite Hg; cbn [Py.unpack3 rbind];
  rewrite Hs;
  let dt := fresh "dt" in
  destruct (month_date_cases d mon y) as [[dt ->]| ->];
  cbn [tagged_if];
  repeat match goal with
         | |- context [is_valid_date cy ?x] => destruct (is_valid_date cy x)
         end;
  cbn [when]; unfold append, pass, continue, ret; rewrite ?app_nil_r; reflexivity.

Lemma d_mon_y_body cy m d mon y :
  m_groups m = [Text.text d; Text.text mon; Text.text y] ->
  strptime (Text.text d +:+ Text.text mon +:+ Text.text y) "%d%b%y" = month_date d mon y ->
  appends (filename_match cy "%d%b%y" m)
    (tagged_if (is_valid_date cy) (month_date d mon y) "filename:DD-MMM-YY")
  /\ appends (path_match cy "%d%b%y" m)
    (tagged_if (is_valid_date cy) (month_date d mon y) "path:DD-MMM-YY").
Proof. intros Hg Hs. split; month_body cy Hg Hs d mon y. Qed.

Lemma mon_d_y_body cy m d mon y :
  m_groups m = [Text.text mon; Text.text d; Text.text y] ->
  strptime (Text.text mon +:+ "-" +:+ Text.text d +:+ "-" +:+ Text.text y) "%b-%d-%y"
  = month_date d mon y ->
  appends (filename_match cy "%b-%d-%y" m)
    (tagged_if (is_valid_date cy) (month_date d mon y) "filename:%b-%d-%y")
  /\ appends (path_match cy "%b-%d-%y" m)
    (tagged_if (is_valid_date cy) (month_date d mon y) "path:%b-%d-%y").
Proof. intros Hg Hs. split; month_body cy Hg Hs d mon y. Qed.

Lemma y_mon_d_body cy m d mon y :
  m_groups m = [Text.text y; Text.text mon; Text.text d] ->
  strptime (Text.text mon +:+ "-" +:+ Text.text d +:+ "-" +:+ Text.text y) "%b-%d-%y"
  = month_date d mon y ->
  appends (filename_match cy "%y-%b-%d" m)
    (tagged_if (is_valid_date cy) (month_date d mon y) "filename:%y-%b-%d")
  /\ appends (path_match cy "%y-%b-%d" m)
    (tagged_if (is_valid_date cy) (month_date d mon y) "path:%y-%b-%d").
Proof. intros Hg Hs. split; month_body cy Hg Hs d mon y. Qed.

Lemma three_letters (mon : list ascii) :
  forallb alpha mon = true -> length mon = 3%nat ->
  exists m0 m1 m2, mon = [m0; m1; m2] /\ alpha m0 = true.
Proof.
  intros Ha Hl. destruct mon as [|m0 [|m1 [|m2 [|m3 mon]]]]; try discriminate Hl.
  exists m0, m1, m2. split; [reflexivity|]. now apply forallb_hd in Ha.
Qed.

(** The three month-name shapes with a year of two digits.  The date is
    the day and year the digit groups spell, the year taken in 2000-2068
    for 00-68 and in 1969-1999 for 69-99, in the month whose English
    abbreviation the letters are, in any case; letters that name no
    month, or a day the month does not have, add nothing.  Both scanners
    apply the sanity filter.  In the year-first shape the text is put in
    month-day-year order before it is parsed. *)
Theorem month_name_readings (cy : Z) (text : string) :
  List.Forall
    (fun m =>
       exists d mon y,
         m_groups m = [Text.text d; Text.text mon; Text.text y]
         /\ (length y = 2%nat ->
             appends (filename_match cy "%d%b%y" m)
               (tagged_if (is_valid_date cy) (month_date d mon y) "filename:DD-MMM-YY")
             /\ appends (path_match cy "%d%b%y" m)
               (tagged_if (is_valid_date cy) (month_date d mon y) "path:DD-MMM-YY")))
    (finditer pat_d_mon_y text)
  /\ List.Forall
    (fun m =>
       exists mon d y,
         m_groups m = [Text.text mon; Text.text d; Text.text y]
         /\ (length y = 2%nat ->
             appends (filename_match cy "%b-%d-%y" m)
               (tagged_if (is_valid_date cy) (month_date d mon y) "filename:%b-%d-%y")
             /\ appends (path_match cy "%b-%d-%y" m)
               (tagged_if (is_valid_date cy) (month_date d mon y) "path:%b-%d-%y")))
    (finditer pat_mon_d_y text)
  /\ List.Forall
    (fun m =>
       exists y mon d,
         m_groups m = [Text.text y; Text.text mon; Text.text d]
         /\ (length y = 2%nat ->
             appends (filename_match cy "%y-%b-%d" m)
               (tagged_if (is_valid_date cy) (month_date d mon y) "filename:%y-%b-%d")
             /\ appends (path_match cy "%y-%b-%d" m)
               (tagged_if (is_valid_date cy) (month_date d mon y) "path:%y-%b-%d")))
    (finditer pat_y_mon_d text)
  /\ In (pat_d_mon_y, "%d%b%y") (date_patterns init)
  /\ In (pat_mon_d_y, "%b-%d-%y") (date_patterns init)
  /\ In (pat_y_mon_d, "%y-%b-%d") (date_patterns init).
Proof.
  split; [|split; [|split; [|simpl; tauto]]];
    apply List.Forall_forall; intros m Hm; apply finditer_is_match in Hm.
  - destruct (d_mon_y_groups m Hm) as (d & mon & y & Hg & Hd & [Hmo Hlm] & [Hy _]).
    exists d, mon, y. split; [exact Hg|]. intros Hly.
    destruct (three_letters mon Hmo Hlm) as (m0 & m1 & m2 & -> & Hm0).
    apply (d_mon_y_body cy m d _ y Hg). now apply strptime_dby.
  - destruct (mon_d_y_groups m Hm) as (mon & d & y & Hg & Hd & [Hmo Hlm] & [Hy _]).
    exists mon, d, y. split; [exact Hg|]. intros Hly.
    destruct (three_letters mon Hmo Hlm) as (m0 & m1 & m2 & -> & Hm0).
    apply (mon_d_y_body cy m d _ y Hg). now apply strptime_bdy.
  - destruct (y_mon_d_groups m Hm) as (y & mon & d & Hg & Hd & [Hmo Hlm] & [Hy _]).
    exists y, mon, d. split; [exact Hg|]. intros Hly.
    destruct (three_letters mon Hmo Hlm) as (m0 & m1 & m2 & -> & Hm0).
    apply (y_mon_d_body cy m d _ y Hg). now apply strptime_bdy.
Qed.

End MonthNames.

(** ** The two readings of a day/month-order date *)

Module DayMonthOrder.
Import Regex RegexFacts Scan ScanFacts DateExtractor Safety Groups Years Shapes.
Import Resolver.








End DayMonthOrder.

(** ** Month names with a long year *)

Module LongYears.
Import Regex RegexFacts Scan ScanFacts DateExtractor Safety Groups Years Shapes.



End LongYears.
